(** * Study-plan scheduling engine: shallow embedding and verification

    The development embeds the scheduling code of [utils/scheduler_utils.py]
    (class [SchedulerUtils]) and of [agents/planner_agent.py] (class
    [PlannerAgent]) and proves properties of the embedded functions.

    Conventions of the embedding:
    - a Python [int] is a [Z]; [//] is [Z.div] (both round towards minus
      infinity for a positive divisor);
    - a Python [str] is a [string] of bytes; comparison of strings is the
      bytewise lexicographic order, which is the code-point order of the
      UTF-8 encoding;
    - a Python [float] is a binary64 [float] of the kernel;
    - a Python [dict] is an association list in insertion order: assigning to
      an existing key keeps the key's position and replaces its value,
      assigning to a new key appends it;
    - an exception is a value of type [exn] carried by [Raises]; a loop whose
      recursion is not structural takes a fuel argument and answers [None]
      when it is exhausted (the theorems show it never is). *)

From Stdlib Require Import List String Ascii ZArith Lia Bool Arith.
From Stdlib Require Import Permutation Sorted DecimalString DecimalZ.
From Stdlib Require Import Floats Uint63.
Import ListNotations.

Set Warnings "-inexact-float".

Local Open Scope string_scope.
Local Open Scope Z_scope.

(** ** Outcomes of a call *)

Inductive exn : Type :=
| ZeroDivisionError
| KeyError (key : string)
| ValueError
| OverflowError
| TypeError
| AttributeError.

Inductive outcome (A : Type) : Type :=
| Returns (a : A)
| Raises (e : exn).

Arguments Returns {A} a.
Arguments Raises {A} e.

Definition bind {A B : Type} (m : outcome A) (k : A -> outcome B) : outcome B :=
  match m with
  | Returns a => k a
  | Raises e => Raises e
  end.

Notation "x <- m ;; k" := (bind m (fun x => k))
  (at level 61, m at next level, right associativity).

(** ** Insertion-ordered dictionaries with string keys *)

Definition dict (V : Type) : Type := list (string * V).

Fixpoint dict_get {V : Type} (k : string) (d : dict V) : option V :=
  match d with
  | [] => None
  | (k', v) :: r => if String.eqb k k' then Some v else dict_get k r
  end.

Definition dict_mem {V : Type} (k : string) (d : dict V) : bool :=
  match dict_get k d with Some _ => true | None => false end.

(** [d[k] = v] *)
Fixpoint dict_set {V : Type} (k : string) (v : V) (d : dict V) : dict V :=
  match d with
  | [] => [(k, v)]
  | (k', v') :: r =>
      if String.eqb k k' then (k', v) :: r else (k', v') :: dict_set k v r
  end.

(** [d[k].append(x)] on a dictionary of lists; a missing key leaves the
    dictionary as it is (the callers test membership first). *)
Fixpoint dict_append {V : Type} (k : string) (x : V) (d : dict (list V))
  : dict (list V) :=
  match d with
  | [] => []
  | (k', l) :: r =>
      if String.eqb k k' then (k', (l ++ [x])%list) :: r
      else (k', l) :: dict_append k x r
  end.

Definition dict_keys {V : Type} (d : dict V) : list string := map fst d.
Definition dict_values {V : Type} (d : dict V) : list V := map snd d.

(** A dictionary has each key once. *)
Definition dict_wf {V : Type} (d : dict V) : Prop := NoDup (dict_keys d).

(** [str(n)] for an integer *)
Definition str_of_int (n : Z) : string := NilZero.string_of_int (Z.to_int n).

(** ** Sessions

    A session is a dictionary with the keys [time], [activity], [duration],
    [topic] and [session_type]; a field is [None] when the key is absent.
    The values are strings, but for [topic], whose value is a string or
    [None]: the review sessions of the spaced repetition carry the topic
    they were made for, which can be [None].  The allocator of
    [SchedulerUtils] produces pairs [(topic, hours)] instead, and the
    functions that take a schedule test [isinstance] on each element, so a
    schedule entry is one of the three shapes below. *)

Record session_dict : Type := mk_session {
  time : option string;
  activity : option string;
  duration : option string;
  topic : option (option string);
  session_type : option string
}.

Inductive session : Type :=
| SDict (d : session_dict)
| STuple (t : string) (hours : Z)
| SOther.

Definition schedule : Type := dict (list session).

(** ** Dates

    A [datetime] is the proleptic Gregorian ordinal of its day
    ([date.toordinal()], 1 for 0001-01-01 and 3652059 for 9999-12-31) and
    the microseconds elapsed since midnight. *)

Record datetime : Type := mk_datetime {
  ordinal : Z;
  day_micros : Z
}.

Definition micros_per_day : Z := 86400000000.

Definition total_micros (d : datetime) : Z :=
  ordinal d * micros_per_day + day_micros d.

(** [(a - b).days]: a [timedelta] keeps its seconds and microseconds
    non-negative, so the days are the floor of the difference. *)
Definition timedelta_days (a b : datetime) : Z :=
  (total_micros a - total_micros b) / micros_per_day.

(** [d + timedelta(days=n)] *)
Definition add_days (d : datetime) (n : Z) : outcome datetime :=
  let o := ordinal d + n in
  if (1 <=? o) && (o <=? 3652059) then Returns (mk_datetime o (day_micros d))
  else Raises OverflowError.

Definition weekday_names : list string :=
  ["Monday"; "Tuesday"; "Wednesday"; "Thursday"; "Friday"; "Saturday"; "Sunday"].

(** [d.strftime('%A')]; [weekday()] is [(toordinal() + 6) % 7]. *)
Definition weekday_name (d : datetime) : string :=
  nth (Z.to_nat ((ordinal d + 6) mod 7)) weekday_names "".

Module SchedulerUtils.

(** *** [optimize_topic_distribution] *)

Record alloc_state : Type := mk_alloc {
  sched : dict (list (string * Z));
  current_day : Z;
  hours_remaining_today : Z
}.

Definition day_key (current_day : Z) : string :=
  "Day " ++ str_of_int (current_day + 1).

(** The [while topic_hours > 0] loop for one topic.  The result carries
    the state at the exit of the loop, by the condition or by [break]. *)
Fixpoint alloc_topic (fuel : nat) (available_days daily_hours : Z)
    (topic : string) (topic_hours : Z) (st : alloc_state)
  : option alloc_state :=
  if topic_hours <=? 0 then Some st else
  match fuel with
  | O => None
  | S fuel' =>
      let key := day_key (current_day st) in
      let sched1 :=
        if dict_mem key (sched st) then sched st
        else dict_set key [] (sched st) in
      let hours_to_allocate := Z.min topic_hours (hours_remaining_today st) in
      let '(sched2, topic_hours', remaining) :=
        if 0 <? hours_to_allocate then
          (dict_append key (topic, hours_to_allocate) sched1,
           topic_hours - hours_to_allocate,
           hours_remaining_today st - hours_to_allocate)
        else (sched1, topic_hours, hours_remaining_today st) in
      if remaining <=? 0 then
        let day' := current_day st + 1 in
        if day' >=? available_days then
          Some (mk_alloc sched2 day' daily_hours)
        else
          alloc_topic fuel' available_days daily_hours topic topic_hours'
            (mk_alloc sched2 day' daily_hours)
      else
        alloc_topic fuel' available_days daily_hours topic topic_hours'
          (mk_alloc sched2 (current_day st) remaining)
  end.

(** Fuel that one run of the inner loop cannot exhaust: every iteration
    either lowers [topic_hours] or moves to the next day. *)
Definition alloc_fuel (available_days topic_hours current_day : Z) : nat :=
  (Z.to_nat topic_hours + Z.to_nat (available_days - current_day))%nat.

(** The [for topic in topics] loop, with its [break]. *)
Fixpoint alloc_topics (available_days daily_hours hours_per_topic : Z)
    (topics : list string) (st : alloc_state) : option alloc_state :=
  match topics with
  | [] => Some st
  | topic :: rest =>
      match alloc_topic
              (alloc_fuel available_days hours_per_topic (current_day st))
              available_days daily_hours topic hours_per_topic st with
      | None => None
      | Some st' =>
          if current_day st' >=? available_days then Some st'
          else alloc_topics available_days daily_hours hours_per_topic rest st'
      end
  end.

Definition optimize_topic_distribution (topics : list string)
    (available_days daily_hours : Z)
  : option (outcome (dict (list (string * Z)))) :=
  let total_hours := available_days * daily_hours in
  match topics with
  | [] => Some (Raises ZeroDivisionError)
  | _ =>
      let hours_per_topic :=
        Z.max 1 (total_hours / Z.of_nat (List.length topics)) in
      match alloc_topics available_days daily_hours hours_per_topic topics
              (mk_alloc [] 0 daily_hours) with
      | None => None
      | Some st => Some (Returns (sched st))
      end
  end.

(** *** [_add_minutes_to_time]

    [datetime.strptime(time_str, '%H:%M')] matches the hour against
    [2[0-3]|[0-1]\d|\d], then a colon, then the minute against
    [[0-5]\d|\d], and raises [ValueError] when the match fails or when
    characters remain after it.  The parsed time lies on 1900-01-01 (ordinal
    693596); adding the minutes raises [OverflowError] when the date leaves
    the years 1 to 9999 (ordinals 1 to 3652059).  The [except] clause
    answers the argument unchanged in both cases. *)

Definition digit_of_ascii (c : ascii) : option Z :=
  let n := Z.of_nat (nat_of_ascii c) in
  if (48 <=? n) && (n <=? 57) then Some (n - 48) else None.

Definition parse_hour_field (s : string) : option (Z * string) :=
  let two :=
    match s with
    | String c1 (String c2 (String ":" rest)) =>
        match digit_of_ascii c1, digit_of_ascii c2 with
        | Some d1, Some d2 =>
            if 10 * d1 + d2 <=? 23 then Some (10 * d1 + d2, rest) else None
        | _, _ => None
        end
    | _ => None
    end in
  match two with
  | Some r => Some r
  | None =>
      match s with
      | String c1 (String ":" rest) =>
          match digit_of_ascii c1 with
          | Some d1 => Some (d1, rest)
          | None => None
          end
      | _ => None
      end
  end.

Definition parse_minute_field (s : string) : option (Z * string) :=
  let two :=
    match s with
    | String c1 (String c2 rest) =>
        match digit_of_ascii c1, digit_of_ascii c2 with
        | Some d1, Some d2 =>
            if d1 <=? 5 then Some (10 * d1 + d2, rest) else None
        | _, _ => None
        end
    | _ => None
    end in
  match two with
  | Some r => Some r
  | None =>
      match s with
      | String c1 rest =>
          match digit_of_ascii c1 with
          | Some d1 => Some (d1, rest)
          | None => None
          end
      | _ => None
      end
  end.

(** [strptime(time_str, '%H:%M')], as minutes after midnight *)
Definition strptime_HM (time_str : string) : outcome Z :=
  match parse_hour_field time_str with
  | None => Raises ValueError
  | Some (h, rest) =>
      match parse_minute_field rest with
      | None => Raises ValueError
      | Some (m, "") => Returns (h * 60 + m)
      | Some (_, _) => Raises ValueError
      end
  end.

Definition two_digits (n : Z) : string :=
  if n <? 10 then "0" ++ str_of_int n else str_of_int n.

(** [strftime('%H:%M')] of a minute of the day *)
Definition strftime_HM (minute_of_day : Z) : string :=
  two_digits (minute_of_day / 60) ++ ":" ++ two_digits (minute_of_day mod 60).

Definition _add_minutes_to_time (time_str : string) (minutes : Z) : string :=
  match strptime_HM time_str with
  | Returns t =>
      let total := t + minutes in
      let ordinal := 693596 + total / 1440 in
      if (1 <=? ordinal) && (ordinal <=? 3652059)
      then strftime_HM (total mod 1440)
      else time_str
  | _ => time_str
  end.

(** *** [apply_spaced_repetition] *)

(** [sorted(keys)]: a stable sort by the order of strings *)
Fixpoint insert_sorted (k : string) (l : list string) : list string :=
  match l with
  | [] => [k]
  | x :: r => if String.leb k x then k :: l else x :: insert_sorted k r
  end.

Definition sorted (l : list string) : list string :=
  fold_right insert_sorted [] l.

(** [l.index(x)] *)
Fixpoint list_index (x : string) (l : list string) : outcome nat :=
  match l with
  | [] => Raises ValueError
  | y :: r =>
      if String.eqb x y then Returns O
      else i <- list_index x r ;; Returns (S i)
  end.

(** The topic of a session is a string or [None]. *)
Definition topic_key : Type := option string.

Definition topic_key_eqb (a b : topic_key) : bool :=
  match a, b with
  | Some x, Some y => String.eqb x y
  | None, None => true
  | _, _ => false
  end.

(** The topic the first loop reads off a session; [None] is [continue]. *)
Definition session_topic (s : session) : option topic_key :=
  match s with
  | SDict d => Some (match topic d with Some v => v | None => None end)
  | STuple t _ => Some (Some t)
  | SOther => None
  end.

(** [topic_first_appearance], in insertion order *)
Definition first_appearance : Type := list (topic_key * string).

Fixpoint tfa_mem (t : topic_key) (tfa : first_appearance) : bool :=
  match tfa with
  | [] => false
  | (t', _) :: r => topic_key_eqb t t' || tfa_mem t r
  end.

Fixpoint record_sessions (day : string) (sessions : list session)
    (tfa : first_appearance) : first_appearance :=
  match sessions with
  | [] => tfa
  | s :: r =>
      match session_topic s with
      | None => record_sessions day r tfa
      | Some t =>
          if tfa_mem t tfa then record_sessions day r tfa
          else record_sessions day r (tfa ++ [(t, day)])%list
      end
  end.

Fixpoint record_days (sch : schedule) (days : list string)
    (tfa : first_appearance) : outcome first_appearance :=
  match days with
  | [] => Returns tfa
  | day :: r =>
      match dict_get day sch with
      | None => Raises (KeyError day)
      | Some sessions => record_days sch r (record_sessions day sessions tfa)
      end
  end.

Definition str_of_topic (t : topic_key) : string :=
  match t with Some s => s | None => "None" end.

Definition review_session (t : topic_key) : session :=
  SDict {| time := Some "20:00";
           activity := Some ("Review " ++ str_of_topic t);
           duration := Some "30 minutes";
           topic := Some t;
           session_type := Some "review" |}.

Definition review_intervals : list nat := [1; 3; 7]%nat.

Fixpoint add_reviews (days : list string) (t : topic_key) (first_idx : nat)
    (intervals : list nat) (enhanced : schedule) : schedule :=
  match intervals with
  | [] => enhanced
  | interval :: r =>
      let review_day_idx := (first_idx + interval)%nat in
      let enhanced' :=
        if (review_day_idx <? List.length days)%nat then
          match nth_error days review_day_idx with
          | Some review_day =>
              if dict_mem review_day enhanced
              then dict_append review_day (review_session t) enhanced
              else enhanced
          | None => enhanced
          end
        else enhanced in
      add_reviews days t first_idx r enhanced'
  end.

Fixpoint review_topics (days : list string) (tfa : first_appearance)
    (enhanced : schedule) : outcome schedule :=
  match tfa with
  | [] => Returns enhanced
  | (t, first_day) :: r =>
      i <- list_index first_day days ;;
      review_topics days r (add_reviews days t i review_intervals enhanced)
  end.

(** The appends go to the lists of [schedule] itself ([schedule.copy()] is
    shallow); the function reads no list after it has appended to it, so
    the returned dictionary is the one computed here. *)
Definition apply_spaced_repetition (sch : schedule) : outcome schedule :=
  let days := sorted (dict_keys sch) in
  tfa <- record_days sch days [] ;;
  review_topics days tfa sch.

(** *** [balance_cognitive_load] *)

(** [topic_difficulty.get(topic, 0.5)]; the keys of the map are strings. *)
Definition difficulty_of (topic_difficulty : dict float) (t : topic_key)
  : float :=
  match t with
  | Some name =>
      match dict_get name topic_difficulty with
      | Some d => d
      | None => 0.5%float
      end
  | None => 0.5%float
  end.

Definition is_hard (topic_difficulty : dict float) (d : session_dict) : bool :=
  let t := match topic d with Some v => v | None => Some "" end in
  PrimFloat.ltb 0.7%float (difficulty_of topic_difficulty t).

(** The loop that separates the sessions of a day; a session that is not a
    dictionary is skipped. *)
Fixpoint separate (topic_difficulty : dict float) (sessions : list session)
    (easy_sessions hard_sessions : list session)
  : list session * list session :=
  match sessions with
  | [] => (easy_sessions, hard_sessions)
  | SDict d :: r =>
      if is_hard topic_difficulty d
      then separate topic_difficulty r easy_sessions
             (hard_sessions ++ [SDict d])%list
      else separate topic_difficulty r (easy_sessions ++ [SDict d])%list
             hard_sessions
  | _ :: r => separate topic_difficulty r easy_sessions hard_sessions
  end.

(** [while hard_sessions or easy_sessions]: an iteration pops the head of
    [hard_sessions], if any, then the head of [easy_sessions], if any.  Once
    [hard_sessions] is empty the iterations only drain [easy_sessions]. *)
Fixpoint drain_loop (easy_sessions day_sessions : list session)
  : list session :=
  match easy_sessions with
  | [] => day_sessions
  | e :: es => drain_loop es (day_sessions ++ [e])%list
  end.

Fixpoint interleave_loop (hard_sessions easy_sessions
    day_sessions : list session) : list session :=
  match hard_sessions with
  | [] => drain_loop easy_sessions day_sessions
  | h :: hs =>
      match easy_sessions with
      | [] => interleave_loop hs [] (day_sessions ++ [h])%list
      | e :: es => interleave_loop hs es ((day_sessions ++ [h]) ++ [e])%list
      end
  end.

Definition balance_day (topic_difficulty : dict float)
    (sessions : list session) : list session :=
  let '(easy_sessions, hard_sessions) :=
    separate topic_difficulty sessions [] [] in
  interleave_loop hard_sessions easy_sessions [].

Definition balance_cognitive_load (sch : schedule)
    (topic_difficulty : dict float) : schedule :=
  fold_left
    (fun balanced '(day, sessions) =>
       dict_set day (balance_day topic_difficulty sessions) balanced)
    sch [].

(** *** [add_breaks] *)

Definition is_study_type (ty : option string) : bool :=
  match ty with
  | Some s => String.eqb s "focused_study" || String.eqb s "review"
  | None => false
  end.

Definition break_session (break_time : string) : session :=
  SDict {| time := Some break_time;
           activity := Some "Break";
           duration := Some "15 minutes";
           topic := Some (Some "Rest");
           session_type := Some "break" |}.

(** The [for i, session in enumerate(sessions)] loop; [n] is
    [len(sessions)]. *)
Fixpoint add_breaks_day (break_interval : Z) (n : Z) (i : Z)
    (sessions : list session) (enhanced : list session) : list session :=
  match sessions with
  | [] => enhanced
  | s :: r =>
      let enhanced1 := (enhanced ++ [s])%list in
      let enhanced2 :=
        match s with
        | SDict d =>
            if is_study_type (session_type d) && (i <? n - 1) then
              let t := match time d with Some t => t | None => "09:00" end in
              (enhanced1 ++
                 [break_session (_add_minutes_to_time t break_interval)])%list
            else enhanced1
        | _ => enhanced1
        end in
      add_breaks_day break_interval n (i + 1) r enhanced2
  end.

Definition add_breaks (sch : schedule) (break_interval : Z) : schedule :=
  fold_left
    (fun with_breaks '(day, sessions) =>
       dict_set day
         (add_breaks_day break_interval (Z.of_nat (List.length sessions)) 0
            sessions [])
         with_breaks)
    sch [].

(** *** [calculate_optimal_session_length] *)

(** [s.split(':')[0]]: the part of [s] before its first colon *)
Fixpoint before_colon (s : string) : string :=
  match s with
  | EmptyString => EmptyString
  | String c r => if Ascii.eqb c ":" then EmptyString else String c (before_colon r)
  end.

(** The characters [int] strips from both ends of its argument (those of
    the ASCII range). *)
Definition is_space (c : ascii) : bool :=
  let n := nat_of_ascii c in
  ((9 <=? n) && (n <=? 13) || (28 <=? n) && (n <=? 32))%nat.

Fixpoint lstrip (l : list ascii) : list ascii :=
  match l with
  | c :: r => if is_space c then lstrip r else l
  | [] => []
  end.

Definition strip (l : list ascii) : list ascii :=
  rev (lstrip (rev (lstrip l))).

(** Decimal digits with single underscores between them; [acc] is the value
    read so far and [after_digit] tells whether the previous character was a
    digit. *)
Fixpoint parse_digits (l : list ascii) (acc : Z) (after_digit : bool)
  : option Z :=
  match l with
  | [] => if after_digit then Some acc else None
  | c :: r =>
      match digit_of_ascii c with
      | Some d => parse_digits r (10 * acc + d) true
      | None =>
          if Ascii.eqb c "_" && after_digit then
            match r with
            | [] => None
            | _ => parse_digits r acc false
            end
          else None
      end
  end.

(** [int(s)] for a string of bytes: optional blanks, an optional sign, then
    digits.  Digits and blanks outside ASCII are not modelled. *)
Definition int_of_str (s : string) : outcome Z :=
  let body := strip (list_ascii_of_string s) in
  let parsed :=
    match body with
    | "-"%char :: r => option_map Z.opp (parse_digits r 0 false)
    | "+"%char :: r => parse_digits r 0 false
    | _ => parse_digits body 0 false
    end in
  match parsed with
  | Some n => Returns n
  | None => Raises ValueError
  end.

(** [int(x)] for a float: truncation towards zero *)
Definition int_of_float (x : float) : outcome Z :=
  match Prim2SF x with
  | S754_zero _ => Returns 0
  | S754_finite sign m e =>
      let magnitude :=
        match e with
        | Zneg p => Z.pos m / 2 ^ Z.pos p
        | _ => Z.pos m * 2 ^ e
        end in
      Returns (if sign then - magnitude else magnitude)
  | S754_infinity _ => Raises OverflowError
  | S754_nan => Raises ValueError
  end.

(** The float of a small non-negative integer (exact below [2^53]) *)
Definition float_of_int (n : Z) : float := PrimFloat.of_uint63 (Uint63.of_Z n).

(** [int(base_length * factor)] *)
Definition scale (base_length : Z) (factor : float) : outcome Z :=
  int_of_float (PrimFloat.mul (float_of_int base_length) factor).

Definition difficulty_base (difficulty : float) : Z :=
  if PrimFloat.ltb 0.7%float difficulty then 45
  else if PrimFloat.ltb difficulty 0.3%float then 90
  else 60.

(** The body of the [try] block *)
Definition adjust_for_time (base_length : Z) (time_of_day : string)
  : outcome Z :=
  hour <- int_of_str (before_colon time_of_day) ;;
  if (6 <=? hour) && (hour <? 12) then scale base_length 1.1%float
  else if (12 <=? hour) && (hour <? 18) then Returns base_length
  else if (18 <=? hour) && (hour <? 22) then scale base_length 0.9%float
  else Returns base_length.

Definition calculate_optimal_session_length (difficulty : float)
    (time_of_day : string) : Z :=
  let base_length := difficulty_base difficulty in
  match adjust_for_time base_length time_of_day with
  | Returns n => n
  | _ => base_length
  end.

(** *** [prioritize_by_deadline]

    The key of a topic is the number of days until its deadline, or
    [float('inf')] when it has none; [None] stands for the infinite key.
    [sorted] is stable: it is modelled by the insertion, from the right, of
    each topic before the first topic whose key is not smaller. *)

Definition urgency_score (deadlines : dict datetime) (now : datetime)
    (topic : string) : option Z :=
  match dict_get topic deadlines with
  | None => None
  | Some deadline => Some (timedelta_days deadline now)
  end.

(** [a <= b] on keys *)
Definition urgency_le (a b : option Z) : bool :=
  match a, b with
  | Some x, Some y => x <=? y
  | _, None => true
  | None, Some _ => false
  end.

Fixpoint insert_by_key (key : string -> option Z) (x : string)
    (l : list string) : list string :=
  match l with
  | [] => [x]
  | y :: r =>
      if urgency_le (key x) (key y) then x :: l
      else y :: insert_by_key key x r
  end.

(** [sorted(l, key=key)] *)
Definition sorted_by_key (key : string -> option Z) (l : list string)
  : list string :=
  fold_right (insert_by_key key) [] l.

Definition prioritize_by_deadline (topics : list string)
    (deadlines : dict datetime) (now : datetime) : list string :=
  sorted_by_key (urgency_score deadlines now) topics.

(** *** [generate_time_slots]

    Both times are parsed on 1900-01-01; [current] is counted in minutes
    from the midnight of that day.  Adding the slot duration raises
    [OverflowError] when the date leaves the years 1 to 9999; the [except]
    clause then answers the slots gathered so far, as it answers the empty
    list when a time does not parse. *)

Definition date_in_range (minutes : Z) : bool :=
  let ordinal := 693596 + minutes / 1440 in
  (1 <=? ordinal) && (ordinal <=? 3652059).

(** The [while current < end] loop *)
Fixpoint slots_loop (fuel : nat) (slot_duration end_time current : Z)
    (slots : list string) : option (list string) :=
  if current <? end_time then
    match fuel with
    | O => None
    | S fuel' =>
        let slots' := (slots ++ [strftime_HM (current mod 1440)])%list in
        let next := current + slot_duration in
        if date_in_range next
        then slots_loop fuel' slot_duration end_time next slots'
        else Some slots'
    end
  else Some slots.

Definition generate_time_slots (fuel : nat) (start_time end_time : string)
    (slot_duration : Z) : option (list string) :=
  match strptime_HM start_time with
  | Returns current =>
      match strptime_HM end_time with
      | Returns end_minutes =>
          slots_loop fuel slot_duration end_minutes current []
      | Raises _ => Some []
      end
  | Raises _ => Some []
  end.

End SchedulerUtils.

(** ** Strings *)

Definition is_upper (c : ascii) : bool :=
  let n := nat_of_ascii c in ((65 <=? n) && (n <=? 90))%nat.

Definition is_lower (c : ascii) : bool :=
  let n := nat_of_ascii c in ((97 <=? n) && (n <=? 122))%nat.

Definition to_lower (c : ascii) : ascii :=
  if is_upper c then ascii_of_nat (nat_of_ascii c + 32) else c.

Definition to_upper (c : ascii) : ascii :=
  if is_lower c then ascii_of_nat (nat_of_ascii c - 32) else c.

(** [s.lower()] (letters of the ASCII range) *)
Fixpoint lower (s : string) : string :=
  match s with
  | EmptyString => EmptyString
  | String c r => String (to_lower c) (lower r)
  end.

(** [s.title()]: a letter that follows a letter is lowered, any other letter
    is raised. *)
Fixpoint title_from (after_letter : bool) (s : string) : string :=
  match s with
  | EmptyString => EmptyString
  | String c r =>
      if is_upper c || is_lower c then
        String (if after_letter then to_lower c else to_upper c)
          (title_from true r)
      else String c (title_from false r)
  end.

Definition title (s : string) : string := title_from false s.

(** [s.strip()] *)
Definition str_strip (s : string) : string :=
  string_of_list_ascii (SchedulerUtils.strip (list_ascii_of_string s)).

(** [sub in s] *)
Fixpoint contains (sub s : string) : bool :=
  String.prefix sub s ||
  match s with
  | EmptyString => false
  | String _ r => contains sub r
  end.

Fixpoint str_in (x : string) (l : list string) : bool :=
  match l with
  | [] => false
  | y :: r => String.eqb x y || str_in x r
  end.

Module PlannerAgent.

(** *** The request *)

Record study_info : Type := mk_study_info {
  topics : list string;
  deadlines : dict datetime;
  daily_hours : Z;
  start_date : datetime;
  sync_calendar : bool;
  deadline : option datetime
}.

(** The [context] argument: a dictionary that may hold [topics] and
    [daily_hours]. *)
Record context : Type := mk_context {
  ctx_topics : option (list string);
  ctx_daily_hours : option Z
}.

(** What the call reads from outside its arguments: the clock (the n-th
    call of [datetime.now()]), the regular-expression engine ([re.findall]
    and the first group of [re.search], by pattern and text), the iteration
    order of a set of strings ([list(set(l))]), and the two collaborators,
    which answer the exception they raise, if any. *)
Record environment : Type := mk_environment {
  now : nat -> datetime;
  re_findall : string -> string -> list string;
  re_search : string -> string -> option string;
  list_of_set : list string -> list string;
  calendar_raises : option exn;
  database_raises : option exn
}.

Definition common_subjects : list string :=
  ["math"; "calculus"; "algebra"; "geometry"; "statistics";
   "physics"; "chemistry"; "biology"; "anatomy";
   "history"; "geography"; "literature"; "english";
   "computer science"; "programming"; "algorithms";
   "economics"; "psychology"; "sociology"].

Definition double_quote : string := String (ascii_of_nat 34) EmptyString.

Definition quoted_pattern : string :=
  "[" ++ double_quote ++ "']([^" ++ double_quote ++ "']+)["
  ++ double_quote ++ "']".

Definition study_pattern : string :=
  "study\s+([a-zA-Z\s]{3,30})(?:\s+and|\s+for|\s+exam|$)".

Fixpoint add_study_matches (matches : list string) (topics : list string)
  : list string :=
  match matches with
  | [] => topics
  | m :: r =>
      let topic := title (str_strip m) in
      if negb (String.eqb topic "") && negb (str_in topic topics)
      then add_study_matches r (topics ++ [topic])%list
      else add_study_matches r topics
  end.

Definition _extract_topics (env : environment) (text : string) : list string :=
  let text_lower := lower text in
  let topics1 :=
    map title (filter (fun subject => contains subject text_lower)
                 common_subjects) in
  let topics2 := (topics1 ++ re_findall env quoted_pattern text)%list in
  let topics3 :=
    add_study_matches (re_findall env study_pattern text_lower) topics2 in
  let topics4 := list_of_set env topics3 in
  match topics4 with
  | [] => ["General Study"]
  | _ => topics4
  end.

Definition days_pattern : string := "in\s+(\d+)\s+days?".
Definition weeks_pattern : string := "in\s+(\d+)\s+weeks?".

(** [today] is the second reading of the clock in a call of
    [generate_study_plan]. *)
Definition _extract_deadline (env : environment) (text : string)
  : outcome (option datetime) :=
  let today := now env 1 in
  let text_lower := lower text in
  if contains "next week" text_lower then
    d <- add_days today 7 ;; Returns (Some d)
  else if contains "two weeks" text_lower then
    d <- add_days today 14 ;; Returns (Some d)
  else match re_search env days_pattern text_lower with
  | Some g =>
      days <- SchedulerUtils.int_of_str g ;;
      d <- add_days today days ;; Returns (Some d)
  | None =>
  match re_search env weeks_pattern text_lower with
  | Some g =>
      weeks <- SchedulerUtils.int_of_str g ;;
      d <- add_days today (7 * weeks) ;; Returns (Some d)
  | None =>
  if contains "tomorrow" text_lower then
    d <- add_days today 1 ;; Returns (Some d)
  else if contains "exam" text_lower || contains "test" text_lower then
    d <- add_days today 7 ;; Returns (Some d)
  else Returns None
  end end.

Definition hours_pattern : string :=
  "(\d+)\s*hours?\s*(?:per\s*day|daily|each\s*day)".

Definition _parse_study_request (env : environment) (user_input : string)
    (ctx : option context) : outcome study_info :=
  let start := now env 0 in
  let topics0 := _extract_topics env user_input in
  hours <-
    match re_search env hours_pattern (lower user_input) with
    | Some g => SchedulerUtils.int_of_str g
    | None => Returns 3
    end ;;
  dl <- _extract_deadline env user_input ;;
  let dls :=
    match dl with
    | Some d => fold_left (fun acc t => dict_set t d acc) topics0 []
    | None => []
    end in
  let topics1 :=
    match ctx with
    | Some c =>
        match ctx_topics c with
        | Some extra => (topics0 ++ extra)%list
        | None => topics0
        end
    | None => topics0
    end in
  let hours1 :=
    match ctx with
    | Some c =>
        match ctx_daily_hours c with
        | Some h => h
        | None => hours
        end
    | None => hours
    end in
  Returns (mk_study_info topics1 dls hours1 start true dl).

(** *** [_create_study_schedule] *)

Definition study_session (time_of_day topic : string) : session :=
  SDict {| time := Some time_of_day;
           activity := Some ("Study " ++ topic);
           duration := Some "2 hours";
           topic := Some (Some topic);
           session_type := Some "focused_study" |}.

Definition evening_review : session :=
  SDict {| time := Some "19:00";
           activity := Some "Review and practice problems";
           duration := Some "1 hour";
           topic := Some (Some "Mixed Review");
           session_type := Some "review" |}.

(** [topics[i % len(topics)]] for a non-empty list *)
Definition topic_at (topics : list string) (i : Z) : string :=
  nth (Z.to_nat (i mod Z.of_nat (List.length topics))) topics "".

(** The sessions of one day and the topic index after it *)
Definition daily_sessions (topics : list string) (daily_hours : Z)
    (topic_index : Z) : list session * Z :=
  let remaining0 := daily_hours in
  let '(s1, remaining1) :=
    if 2 <=? remaining0
    then ([study_session "09:00" (topic_at topics topic_index)],
          remaining0 - 2)
    else ([], remaining0) in
  let '(s2, remaining2, topic_index') :=
    if 2 <=? remaining1
    then ((s1 ++ [study_session "14:00" (topic_at topics (topic_index + 1))])%list,
          remaining1 - 2, topic_index + 1)
    else (s1, remaining1, topic_index) in
  let s3 :=
    if 1 <=? remaining2 then (s2 ++ [evening_review])%list else s2 in
  (s3, topic_index').

(** The [for day in range(days_available)] loop *)
Fixpoint create_days (topics : list string) (daily_hours : Z)
    (current_date : datetime) (days : list Z) (sch : schedule)
    (topic_index : Z) : outcome schedule :=
  match days with
  | [] => Returns sch
  | day :: r =>
      date <- add_days current_date day ;;
      let day_name := weekday_name date in
      let '(sessions, topic_index') :=
        daily_sessions topics daily_hours topic_index in
      create_days topics daily_hours current_date r
        (dict_set day_name sessions sch) topic_index'
  end.

(** [range(n)] *)
Definition range (n : Z) : list Z := map Z.of_nat (seq 0 (Z.to_nat n)).

Definition days_available_of (info : study_info) : Z :=
  let days_available :=
    match deadline info with
    | Some d => timedelta_days d (start_date info)
    | None => 7
    end in
  Z.max 1 (Z.min days_available 14).

Definition _create_study_schedule (info : study_info) : outcome schedule :=
  let days_available := days_available_of info in
  match topics info with
  | [] => Raises ZeroDivisionError
  | _ =>
      create_days (topics info) (daily_hours info) (start_date info)
        (range days_available) [] 0
  end.

(** *** [_optimize_schedule] *)

(** The planner has its own [_add_minutes_to_time], with the body of the
    one of [SchedulerUtils]. *)
Definition _add_minutes_to_time := SchedulerUtils._add_minutes_to_time.

Fixpoint optimize_sessions (sessions : list session)
    (optimized_sessions : list session) : outcome (list session) :=
  match sessions with
  | [] => Returns optimized_sessions
  | s :: r =>
      let appended := (optimized_sessions ++ [s])%list in
      match s with
      | SDict d =>
          match session_type d with
          | None => Raises (KeyError "session_type")
          | Some ty =>
              if String.eqb ty "focused_study" then
                match time d with
                | None => Raises (KeyError "time")
                | Some t =>
                    optimize_sessions r
                      (appended ++
                         [SchedulerUtils.break_session
                            (_add_minutes_to_time t 120)])%list
                end
              else optimize_sessions r appended
          end
      | _ => Raises TypeError
      end
  end.

Fixpoint optimize_days (items : list (string * list session))
    (optimized : schedule) : outcome schedule :=
  match items with
  | [] => Returns optimized
  | (day, sessions) :: r =>
      optimized_sessions <- optimize_sessions sessions [] ;;
      optimize_days r (dict_set day optimized_sessions optimized)
  end.

Definition _optimize_schedule (plan : schedule) (info : study_info)
  : outcome schedule :=
  optimize_days plan [].

(** *** The collaborators

    [_sync_to_calendar] and [_save_plan] run their whole body under
    [try ... except Exception] and only log a failure; they return nothing
    and leave the plan untouched.  [_save_plan] hands the database the plan
    with the request, a creation time read from the clock and the
    status. *)

Record plan_data : Type := mk_plan_data {
  saved_plan : schedule;
  saved_info : study_info;
  created_at : datetime;
  status : string
}.

Definition _sync_to_calendar (env : environment) (plan : schedule)
  : outcome unit :=
  match calendar_raises env with
  | Some _ => Returns tt
  | None => Returns tt
  end.

(** The record handed to the database, when the call succeeds *)
Definition _save_plan (env : environment) (plan : schedule)
    (info : study_info) : outcome (option plan_data) :=
  let data := mk_plan_data plan info (now env 2) "active" in
  match database_raises env with
  | Some _ => Returns None
  | None => Returns (Some data)
  end.

(** *** [_generate_plan_summary] *)

Record plan_summary : Type := mk_summary {
  total_days : Z;
  total_sessions : Z;
  study_sessions : Z;
  topics_covered : list string;
  estimated_hours : Z
}.

(** [session['session_type'] in ['focused_study', 'review']] *)
Definition is_study_session (s : session) : outcome bool :=
  match s with
  | SDict d =>
      match session_type d with
      | Some ty => Returns (SchedulerUtils.is_study_type (Some ty))
      | None => Raises (KeyError "session_type")
      end
  | _ => Raises TypeError
  end.

Fixpoint count_study (sessions : list session) : outcome Z :=
  match sessions with
  | [] => Returns 0
  | s :: r =>
      b <- is_study_session s ;;
      n <- count_study r ;;
      Returns (if b then 1 + n else n)
  end.

(** The topics the last loop adds to the set, in the order it meets them *)
Definition covered_topic (s : session) : outcome (list string) :=
  match s with
  | SDict d =>
      match topic d with
      | Some (Some t) =>
          if negb (String.eqb t "") && negb (String.eqb t "Rest")
          then Returns [t] else Returns []
      | _ => Returns []
      end
  | _ => Raises AttributeError
  end.

Fixpoint covered_topics (sessions : list session) : outcome (list string) :=
  match sessions with
  | [] => Returns []
  | s :: r =>
      here <- covered_topic s ;;
      later <- covered_topics r ;;
      Returns (here ++ later)%list
  end.

Definition _generate_plan_summary (env : environment) (plan : schedule)
  : outcome plan_summary :=
  let all_sessions := List.concat (dict_values plan) in
  study <- count_study all_sessions ;;
  covered <- covered_topics all_sessions ;;
  Returns {| total_days := Z.of_nat (List.length plan);
             total_sessions := Z.of_nat (List.length all_sessions);
             study_sessions := study;
             topics_covered := list_of_set env covered;
             estimated_hours := study * 2 |}.

(** *** [generate_study_plan]

    The message of a result is one of three texts: the fixed text of the
    guard on the topics, [Generated {n} day study plan], or
    [Planning error: {e}] for the exception caught. *)

Inductive message : Type :=
| CouldNotIdentifyTopics
| Generated (days : nat)
| PlanningError (e : exn).

Record plan_result : Type := mk_result {
  success : bool;
  message_of : message;
  plan : option schedule;
  summary : option plan_summary
}.

(** The body of the [try] block *)
Definition generate_body (env : environment) (user_input : string)
    (ctx : option context) : outcome plan_result :=
  info <- _parse_study_request env user_input ctx ;;
  match topics info with
  | [] => Returns (mk_result false CouldNotIdentifyTopics None None)
  | _ =>
      plan0 <- _create_study_schedule info ;;
      optimized_plan <- _optimize_schedule plan0 info ;;
      _ <- (if sync_calendar info
            then _sync_to_calendar env optimized_plan else Returns tt) ;;
      _ <- _save_plan env optimized_plan info ;;
      s <- _generate_plan_summary env optimized_plan ;;
      Returns (mk_result true (Generated (List.length optimized_plan))
                 (Some optimized_plan) (Some s))
  end.

Definition generate_study_plan (env : environment) (user_input : string)
    (ctx : option context) : plan_result :=
  match generate_body env user_input ctx with
  | Returns r => r
  | Raises e => mk_result false (PlanningError e) None None
  end.

End PlannerAgent.

Module CoordinatorAgent.

(** *** [detect_intent]

    The patterns of the coordinator are of two shapes: a literal text, and
    two literal texts with [.*] between them.  [re.search] finds the first
    anywhere in the text; it finds the second where the first text is
    followed, after any characters but a newline, by the second text. *)

Inductive pattern : Type :=
| Literal (s : string)
| Then (a b : string).

Definition newline : ascii := ascii_of_nat 10.

Fixpoint first_line (s : string) : string :=
  match s with
  | EmptyString => EmptyString
  | String c r =>
      if Ascii.eqb c newline then EmptyString else String c (first_line r)
  end.

Fixpoint skip (n : nat) (s : string) : string :=
  match n, s with
  | O, _ => s
  | S n', String _ r => skip n' r
  | S _, EmptyString => EmptyString
  end.

Fixpoint search_then (a b s : string) : bool :=
  (String.prefix a s && contains b (first_line (skip (String.length a) s)))
  || match s with
     | EmptyString => false
     | String _ r => search_then a b r
     end.

Definition re_search (p : pattern) (text : string) : bool :=
  match p with
  | Literal s => contains s text
  | Then a b => search_then a b text
  end.

Definition calendar_patterns : list pattern :=
  [Literal "schedule"; Literal "calendar"; Literal "event"; Literal "meeting";
   Literal "appointment"; Literal "remind"; Literal "book"; Literal "reserve";
   Then "plan" "time"].

Definition summarize_patterns : list pattern :=
  [Literal "summarize"; Literal "summary"; Literal "flashcard";
   Literal "notes"; Literal "lecture"; Then "study" "material";
   Then "key" "points"; Literal "review"].

Definition plan_patterns : list pattern :=
  [Then "study" "plan"; Then "schedule" "study"; Then "organize" "study";
   Then "learning" "plan"; Then "preparation" "schedule"].

Definition evaluate_patterns : list pattern :=
  [Literal "evaluate"; Literal "assessment"; Literal "quality";
   Literal "performance"; Literal "metrics"; Literal "score"].

Definition intent_patterns : dict (list pattern) :=
  [("calendar", calendar_patterns);
   ("summarize", summarize_patterns);
   ("plan", plan_patterns);
   ("evaluate", evaluate_patterns)].

(** [sum(1 for pattern in patterns if re.search(pattern, text))] *)
Definition score (patterns : list pattern) (text : string) : Z :=
  Z.of_nat (List.length (filter (fun p => re_search p text) patterns)).

Definition intent_scores (patterns : dict (list pattern)) (text : string)
  : dict Z :=
  fold_left (fun scores '(intent, ps) => dict_set intent (score ps text) scores)
    patterns [].

(** [max(values)]; it raises on an empty sequence. *)
Definition max_of (values : list Z) : outcome Z :=
  match values with
  | [] => Raises ValueError
  | v :: r => Returns (fold_left Z.max r v)
  end.

(** [max(d, key=d.get)]: the first key, in the order of the dictionary,
    whose value no other exceeds. *)
Fixpoint max_key (best : string * Z) (rest : list (string * Z)) : string :=
  match rest with
  | [] => fst best
  | (k, v) :: r => if snd best <? v then max_key (k, v) r else max_key best r
  end.

Definition max_by_value (d : dict Z) : outcome string :=
  match d with
  | [] => Raises ValueError
  | kv :: r => Returns (max_key kv r)
  end.

(** [detect_intent] with the patterns of the coordinator given *)
Definition detect_intent_with (patterns : dict (list pattern))
    (user_input : string) : outcome string :=
  let user_input_lower := lower user_input in
  let scores := intent_scores patterns user_input_lower in
  highest <- max_of (dict_values scores) ;;
  if 0 <? highest then max_by_value scores else Returns "general".

Definition detect_intent (user_input : string) : outcome string :=
  detect_intent_with intent_patterns user_input.

End CoordinatorAgent.

(** ** Notions the properties are stated with *)

(** The part of a string before its first blank, and the part after it *)
Fixpoint before_space (s : string) : string :=
  match s with
  | EmptyString => EmptyString
  | String c r => if Ascii.eqb c " " then EmptyString else String c (before_space r)
  end.

Fixpoint after_space (s : string) : string :=
  match s with
  | EmptyString => EmptyString
  | String c r => if Ascii.eqb c " " then r else after_space r
  end.

(** The minutes a duration text stands for: a count and a unit, as in
    ['2 hours'], ['1 hour'], ['15 minutes'] and ['30 minutes']. *)
Definition minutes_of_duration (s : string) : Z :=
  match SchedulerUtils.parse_digits (list_ascii_of_string (before_space s)) 0 false with
  | Some n =>
      let unit := after_space s in
      if String.eqb unit "hours" || String.eqb unit "hour" then 60 * n
      else if String.eqb unit "minutes" || String.eqb unit "minute" then n
      else 0
  | None => 0
  end.

Definition session_minutes (s : session) : Z :=
  match s with
  | SDict d =>
      match duration d with
      | Some text => minutes_of_duration text
      | None => 0
      end
  | STuple _ hours => 60 * hours
  | SOther => 0
  end.

Definition day_minutes (sessions : list session) : Z :=
  fold_right Z.add 0 (map session_minutes sessions).

Definition is_break (s : session) : bool :=
  match s with
  | SDict d =>
      match session_type d with
      | Some ty => String.eqb ty "break"
      | None => false
      end
  | _ => false
  end.

(** A day ends with a break. *)
Definition ends_with_break (sessions : list session) : bool :=
  match rev sessions with
  | s :: _ => is_break s
  | [] => false
  end.

(** A break of the day comes right after another break. *)
Fixpoint has_adjacent_breaks (sessions : list session) : bool :=
  match sessions with
  | s1 :: ((s2 :: _) as r) => is_break s1 && is_break s2 || has_adjacent_breaks r
  | _ => false
  end.

(** The round-robin merge of the balancing stage, as the specification
    words it: one from [hard], then one from [easy], repeating; what is
    left when one side empties is appended in its order. *)
Fixpoint round_robin (hard easy : list session) : list session :=
  match hard, easy with
  | h :: hs, e :: es => h :: e :: round_robin hs es
  | [], _ => easy
  | _, [] => hard
  end.



(** The dates a [datetime] can hold *)
Definition valid_date (d : datetime) : Prop :=
  1 <= ordinal d <= 3652059 /\ 0 <= day_micros d < micros_per_day.

(** The topic index of [_create_study_schedule] at the start of day [i]: it
    advances once a day exactly when the afternoon slot is filled, that is
    when [daily_hours] is at least 4. *)
Definition topic_index_before (daily_hours i : Z) : Z :=
  if 4 <=? daily_hours then i else 0.

Definition sessions_of_day (topics : list string) (daily_hours i : Z)
  : list session :=
  fst (PlannerAgent.daily_sessions topics daily_hours
         (topic_index_before daily_hours i)).

(** The date [i] days after [start] *)
Definition day_after (start : datetime) (i : Z) : datetime :=
  mk_datetime (ordinal start + i) (day_micros start).

(** The schedule once the first [n] days are written *)
Definition plan_after (topics : list string) (daily_hours : Z)
    (start : datetime) (n : nat) : schedule :=
  fold_left
    (fun sch i =>
       dict_set (weekday_name (day_after start i))
         (sessions_of_day topics daily_hours i) sch)
    (map Z.of_nat (seq 0 n)) [].

(** The last of the first [n] days that falls on the weekday of day [i] *)
Definition last_same_weekday (n i : Z) : Z := i + 7 * ((n - 1 - i) / 7).

(** The sessions of a day that are not breaks *)
Definition study_part (sessions : list session) : list session :=
  filter (fun s => negb (is_break s)) sessions.

(** The two stages [generate_study_plan] runs on a parsed request *)
Definition build_plan (info : PlannerAgent.study_info) : outcome schedule :=
  plan0 <- PlannerAgent._create_study_schedule info ;;
  PlannerAgent._optimize_schedule plan0 info.

(** The sessions [add_breaks] writes for a day: each session, followed by a
    break when it is a study or review session and another session comes
    after it. *)
Fixpoint breaks_between (break_interval : Z) (sessions : list session)
  : list session :=
  match sessions with
  | [] => []
  | s :: r =>
      let inserted :=
        match s, r with
        | SDict d, _ :: _ =>
            if SchedulerUtils.is_study_type (session_type d) then
              let t := match time d with Some t => t | None => "09:00" end in
              [SchedulerUtils.break_session
                 (SchedulerUtils._add_minutes_to_time t break_interval)]
            else []
        | _, _ => []
        end in
      (s :: inserted ++ breaks_between break_interval r)%list
  end.

(** No session of the day is a break. *)
Definition break_free (sessions : list session) : Prop :=
  Forall (fun s => is_break s = false) sessions.

(** The two classes [balance_cognitive_load] sorts the sessions of a day
    into; a session that is not a dictionary is in neither. *)
Definition classified_hard (topic_difficulty : dict float) (s : session)
  : bool :=
  match s with
  | SDict d => SchedulerUtils.is_hard topic_difficulty d
  | _ => false
  end.

Definition classified_easy (topic_difficulty : dict float) (s : session)
  : bool :=
  match s with
  | SDict d => negb (SchedulerUtils.is_hard topic_difficulty d)
  | _ => false
  end.

Definition is_dict (s : session) : bool :=
  match s with SDict _ => true | _ => false end.

(** The balancing of a day as the specification words it: every session of
    the day is hard (the difficulty of its topic is above 0.7) or easy
    (otherwise, a missing difficulty counting as 0.5), and the day is the
    round-robin merge of the two classes. *)
Definition topic_of_session (s : session) : SchedulerUtils.topic_key :=
  match s with
  | SDict d => match topic d with Some v => v | None => Some "" end
  | STuple t _ => Some t
  | SOther => None
  end.

Definition hard_by_topic (topic_difficulty : dict float) (s : session) : bool :=
  PrimFloat.ltb 0.7%float
    (SchedulerUtils.difficulty_of topic_difficulty (topic_of_session s)).

Definition balance_day_spec (topic_difficulty : dict float)
    (sessions : list session) : list session :=
  round_robin (filter (hard_by_topic topic_difficulty) sessions)
    (filter (fun s => negb (hard_by_topic topic_difficulty s)) sessions).

(** The [(topic, hours)] pairs of an allocation, over all its days *)
Definition allotments (sch : dict (list (string * Z))) : list (string * Z) :=
  List.concat (dict_values sch).

(** The hours the allocator has handed out when it is in a given state *)
Definition consumed (daily_hours : Z) (st : SchedulerUtils.alloc_state) : Z :=
  SchedulerUtils.current_day st * daily_hours
  + (daily_hours - SchedulerUtils.hours_remaining_today st).

(** The allocator goes on: it is on one of the available days, with time
    left on it. *)
Definition going (available_days daily_hours : Z)
    (st : SchedulerUtils.alloc_state) : Prop :=
  0 <= SchedulerUtils.current_day st < available_days
  /\ 0 < SchedulerUtils.hours_remaining_today st <= daily_hours.

(** The allocator has filled the last available day. *)
Definition filled (available_days daily_hours : Z)
    (st : SchedulerUtils.alloc_state) : Prop :=
  SchedulerUtils.current_day st = available_days
  /\ SchedulerUtils.hours_remaining_today st = daily_hours.

(** The topics the sessions of a day carry, in order *)
Definition topics_of_day (sessions : list session)
  : list SchedulerUtils.topic_key :=
  flat_map
    (fun s =>
       match SchedulerUtils.session_topic s with
       | Some t => [t]
       | None => []
       end)
    sessions.

(** The first-appearance loop over the topics of one day *)
Fixpoint record_topics (day : string) (ts : list SchedulerUtils.topic_key)
    (tfa : SchedulerUtils.first_appearance) : SchedulerUtils.first_appearance :=
  match ts with
  | [] => tfa
  | t :: r =>
      if SchedulerUtils.tfa_mem t tfa then record_topics day r tfa
      else record_topics day r (tfa ++ [(t, day)])%list
  end.

(** The days of a schedule in the order [apply_spaced_repetition] walks
    them *)
Definition day_order (sch : schedule) : list string :=
  SchedulerUtils.sorted (dict_keys sch).

(** Topic [t] appears on day [d] of the schedule. *)
Definition day_has (sch : schedule) (t : SchedulerUtils.topic_key)
    (d : string) : Prop :=
  exists sessions,
    dict_get d sch = Some sessions /\ In t (topics_of_day sessions).

(** Day [d], at index [i] of the list of days [days], is the first of
    them on which topic [t] appears. *)
Definition first_in (sch : schedule) (days : list string)
    (t : SchedulerUtils.topic_key) (i : nat) (d : string) : Prop :=
  nth_error days i = Some d
  /\ day_has sch t d
  /\ forall j d', (j < i)%nat -> nth_error days j = Some d' ->
                  ~ day_has sch t d'.

(** [i] is the index, in the day order, of the first appearance of [t]. *)
Definition first_index (sch : schedule) (t : SchedulerUtils.topic_key)
    (i : nat) : Prop :=
  exists d, first_in sch (day_order sch) t i d.

(** Session [s] is a review of a topic, placed on day [d] at one of the
    offsets 1, 3, 7 after the first appearance of the topic. *)
Definition review_placed (sch : schedule) (d : string) (s : session) : Prop :=
  exists t i k,
    s = SchedulerUtils.review_session t
    /\ first_index sch t i
    /\ In k SchedulerUtils.review_intervals
    /\ nth_error (day_order sch) (i + k) = Some d.

(** What the first loop holds of the days it has walked: a recorded day is
    the first of them with the topic, and every topic of them is
    recorded. *)
Definition recorded (sch : schedule) (walked : list string)
    (tfa : SchedulerUtils.first_appearance) : Prop :=
  (forall t d, In (t, d) tfa -> exists i, first_in sch walked t i d)
  /\ (forall t d, In d walked -> day_has sch t d ->
                  SchedulerUtils.tfa_mem t tfa = true).

(** The index of the first [x] in [l] (the length of [l] when there is
    none) *)
Fixpoint position (x : string) (l : list string) : nat :=
  match l with
  | [] => O
  | y :: r => if String.eqb x y then O else S (position x r)
  end.

(** The reviews of topic [t], first met at index [i], that fall on day
    [d] *)
Definition placed (days : list string) (t : SchedulerUtils.topic_key)
    (i : nat) (intervals : list nat) (d : string) : list session :=
  flat_map
    (fun k =>
       match nth_error days (i + k) with
       | Some d' =>
           if String.eqb d' d then [SchedulerUtils.review_session t] else []
       | None => []
       end)
    intervals.

(** The reviews that fall on day [d], over the recorded topics *)
Definition reviews_on (days : list string)
    (tfa : SchedulerUtils.first_appearance) (d : string) : list session :=
  flat_map
    (fun '(t, first_day) =>
       placed days t (position first_day days)
         SchedulerUtils.review_intervals d)
    tfa.

(** Two keys of the deadline order are the same key. *)
Definition urgency_eqb (a b : option Z) : bool :=
  match a, b with
  | Some x, Some y => x =? y
  | None, None => true
  | _, _ => false
  end.

(** The hours allotted on a day *)
Definition day_hours (l : list (string * Z)) : Z :=
  fold_right Z.add 0 (map snd l).

(** What the allocator keeps of its schedule: the days are each written
    once, under the key of a day up to the current one; a day before the
    current one holds [daily_hours] hours and the current day holds what is
    no longer remaining of it; the current day is whole when it is not yet
    written; and every slot is of at least one hour. *)
Definition within_capacity (daily_hours : Z)
    (st : SchedulerUtils.alloc_state) : Prop :=
  dict_wf (SchedulerUtils.sched st)
  /\ (forall k, In k (dict_keys (SchedulerUtils.sched st)) ->
        exists d, 0 <= d <= SchedulerUtils.current_day st
                  /\ k = SchedulerUtils.day_key d)
  /\ (forall d l,
        dict_get (SchedulerUtils.day_key d) (SchedulerUtils.sched st) = Some l ->
        day_hours l
        = if d <? SchedulerUtils.current_day st then daily_hours
          else daily_hours - SchedulerUtils.hours_remaining_today st)
  /\ (dict_mem (SchedulerUtils.day_key (SchedulerUtils.current_day st))
        (SchedulerUtils.sched st) = false ->
      SchedulerUtils.hours_remaining_today st = daily_hours)
  /\ (forall y, In y (allotments (SchedulerUtils.sched st)) -> 1 <= snd y).

(** A session is a focused-study session. *)
Definition is_focused (s : session) : bool :=
  match s with
  | SDict d =>
      match session_type d with
      | Some ty => String.eqb ty "focused_study"
      | None => false
      end
  | _ => false
  end.

(** A session the break stage of the planner can read: a dictionary with
    a session type, and with a time when it is a focused-study session. *)
Definition readable (s : session) : bool :=
  match s with
  | SDict d =>
      match session_type d with
      | Some ty =>
          if String.eqb ty "focused_study"
          then match time d with Some _ => true | None => false end
          else true
      | None => false
      end
  | _ => false
  end.

(** What the break stage of the planner writes for a session: the session
    and, after a focused-study session, a break two hours after its time. *)
Definition with_break (s : session) : list session :=
  match s with
  | SDict d =>
      match time d with
      | Some t =>
          if is_focused s
          then [s; SchedulerUtils.break_session
                     (PlannerAgent._add_minutes_to_time t 120)]
          else [s]
      | None => [s]
      end
  | _ => [s]
  end.

(** The exceptions the break stage of the planner raises on a session it
    cannot read *)
Definition unreadable_error (e : exn) : Prop :=
  e = KeyError "session_type" \/ e = KeyError "time" \/ e = TypeError.

(** A session counts as a study session in the summary: a dictionary
    whose type is focused study or review. *)
Definition is_study (s : session) : bool :=
  match s with
  | SDict d => SchedulerUtils.is_study_type (session_type d)
  | _ => false
  end.

(** A session the summary can read: a dictionary with a session type. *)
Definition typed (s : session) : bool :=
  match s with
  | SDict d => match session_type d with Some _ => true | None => false end
  | _ => false
  end.

(** A session carries the topic [t]. *)
Definition names_topic (t : string) (s : session) : Prop :=
  exists d, s = SDict d /\ topic d = Some (Some t).

(** The sessions of a plan, over all its days *)
Definition all_sessions (plan : schedule) : list session :=
  List.concat (dict_values plan).

(** An order in which a set of strings can be listed: the strings listed
    are those of the set, each once. *)
Definition lists_the_set (list_of_set : list string -> list string) : Prop :=
  forall l, NoDup (list_of_set l) /\ forall x, In x (list_of_set l) <-> In x l.




(** In a list of scored keys, [(k, v)] is the first entry of the highest
    score: it is at some index, no entry has more, and the entries before
    it have less. *)
Definition first_highest {K : Type} (l : list (K * Z)) (k : K) (v : Z)
  : Prop :=
  exists i,
    nth_error l i = Some (k, v)
    /\ forall j k' v',
         nth_error l j = Some (k', v') ->
         v' <= v /\ ((j < i)%nat -> v' < v).

(** The minute of the day a session starts at, when its time reads as
    one *)
Definition start_minute (s : session) : option Z :=
  match s with
  | SDict d =>
      match time d with
      | Some t =>
          match SchedulerUtils.strptime_HM t with
          | Returns m => Some m
          | Raises _ => None
          end
      | None => None
      end
  | _ => None
  end.

(** The sessions of a day follow each other in time: each has a start and
    ends, by its duration, no later than the next one starts, and the last
    one ends within the day. *)
Fixpoint in_sequence (sessions : list session) : bool :=
  match sessions with
  | [] => true
  | [s] =>
      match start_minute s with
      | Some a => a + session_minutes s <=? 1440
      | None => false
      end
  | s1 :: ((s2 :: _) as r) =>
      match start_minute s1, start_minute s2 with
      | Some a, Some b => a + session_minutes s1 <=? b
      | _, _ => false
      end && in_sequence r
  end.

(** ** Sample inputs *)

(** 2024-11-04, a Monday, at midnight *)
Definition monday : datetime := mk_datetime 739194 0.

(** Calculus and Physics, 4 hours a day, over the given number of days *)
Definition two_topic_request (days : Z) : PlannerAgent.study_info :=
  PlannerAgent.mk_study_info ["Calculus"; "Physics"] [] 4 monday true
    (Some (mk_datetime (739194 + days) 0)).

(** One topic, 2 hours a day, no deadline *)
Definition two_hour_request : PlannerAgent.study_info :=
  PlannerAgent.mk_study_info ["Calculus"] [] 2 monday true None.

(** A hard and an easy topic, and a day of dictionary sessions *)
Definition sample_difficulty : dict float :=
  [("Calculus", 0.9%float); ("History", 0.2%float)].

Definition sample_day : list session :=
  [PlannerAgent.study_session "09:00" "History";
   PlannerAgent.study_session "14:00" "Calculus";
   PlannerAgent.evening_review;
   PlannerAgent.study_session "16:00" "Calculus"].

(** A schedule in the shape the allocator returns it, three days, and a
    dictionary session *)
Definition sample_schedule : schedule :=
  [("Day 1", [STuple "Calculus" 2; STuple "Physics" 1]);
   ("Day 2", [STuple "Physics" 1; SDict (mk_session None None None None None)]);
   ("Day 3", [STuple "Calculus" 1]);
   ("Day 4", [])].

(** Ten topics over ten days of one hour: the allocation, and the schedule
    it stands for *)
Definition ten_topics : list string :=
  ["T1"; "T2"; "T3"; "T4"; "T5"; "T6"; "T7"; "T8"; "T9"; "T10"].

Definition ten_day_schedule : schedule :=
  map (fun i => (SchedulerUtils.day_key (Z.of_nat i),
                 [STuple (nth i ten_topics "") 1]))
    (seq 0 10).

(** [list(set(l))] in the order of first occurrence, one of the orders a
    set of strings can be listed in *)
Fixpoint unique (l : list string) : list string :=
  match l with
  | [] => []
  | x :: r => x :: filter (fun y => negb (String.eqb x y)) (unique r)
  end.

(** An environment for a text in which no pattern of the planner matches:
    the clock reads the given time, the regular expressions find nothing,
    and both collaborators succeed. *)
Definition quiet_environment (clock : datetime) : PlannerAgent.environment :=
  PlannerAgent.mk_environment (fun _ => clock) (fun _ _ => [])
    (fun _ _ => None) unique None None.

(** The same, with the clock read at a given time when the plan is saved,
    the set of topics listed in reverse, and both collaborators failing *)
Definition noisy_environment (clock saved : datetime)
  : PlannerAgent.environment :=
  PlannerAgent.mk_environment
    (fun n => match n with 2%nat => saved | _ => clock end)
    (fun _ _ => []) (fun _ _ => None)
    (fun l => match unique l with
              | [x] => [x]
              | other => rev other
              end)
    (Some TypeError) (Some ValueError).

(** A day with a study session, a review and a session of another type *)
Definition sample_break_free_day : list session :=
  [PlannerAgent.study_session "09:00" "Calculus";
   SDict (mk_session (Some "10:30") (Some "Lunch") (Some "30 minutes")
            None (Some "meal"));
   PlannerAgent.evening_review;
   STuple "Physics" 1].

(** Three topics, the default 3 hours a day, no deadline *)
Definition three_topic_request : PlannerAgent.study_info :=
  PlannerAgent.mk_study_info ["Calculus"; "Physics"; "History"] [] 3 monday
    true None.

(** ** Evaluation of the embedding on sample inputs *)

Example optimize_topic_distribution_ex1 :
  SchedulerUtils.optimize_topic_distribution ["a"; "b"; "c"] 2 3
  = Some (Returns [("Day 1", [("a", 2); ("b", 1)]);
                   ("Day 2", [("b", 1); ("c", 2)])]).
Proof. reflexivity. Qed.

Example optimize_topic_distribution_ex2 :
  SchedulerUtils.optimize_topic_distribution ["a"; "b"; "c"] 1 1
  = Some (Returns [("Day 1", [("a", 1)])]).
Proof. reflexivity. Qed.
Example add_minutes_to_time_ex :
  SchedulerUtils._add_minutes_to_time "09:00" 120 = "11:00"
  /\ SchedulerUtils._add_minutes_to_time "23:30" 45 = "00:15"
  /\ SchedulerUtils._add_minutes_to_time "9:5" (-10) = "08:55"
  /\ SchedulerUtils._add_minutes_to_time "24:00" 45 = "24:00"
  /\ SchedulerUtils._add_minutes_to_time "noon" 45 = "noon".
Proof. repeat split; reflexivity. Qed.

Example sorted_ex :
  SchedulerUtils.sorted ["Day 2"; "Day 10"; "Day 1"] = ["Day 1"; "Day 10"; "Day 2"].
Proof. reflexivity. Qed.

(** ** The session-length advisor *)

Lemma scale_11 (b : Z) :
  b = 45 \/ b = 60 \/ b = 90 ->
  SchedulerUtils.scale b 1.1%float = Returns (b * 11 / 10).
Proof. intros [-> | [-> | ->]]; vm_compute; reflexivity. Qed.

Lemma scale_09 (b : Z) :
  b = 45 \/ b = 60 \/ b = 90 ->
  SchedulerUtils.scale b 0.9%float = Returns (b * 9 / 10).
Proof. intros [-> | [-> | ->]]; vm_compute; reflexivity. Qed.

Lemma difficulty_base_cases (d : float) :
  SchedulerUtils.difficulty_base d = 45
  \/ SchedulerUtils.difficulty_base d = 60
  \/ SchedulerUtils.difficulty_base d = 90.
Proof.
  unfold SchedulerUtils.difficulty_base.
  destruct (PrimFloat.ltb 0.7 d); [now left |].
  destruct (PrimFloat.ltb d 0.3); [now right; right | now right; left].
Qed.

(** The difficulty-adjusted base is 45 above 0.7, 90 below 0.3 and 60
    otherwise. *)
Lemma difficulty_base_spec (d : float) :
  (PrimFloat.ltb 0.7 d = true -> SchedulerUtils.difficulty_base d = 45)
  /\ (PrimFloat.ltb 0.7 d = false -> PrimFloat.ltb d 0.3 = true ->
      SchedulerUtils.difficulty_base d = 90)
  /\ (PrimFloat.ltb 0.7 d = false -> PrimFloat.ltb d 0.3 = false ->
      SchedulerUtils.difficulty_base d = 60).
Proof.
  unfold SchedulerUtils.difficulty_base.
  repeat split; intros; repeat match goal with H : _ = _ |- _ => rewrite H end;
    reflexivity.
Qed.



(** ** Dictionaries *)

Lemma dict_get_set {V : Type} (k k' : string) (v : V) (d : dict V) :
  dict_get k' (dict_set k v d)
  = if String.eqb k' k then Some v else dict_get k' d.
Proof.
  induction d as [| [k0 v0] r IH]; simpl.
  - reflexivity.
  - destruct (String.eqb k k0) eqn:E; simpl.
    + apply String.eqb_eq in E. subst k0.
      destruct (String.eqb k' k); reflexivity.
    + rewrite IH. destruct (String.eqb k' k0) eqn:E0; [| reflexivity].
      apply String.eqb_eq in E0. subst k0.
      destruct (String.eqb k' k) eqn:E1; [| reflexivity].
      apply String.eqb_eq in E1. subst k'. rewrite String.eqb_refl in E.
      discriminate.
Qed.

Lemma dict_get_None_keys {V : Type} (k : string) (d : dict V) :
  dict_get k d = None <-> ~ In k (dict_keys d).
Proof.
  induction d as [| [k0 v0] r IH]; simpl.
  - tauto.
  - destruct (String.eqb k k0) eqn:E.
    + apply String.eqb_eq in E. subst. split; [discriminate | tauto].
    + apply String.eqb_neq in E. rewrite IH. split; intros H.
      * intros [H1 | H1]; [congruence | tauto].
      * tauto.
Qed.

Lemma dict_get_In {V : Type} (k : string) (v : V) (d : dict V) :
  dict_get k d = Some v -> In (k, v) d.
Proof.
  induction d as [| [k0 v0] r IH]; simpl; [discriminate |].
  destruct (String.eqb k k0) eqn:E.
  - apply String.eqb_eq in E. intros [= ->]. subst. now left.
  - intros H. right. auto.
Qed.

Lemma dict_In_get {V : Type} (k : string) (v : V) (d : dict V) :
  dict_wf d -> In (k, v) d -> dict_get k d = Some v.
Proof.
  unfold dict_wf, dict_keys.
  induction d as [| [k0 v0] r IH]; simpl; [tauto |].
  intros Hnd [H | H]; inversion Hnd; subst.
  - injection H as -> ->. now rewrite String.eqb_refl.
  - destruct (String.eqb k k0) eqn:E; [| auto].
    apply String.eqb_eq in E. subst k0. exfalso.
    apply H2. change k with (fst (k, v)). now apply in_map.
Qed.

Lemma dict_keys_set {V : Type} (k : string) (v : V) (d : dict V) :
  dict_keys (dict_set k v d)
  = if dict_mem k d then dict_keys d else (dict_keys d ++ [k])%list.
Proof.
  unfold dict_mem.
  induction d as [| [k0 v0] r IH]; simpl; [reflexivity |].
  destruct (String.eqb k k0) eqn:E; simpl; [reflexivity |].
  rewrite IH. destruct (dict_get k r); reflexivity.
Qed.

Lemma dict_wf_set {V : Type} (k : string) (v : V) (d : dict V) :
  dict_wf d -> dict_wf (dict_set k v d).
Proof.
  unfold dict_wf. intros H. rewrite dict_keys_set. unfold dict_mem.
  destruct (dict_get k d) eqn:E; [assumption |].
  apply dict_get_None_keys in E.
  apply NoDup_rev in H. rewrite <- (rev_involutive (_ ++ _)%list).
  apply NoDup_rev. rewrite rev_app_distr. simpl. constructor; [| assumption].
  now rewrite <- in_rev.
Qed.

Lemma dict_values_set {V : Type} (P : V -> Prop) (k : string) (v : V)
    (d : dict V) :
  P v -> Forall P (dict_values d) -> Forall P (dict_values (dict_set k v d)).
Proof.
  unfold dict_values. intros Hv.
  induction d as [| [k0 v0] r IH]; simpl; intros H.
  - constructor; [assumption | constructor].
  - inversion H; subst.
    destruct (String.eqb k k0); simpl; constructor; auto.
Qed.

Lemma dict_In_values {V : Type} (k : string) (v : V) (d : dict V) :
  In (k, v) d -> In v (dict_values d).
Proof.
  unfold dict_values. intros H. change v with (snd (k, v)). now apply in_map.
Qed.

(** ** Dates *)


Lemma weekday_index_cases (o : Z) :
  let r := (o + 6) mod 7 in
  r = 0 \/ r = 1 \/ r = 2 \/ r = 3 \/ r = 4 \/ r = 5 \/ r = 6.
Proof.
  intros r. assert (0 <= r < 7) by (apply Z.mod_pos_bound; lia). lia.
Qed.

(** Two days have the same weekday name exactly when they are a multiple
    of seven days apart. *)
Lemma weekday_name_eq (a b : datetime) :
  weekday_name a = weekday_name b <-> (ordinal a - ordinal b) mod 7 = 0.
Proof.
  unfold weekday_name.
  pose proof (weekday_index_cases (ordinal a)) as Ha.
  pose proof (weekday_index_cases (ordinal b)) as Hb.
  cbv zeta in Ha, Hb.
  assert (Hmod : (ordinal a - ordinal b) mod 7 = 0
                 <-> (ordinal a + 6) mod 7 = (ordinal b + 6) mod 7)
    by (Z.div_mod_to_equations; lia).
  rewrite Hmod.
  destruct Ha as [Ha | [Ha | [Ha | [Ha | [Ha | [Ha | Ha]]]]]];
    destruct Hb as [Hb | [Hb | [Hb | [Hb | [Hb | [Hb | Hb]]]]]];
    rewrite Ha, Hb; simpl; split; intros H;
    first [reflexivity | discriminate H].
Qed.

Lemma weekday_name_In (d : datetime) : In (weekday_name d) weekday_names.
Proof.
  unfold weekday_name.
  destruct (weekday_index_cases (ordinal d)) as [H | [H | [H | [H | [H | [H | H]]]]]];
    rewrite H; simpl; tauto.
Qed.

(** ** [_create_study_schedule] *)

Lemma topic_index_step (topics : list string) (h i : Z) :
  snd (PlannerAgent.daily_sessions topics h (topic_index_before h i))
  = topic_index_before h (i + 1).
Proof.
  unfold PlannerAgent.daily_sessions, topic_index_before.
  destruct (4 <=? h) eqn:E4.
  - apply Z.leb_le in E4.
    replace (2 <=? h) with true by (symmetry; apply Z.leb_le; lia).
    replace (2 <=? h - 2) with true by (symmetry; apply Z.leb_le; lia).
    reflexivity.
  - apply Z.leb_gt in E4.
    destruct (2 <=? h) eqn:E2.
    + replace (2 <=? h - 2) with false by (symmetry; apply Z.leb_gt; lia).
      reflexivity.
    + rewrite E2. reflexivity.
Qed.


Lemma plan_after_S (topics : list string) (h : Z) (start : datetime) (n : nat) :
  plan_after topics h start (S n)
  = dict_set (weekday_name (day_after start (Z.of_nat n)))
      (sessions_of_day topics h (Z.of_nat n)) (plan_after topics h start n).
Proof.
  unfold plan_after. rewrite seq_S, map_app, fold_left_app. reflexivity.
Qed.


Lemma same_weekday_iff (start : datetime) (i j : Z) :
  weekday_name (day_after start i) = weekday_name (day_after start j)
  <-> (i - j) mod 7 = 0.
Proof.
  rewrite weekday_name_eq. unfold day_after. simpl.
  replace (ordinal start + i - (ordinal start + j)) with (i - j) by lia.
  reflexivity.
Qed.

(** The entry of a weekday holds the sessions of the last day written on
    it. *)
Lemma plan_after_get (topics : list string) (h : Z) (start : datetime) :
  forall (n : nat) (i : Z),
    0 <= i < Z.of_nat n ->
    dict_get (weekday_name (day_after start i)) (plan_after topics h start n)
    = Some (sessions_of_day topics h (last_same_weekday (Z.of_nat n) i)).
Proof.
  induction n as [| n IH]; intros i Hi; [lia |].
  rewrite plan_after_S, dict_get_set.
  destruct (String.eqb _ _) eqn:E.
  - apply String.eqb_eq, same_weekday_iff in E.
    f_equal. f_equal. unfold last_same_weekday.
    Z.div_mod_to_equations. lia.
  - apply String.eqb_neq in E. rewrite same_weekday_iff in E.
    assert (i < Z.of_nat n).
    { destruct (Z.eq_dec i (Z.of_nat n)) as [-> | ]; [| lia].
      exfalso. apply E. now rewrite Z.sub_diag. }
    rewrite IH by lia. f_equal. f_equal. unfold last_same_weekday.
    Z.div_mod_to_equations. lia.
Qed.

Lemma plan_after_keys (topics : list string) (h : Z) (start : datetime) :
  forall (n : nat) (k : string),
    In k (dict_keys (plan_after topics h start n)) ->
    exists i, 0 <= i < Z.of_nat n /\ k = weekday_name (day_after start i).
Proof.
  induction n as [| n IH]; intros k; [simpl; tauto |].
  rewrite plan_after_S, dict_keys_set.
  intros H.
  assert (Hk : In k (dict_keys (plan_after topics h start n))
               \/ k = weekday_name (day_after start (Z.of_nat n))).
  { destruct (dict_mem _ _); [now left |].
    apply in_app_or in H. destruct H as [H | [H | []]]; [now left | now right]. }
  destruct Hk as [Hk | ->].
  - destruct (IH k Hk) as (i & Hi & ->). exists i. split; [lia | reflexivity].
  - exists (Z.of_nat n). split; [lia | reflexivity].
Qed.

Lemma plan_after_wf (topics : list string) (h : Z) (start : datetime) (n : nat) :
  dict_wf (plan_after topics h start n).
Proof.
  induction n as [| n IH].
  - constructor.
  - rewrite plan_after_S. now apply dict_wf_set.
Qed.

Lemma plan_after_length (topics : list string) (h : Z) (start : datetime) :
  forall n : nat,
    List.length (plan_after topics h start n) = Nat.min n 7.
Proof.
  induction n as [| n IH]; [reflexivity |].
  assert (Hlen : forall d : schedule, List.length d = List.length (dict_keys d))
    by (intros d; unfold dict_keys; now rewrite length_map).
  rewrite Hlen, plan_after_S, dict_keys_set.
  destruct (dict_mem _ _) eqn:E; unfold dict_mem in E.
  - rewrite <- Hlen.
    destruct (dict_get _ _) eqn:G; [| discriminate].
    assert (Hin : In (weekday_name (day_after start (Z.of_nat n)))
                    (dict_keys (plan_after topics h start n))).
    { destruct (in_dec string_dec (weekday_name (day_after start (Z.of_nat n)))
                  (dict_keys (plan_after topics h start n))) as [? | Hn];
        [assumption |].
      apply dict_get_None_keys in Hn. congruence. }
    apply plan_after_keys in Hin. destruct Hin as (i & Hi & Heq).
    apply same_weekday_iff in Heq.
    assert (7 <= Z.of_nat n) by (Z.div_mod_to_equations; lia).
    rewrite IH. lia.
  - destruct (dict_get _ _) eqn:G; [discriminate |].
    rewrite length_app, <- Hlen, IH. simpl.
    assert (Z.of_nat n < 7); [| lia].
    destruct (Z_lt_le_dec (Z.of_nat n) 7) as [? | Hge]; [assumption |].
    exfalso.
    pose proof (plan_after_get topics h start n (Z.of_nat n - 7)) as Hget.
    assert (Hw : weekday_name (day_after start (Z.of_nat n - 7))
                 = weekday_name (day_after start (Z.of_nat n))).
    { apply same_weekday_iff.
      replace (Z.of_nat n - 7 - Z.of_nat n) with (-7) by lia. reflexivity. }
    rewrite Hw, G in Hget. discriminate Hget. lia.
Qed.

Lemma add_days_returns (d d' : datetime) (n : Z) :
  add_days d n = Returns d' -> d' = day_after d n.
Proof.
  unfold add_days, day_after.
  destruct ((1 <=? ordinal d + n) && (ordinal d + n <=? 3652059));
    [now intros [= <-] | discriminate].
Qed.

Lemma create_days_returns_inv (topics : list string) (h : Z) (start : datetime) :
  forall (m a : nat) (sch sch' : schedule),
    PlannerAgent.create_days topics h start (map Z.of_nat (seq a m)) sch
      (topic_index_before h (Z.of_nat a)) = Returns sch' ->
    sch' = fold_left
             (fun sch i =>
                dict_set (weekday_name (day_after start i))
                  (sessions_of_day topics h i) sch)
             (map Z.of_nat (seq a m)) sch.
Proof.
  induction m as [| m IH]; intros a sch sch'; simpl.
  - now intros [= <-].
  - destruct (add_days start (Z.of_nat a)) as [date | e] eqn:Ed; simpl;
      [| discriminate].
    apply add_days_returns in Ed. subst date.
    pose proof (topic_index_step topics h (Z.of_nat a)) as Hstep.
    assert (Hfst : sessions_of_day topics h (Z.of_nat a)
                   = fst (PlannerAgent.daily_sessions topics h
                            (topic_index_before h (Z.of_nat a))))
      by reflexivity.
    destruct (PlannerAgent.daily_sessions topics h
                (topic_index_before h (Z.of_nat a))) as [sessions ti'].
    simpl in Hstep, Hfst. subst ti'. rewrite Hfst.
    replace (Z.of_nat a + 1) with (Z.of_nat (S a)) by lia.
    apply IH.
Qed.

Lemma create_study_schedule_inv (info : PlannerAgent.study_info)
    (sch : schedule) :
  PlannerAgent._create_study_schedule info = Returns sch ->
  sch = plan_after (PlannerAgent.topics info) (PlannerAgent.daily_hours info)
          (PlannerAgent.start_date info)
          (Z.to_nat (PlannerAgent.days_available_of info)).
Proof.
  unfold PlannerAgent._create_study_schedule.
  destruct (PlannerAgent.topics info) as [| t ts] eqn:Et; [discriminate |].
  unfold PlannerAgent.range, plan_after. intros H.
  apply (create_days_returns_inv (t :: ts) (PlannerAgent.daily_hours info)
           (PlannerAgent.start_date info) _ 0%nat).
  replace (topic_index_before (PlannerAgent.daily_hours info) (Z.of_nat 0))
    with 0 by (unfold topic_index_before; now destruct (4 <=? _)).
  exact H.
Qed.

Lemma days_available_bounds (info : PlannerAgent.study_info) :
  1 <= PlannerAgent.days_available_of info <= 14.
Proof. unfold PlannerAgent.days_available_of. lia. Qed.

(** C10: whenever [_create_study_schedule] returns a plan, the plan has
    at most 7 day entries, although between 1 and 14 days are written: the
    entries are keyed by weekday name, so the plan has as many entries as
    there are days up to 7, the entry of each weekday holds the sessions of
    the last day written on it, and the sessions of a day that is followed
    by another day of the same weekday are overwritten by that day's. *)
Theorem create_study_schedule_at_most_seven_days
    (info : PlannerAgent.study_info) (sch : schedule) :
  PlannerAgent._create_study_schedule info = Returns sch ->
  let n := PlannerAgent.days_available_of info in
  let start := PlannerAgent.start_date info in
  let sessions_on :=
    sessions_of_day (PlannerAgent.topics info) (PlannerAgent.daily_hours info) in
  (List.length sch <= 7)%nat
  /\ 1 <= n <= 14
  /\ Z.of_nat (List.length sch) = Z.min n 7
  /\ incl (dict_keys sch) weekday_names
  /\ (forall i, 0 <= i < n ->
        dict_get (weekday_name (day_after start i)) sch
        = Some (sessions_on (last_same_weekday n i)))
  /\ (forall i, 0 <= i -> i + 7 < n ->
        dict_get (weekday_name (day_after start i)) sch
        = Some (sessions_on (i + 7))).
Proof.
  intros H n start sessions_on.
  apply create_study_schedule_inv in H. fold n start in H.
  pose proof (days_available_bounds info) as Hn. fold n in Hn.
  assert (Hlen : List.length sch = Nat.min (Z.to_nat n) 7)
    by (subst sch; apply plan_after_length).
  assert (Hget : forall i, 0 <= i < n ->
            dict_get (weekday_name (day_after start i)) sch
            = Some (sessions_on (last_same_weekday n i))).
  { intros i Hi. subst sch.
    rewrite plan_after_get by lia. now rewrite Z2Nat.id by lia. }
  repeat split; try lia.
  - intros k Hk. subst sch. apply plan_after_keys in Hk.
    destruct Hk as (i & _ & ->). apply weekday_name_In.
  - exact Hget.
  - intros i Hi0 Hi7. rewrite Hget by lia. f_equal. f_equal.
    unfold last_same_weekday. Z.div_mod_to_equations. lia.
Qed.

Example monday_is_a_monday : weekday_name monday = "Monday".
Proof. reflexivity. Qed.

(** Over 14 days the plan has 7 entries, and Monday holds the sessions of
    the eighth day (Physics first), not those of the first (Calculus
    first). *)
Lemma create_study_schedule_at_most_seven_days_witness :
  exists sch,
    PlannerAgent._create_study_schedule (two_topic_request 14) = Returns sch
    /\ List.length sch = 7%nat
    /\ dict_get "Monday" sch
       = Some [PlannerAgent.study_session "09:00" "Physics";
               PlannerAgent.study_session "14:00" "Calculus"]
    /\ sessions_of_day ["Calculus"; "Physics"] 4 0
       = [PlannerAgent.study_session "09:00" "Calculus";
          PlannerAgent.study_session "14:00" "Physics"].
Proof.
  destruct (PlannerAgent._create_study_schedule (two_topic_request 14))
    as [sch | e] eqn:E; [| vm_compute in E; discriminate E].
  exists sch.
  pose proof (create_study_schedule_at_most_seven_days _ _ E) as H.
  cbv zeta in H. destruct H as (_ & _ & Hlen & _ & _ & Hover).
  split; [reflexivity |].
  split; [apply Nat2Z.inj; rewrite Hlen; reflexivity |].
  split; [| reflexivity].
  exact (Hover 0 (Z.le_refl 0) eq_refl).
Defined.

(** ** [_optimize_schedule] on a created schedule *)

(** What the break stage of the planner makes of the sessions of a created
    day: it returns, the sessions that are not breaks are the created
    ones, no break follows a break, the day ends with a break exactly when
    [daily_hours] is 2 or 4, and the minutes are bounded. *)
Ltac settle_created_day :=
  eexists; (split; [reflexivity |]);
  vm_compute study_part; vm_compute has_adjacent_breaks;
  vm_compute ends_with_break; vm_compute day_minutes;
  repeat split; intros; try lia; try reflexivity; try discriminate.

Lemma optimize_created_day (topics : list string) (h ti : Z) :
  exists out,
    PlannerAgent.optimize_sessions
      (fst (PlannerAgent.daily_sessions topics h ti)) [] = Returns out
    /\ study_part out = fst (PlannerAgent.daily_sessions topics h ti)
    /\ has_adjacent_breaks out = false
    /\ (ends_with_break out = true <-> h = 2 \/ h = 4)
    /\ (0 <= h -> day_minutes (study_part out) <= h * 60)
    /\ (0 <= h -> day_minutes out <= h * 60 + 30).
Proof.
  unfold PlannerAgent.daily_sessions.
  destruct (2 <=? h) eqn:E1;
    [apply Z.leb_le in E1 | apply Z.leb_gt in E1].
  - destruct (2 <=? h - 2) eqn:E2;
      [apply Z.leb_le in E2 | apply Z.leb_gt in E2].
    + destruct (1 <=? h - 2 - 2) eqn:E3;
        [apply Z.leb_le in E3 | apply Z.leb_gt in E3]; settle_created_day.
    + destruct (1 <=? h - 2) eqn:E3;
        [apply Z.leb_le in E3 | apply Z.leb_gt in E3]; settle_created_day.
  - replace (2 <=? h) with false by (symmetry; apply Z.leb_gt; lia).
    destruct (1 <=? h) eqn:E3;
      [apply Z.leb_le in E3 | apply Z.leb_gt in E3]; settle_created_day.
Qed.

Lemma optimize_days_values (P Q : list session -> Prop) :
  (forall v, P v ->
     exists v', PlannerAgent.optimize_sessions v [] = Returns v' /\ Q v') ->
  forall (items : list (string * list session)) (acc : schedule),
    Forall P (map snd items) ->
    Forall Q (dict_values acc) ->
    exists out,
      PlannerAgent.optimize_days items acc = Returns out
      /\ Forall Q (dict_values out).
Proof.
  intros Hstep.
  induction items as [| [day sessions] r IH]; intros acc HP HQ; simpl.
  - now exists acc.
  - inversion HP as [| ? ? Hv Hr]; subst.
    destruct (Hstep _ Hv) as (v' & -> & Hq). simpl.
    apply IH; [assumption |]. now apply dict_values_set.
Qed.

Lemma plan_after_values (topics : list string) (h : Z) (start : datetime)
    (n : nat) :
  Forall (fun v => exists i, v = sessions_of_day topics h i)
    (dict_values (plan_after topics h start n)).
Proof.
  induction n as [| n IH].
  - constructor.
  - rewrite plan_after_S. apply dict_values_set; [now eexists | assumption].
Qed.

(** Every day of a plan the two stages return satisfies what
    [optimize_created_day] states of a day. *)
Lemma build_plan_days (info : PlannerAgent.study_info) (plan : schedule) :
  build_plan info = Returns plan ->
  let h := PlannerAgent.daily_hours info in
  Forall
    (fun out =>
       has_adjacent_breaks out = false
       /\ (ends_with_break out = true <-> h = 2 \/ h = 4)
       /\ (0 <= h -> day_minutes (study_part out) <= h * 60)
       /\ (0 <= h -> day_minutes out <= h * 60 + 30))
    (dict_values plan).
Proof.
  intros H h. unfold build_plan in H.
  destruct (PlannerAgent._create_study_schedule info) as [plan0 | e] eqn:E;
    simpl in H; [| discriminate].
  apply create_study_schedule_inv in E. fold h in E.
  unfold PlannerAgent._optimize_schedule in H.
  destruct (optimize_days_values
              (fun v => exists i, v = sessions_of_day (PlannerAgent.topics info) h i)
              (fun out =>
                 has_adjacent_breaks out = false
                 /\ (ends_with_break out = true <-> h = 2 \/ h = 4)
                 /\ (0 <= h -> day_minutes (study_part out) <= h * 60)
                 /\ (0 <= h -> day_minutes out <= h * 60 + 30)))
    with (items := plan0) (acc := @nil (string * list session))
    as (out & Hout & Hall).
  - intros v [i ->]. unfold sessions_of_day.
    destruct (optimize_created_day (PlannerAgent.topics info) h
                (topic_index_before h i)) as (v' & Hv & _ & H1 & H2 & H3 & H4).
    exists v'. auto.
  - subst plan0. apply plan_after_values.
  - constructor.
  - rewrite H in Hout. injection Hout as <-. exact Hall.
Qed.


(** C2 (as amended): in every day of a plan the two stages return for a
    request with [daily_hours >= 0], the study and review sessions take at
    most [daily_hours * 60] minutes; the breaks are not counted against the
    budget, and with them the day takes at most [daily_hours * 60 + 30]
    minutes. *)
Theorem build_plan_minutes (info : PlannerAgent.study_info) (plan : schedule)
    (day : string) (sessions : list session) :
  build_plan info = Returns plan ->
  0 <= PlannerAgent.daily_hours info ->
  In (day, sessions) plan ->
  day_minutes (study_part sessions) <= PlannerAgent.daily_hours info * 60
  /\ day_minutes sessions <= PlannerAgent.daily_hours info * 60 + 30.
Proof.
  intros Hplan Hh Hin.
  pose proof (build_plan_days info plan Hplan) as Hall. cbv zeta in Hall.
  rewrite Forall_forall in Hall.
  destruct (Hall sessions (dict_In_values _ _ _ Hin)) as (_ & _ & H1 & H2).
  auto.
Qed.

Lemma build_plan_minutes_witness :
  exists plan sessions,
    build_plan (two_topic_request 2) = Returns plan
    /\ In ("Monday", sessions) plan
    /\ day_minutes (study_part sessions) <= 4 * 60
    /\ day_minutes sessions <= 4 * 60 + 30.
Proof.
  destruct (build_plan (two_topic_request 2)) as [plan | e] eqn:E;
    [| vm_compute in E; discriminate E].
  assert (Hget : exists sessions, dict_get "Monday" plan = Some sessions).
  { revert E. vm_compute. intros [= <-]. eexists. reflexivity. }
  destruct Hget as [sessions Hget]. apply dict_get_In in Hget.
  exists plan, sessions.
  split; [reflexivity |]. split; [assumption |].
  apply (build_plan_minutes (two_topic_request 2) plan "Monday" sessions);
    [exact E | vm_compute; discriminate | assumption].
Defined.

(** C2 as stated fails: with 4 hours a day, the first day of the plan
    takes 270 minutes, more than [4 * 60]. *)
Lemma build_plan_exceeds_daily_hours :
  exists plan sessions,
    build_plan (two_topic_request 2) = Returns plan
    /\ dict_get "Monday" plan = Some sessions
    /\ day_minutes sessions = 270
    /\ PlannerAgent.daily_hours (two_topic_request 2) * 60 = 240.
Proof.
  eexists. eexists. split; [vm_compute; reflexivity |].
  split; [vm_compute; reflexivity |]. split; reflexivity.
Qed.

(** ** Breaks *)

Lemma add_breaks_day_eq (bi : Z) :
  forall (sessions acc : list session) (n i : Z),
    n = i + Z.of_nat (List.length sessions) ->
    SchedulerUtils.add_breaks_day bi n i sessions acc
    = (acc ++ breaks_between bi sessions)%list.
Proof.
  induction sessions as [| s r IH]; intros acc n i Hn; simpl.
  - now rewrite app_nil_r.
  - simpl in Hn. rewrite (IH _ n (i + 1)) by lia.
    assert (Hlast : (i <? n - 1) = match r with [] => false | _ => true end).
    { destruct r; simpl in Hn; [apply Z.ltb_ge | apply Z.ltb_lt]; lia. }
    destruct s as [d | t hours |]; simpl;
      try (now rewrite <- app_assoc).
    rewrite Hlast.
    destruct r as [| s' r'].
    + rewrite andb_false_r, <- app_assoc. reflexivity.
    + rewrite andb_true_r.
      destruct (SchedulerUtils.is_study_type (session_type d));
        repeat rewrite <- app_assoc; reflexivity.
Qed.

Lemma ends_with_break_cons (s : session) (l : list session) :
  l <> [] -> ends_with_break (s :: l) = ends_with_break l.
Proof.
  unfold ends_with_break. simpl. intros Hl.
  destruct (rev l) as [| x r] eqn:E; [| reflexivity].
  apply (f_equal (@rev session)) in E. rewrite rev_involutive in E.
  now subst l.
Qed.

Lemma is_break_break_session (t : string) :
  is_break (SchedulerUtils.break_session t) = true.
Proof. reflexivity. Qed.

(** On a day without breaks, [add_breaks] writes a day that does not end
    with a break and in which no break follows a break. *)
Lemma breaks_between_sound (bi : Z) (sessions : list session) :
  break_free sessions ->
  ends_with_break (breaks_between bi sessions) = false
  /\ has_adjacent_breaks (breaks_between bi sessions) = false
  /\ match breaks_between bi sessions with
     | s :: _ => is_break s = false
     | [] => True
     end.
Proof.
  induction 1 as [| s r Hs Hr IH]; [now repeat split |].
  destruct IH as (IHend & IHadj & IHhd).
  destruct r as [| s' r'].
  - destruct s; simpl in *; unfold ends_with_break; simpl;
      repeat split; auto.
  - inversion Hr as [| ? ? Hs' _]; subst.
    assert (Hstep : exists inserted,
              breaks_between bi (s :: s' :: r')
              = (s :: inserted ++ breaks_between bi (s' :: r'))%list
              /\ (inserted = []
                  \/ exists t, inserted = [SchedulerUtils.break_session t])).
    { destruct s as [d | t hours |]; cbn [breaks_between];
        [destruct (SchedulerUtils.is_study_type _) | |].
      - eexists [_]. split; [reflexivity | right; eexists; reflexivity].
      - exists []. split; [reflexivity | now left].
      - exists []. split; [reflexivity | now left].
      - exists []. split; [reflexivity | now left]. }
    destruct Hstep as (inserted & -> & Hins).
    remember (breaks_between bi (s' :: r')) as tail eqn:Et.
    destruct tail as [| x rest]; [simpl in Et; discriminate |].
    assert (x = s') by (simpl in Et; congruence). subst x.
    simpl in IHadj.
    destruct Hins as [-> | [t ->]]; cbn [app].
    + rewrite ends_with_break_cons by discriminate.
      repeat split; auto. simpl. now rewrite Hs, IHadj.
    + rewrite ends_with_break_cons by discriminate.
      rewrite ends_with_break_cons by discriminate.
      repeat split; auto.
      cbn [has_adjacent_breaks]. rewrite Hs, Hs'. simpl.
      rewrite Hs' in IHadj. destruct rest; [reflexivity | exact IHadj].
Qed.

(** The break stage of [SchedulerUtils] keeps the invariant of the plan:
    on a schedule without breaks, no day of the result ends with a break
    and no break of it follows a break. *)
Lemma add_breaks_sound (sch : schedule) (bi : Z) :
  Forall break_free (dict_values sch) ->
  Forall
    (fun out => ends_with_break out = false /\ has_adjacent_breaks out = false)
    (dict_values (SchedulerUtils.add_breaks sch bi)).
Proof.
  unfold SchedulerUtils.add_breaks.
  assert (Hgen : forall (items : list (string * list session)) (acc : schedule),
            Forall break_free (map snd items) ->
            Forall
              (fun out => ends_with_break out = false
                          /\ has_adjacent_breaks out = false)
              (dict_values acc) ->
            Forall
              (fun out => ends_with_break out = false
                          /\ has_adjacent_breaks out = false)
              (dict_values
                 (fold_left
                    (fun with_breaks '(day, sessions) =>
                       dict_set day
                         (SchedulerUtils.add_breaks_day bi
                            (Z.of_nat (List.length sessions)) 0 sessions [])
                         with_breaks)
                    items acc))).
  { induction items as [| [day sessions] r IH]; intros acc Hfree Hacc; simpl;
      [assumption |].
    inversion Hfree; subst. apply IH; [assumption |].
    apply dict_values_set; [| assumption].
    rewrite add_breaks_day_eq by lia. simpl.
    destruct (breaks_between_sound bi sessions) as (Hend & Hadj & _); auto. }
  intros H. apply Hgen; [exact H | constructor].
Qed.

(** C3 fails on the planner: for a request of 2 hours a day, each of the
    7 days of the plan is a study session followed by a break, so every
    day ends with a break. *)
Theorem optimize_schedule_trailing_break :
  build_plan two_hour_request
  = Returns
      (map (fun day =>
              (day, [PlannerAgent.study_session "09:00" "Calculus";
                     SchedulerUtils.break_session "11:00"]))
         weekday_names)
  /\ ends_with_break [PlannerAgent.study_session "09:00" "Calculus";
                      SchedulerUtils.break_session "11:00"] = true.
Proof. split; vm_compute; reflexivity. Qed.

(** The same holds of every plan of the two stages when [daily_hours] is
    2 or 4, and of no other; no plan has a break after a break. *)
Lemma build_plan_breaks (info : PlannerAgent.study_info) (plan : schedule)
    (day : string) (sessions : list session) :
  build_plan info = Returns plan ->
  In (day, sessions) plan ->
  has_adjacent_breaks sessions = false
  /\ (ends_with_break sessions = true
      <-> PlannerAgent.daily_hours info = 2
          \/ PlannerAgent.daily_hours info = 4).
Proof.
  intros Hplan Hin.
  pose proof (build_plan_days info plan Hplan) as Hall. cbv zeta in Hall.
  rewrite Forall_forall in Hall.
  destruct (Hall sessions (dict_In_values _ _ _ Hin)) as (H1 & H2 & _).
  auto.
Qed.

(** ** The two-topic scenario *)



(** ** Cognitive-load balancing *)

Lemma dict_set_fresh {V : Type} (k : string) (v : V) (d : dict V) :
  ~ In k (dict_keys d) -> dict_set k v d = (d ++ [(k, v)])%list.
Proof.
  induction d as [| [k0 v0] r IH]; simpl; intros H; [reflexivity |].
  destruct (String.eqb k k0) eqn:E.
  - apply String.eqb_eq in E. subst k0. tauto.
  - rewrite IH by tauto. reflexivity.
Qed.

(** Rebuilding a dictionary entry by entry with [f] on the values gives
    the dictionary with [f] mapped over its values. *)
Lemma fold_dict_set_map {V W : Type} (f : V -> W) :
  forall (items : dict V) (acc : dict W),
    dict_wf items ->
    (forall k, In k (dict_keys items) -> ~ In k (dict_keys acc)) ->
    fold_left (fun a '(k, v) => dict_set k (f v) a) items acc
    = (acc ++ map (fun '(k, v) => (k, f v)) items)%list.
Proof.
  unfold dict_wf.
  induction items as [| [k v] r IH]; intros acc Hnd Hfresh; simpl.
  - now rewrite app_nil_r.
  - simpl in Hnd. inversion Hnd as [| ? ? Hk Hr]; subst.
    rewrite dict_set_fresh by (apply Hfresh; now left).
    rewrite IH; [now rewrite <- app_assoc | assumption |].
    intros k' Hk'. unfold dict_keys. rewrite map_app, in_app_iff. simpl.
    intros [H | [H | []]].
    + apply (Hfresh k'); [now right | assumption].
    + subst k'. contradiction.
Qed.

Lemma dict_get_map {V W : Type} (f : V -> W) (k : string) (d : dict V) :
  dict_get k (map (fun '(k, v) => (k, f v)) d) = option_map f (dict_get k d).
Proof.
  induction d as [| [k0 v0] r IH]; simpl; [reflexivity |].
  destruct (String.eqb k k0); [reflexivity | assumption].
Qed.

Lemma dict_keys_map {V W : Type} (f : V -> W) (d : dict V) :
  dict_keys (map (fun '(k, v) => (k, f v)) d) = dict_keys d.
Proof.
  unfold dict_keys. rewrite map_map. apply map_ext. now intros [k v].
Qed.

Lemma separate_eq (diff : dict float) :
  forall sessions easy hard,
    SchedulerUtils.separate diff sessions easy hard
    = ((easy ++ filter (classified_easy diff) sessions)%list,
       (hard ++ filter (classified_hard diff) sessions)%list).
Proof.
  induction sessions as [| s r IH]; intros easy hard; simpl.
  - now rewrite !app_nil_r.
  - destruct s as [d | t hours |]; simpl; try apply IH.
    destruct (SchedulerUtils.is_hard diff d); simpl; rewrite IH;
      now rewrite <- app_assoc.
Qed.

Lemma drain_loop_eq :
  forall easy day, SchedulerUtils.drain_loop easy day = (day ++ easy)%list.
Proof.
  induction easy as [| e es IH]; intros day; simpl.
  - now rewrite app_nil_r.
  - rewrite IH, <- app_assoc. reflexivity.
Qed.

(** The interleaving loop computes the round-robin merge. *)
Lemma interleave_loop_eq :
  forall hard easy day,
    SchedulerUtils.interleave_loop hard easy day
    = (day ++ round_robin hard easy)%list.
Proof.
  induction hard as [| h hs IH]; intros easy day; simpl.
  - apply drain_loop_eq.
  - destruct easy as [| e es]; rewrite IH.
    + rewrite <- app_assoc. simpl. now destruct hs.
    + now rewrite <- !app_assoc.
Qed.

Lemma balance_day_round_robin (diff : dict float) (sessions : list session) :
  SchedulerUtils.balance_day diff sessions
  = round_robin (filter (classified_hard diff) sessions)
      (filter (classified_easy diff) sessions).
Proof.
  unfold SchedulerUtils.balance_day.
  rewrite separate_eq. simpl. apply interleave_loop_eq.
Qed.

(** On a day of dictionary sessions the two classes are those of the
    specification, and the result is a rearrangement of the day. *)
Lemma balance_day_of_dicts (diff : dict float) (sessions : list session) :
  forallb is_dict sessions = true ->
  SchedulerUtils.balance_day diff sessions = balance_day_spec diff sessions.
Proof.
  intros Hd. rewrite balance_day_round_robin. unfold balance_day_spec.
  f_equal; apply filter_ext_in; intros s Hs;
    (rewrite forallb_forall in Hd; specialize (Hd s Hs);
     destruct s; [reflexivity | discriminate | discriminate]).
Qed.

Lemma round_robin_perm :
  forall hard easy, Permutation (round_robin hard easy) (hard ++ easy).
Proof.
  induction hard as [| h hs IH]; intros easy; simpl; [reflexivity |].
  destruct easy as [| e es].
  - now rewrite app_nil_r.
  - constructor. etransitivity; [| apply Permutation_middle].
    constructor. apply IH.
Qed.

Lemma filter_split_perm (p : session -> bool) :
  forall l, Permutation (filter p l ++ filter (fun s => negb (p s)) l) l.
Proof.
  induction l as [| s r IH]; simpl; [reflexivity |].
  destruct (p s); simpl.
  - now constructor.
  - etransitivity; [symmetry; apply Permutation_middle |]. now constructor.
Qed.

Lemma balance_day_perm (diff : dict float) (sessions : list session) :
  forallb is_dict sessions = true ->
  Permutation (SchedulerUtils.balance_day diff sessions) sessions.
Proof.
  intros Hd. rewrite balance_day_of_dicts by assumption.
  unfold balance_day_spec.
  etransitivity; [apply round_robin_perm | apply filter_split_perm].
Qed.

(** C5 (as amended): for every day of a schedule and every difficulty map,
    [balance_cognitive_load] keeps the days and writes for each the
    round-robin merge, starting with hard, of the day's dictionary sessions
    of difficulty above 0.7 and of its other dictionary sessions (a missing
    difficulty counting as 0.5), each class in its original order; the
    sessions that are not dictionaries are left out. *)
Theorem balance_cognitive_load_spec (sch : schedule) (diff : dict float) :
  dict_wf sch ->
  dict_keys (SchedulerUtils.balance_cognitive_load sch diff) = dict_keys sch
  /\ forall day sessions,
       dict_get day sch = Some sessions ->
       dict_get day (SchedulerUtils.balance_cognitive_load sch diff)
       = Some (round_robin (filter (classified_hard diff) sessions)
                 (filter (classified_easy diff) sessions))
         /\ (forallb is_dict sessions = true ->
             round_robin (filter (classified_hard diff) sessions)
               (filter (classified_easy diff) sessions)
             = balance_day_spec diff sessions).
Proof.
  intros Hwf. unfold SchedulerUtils.balance_cognitive_load.
  rewrite (fold_dict_set_map (SchedulerUtils.balance_day diff) sch [] Hwf)
    by (intros k _ []).
  simpl. split; [apply dict_keys_map |].
  intros day sessions Hget. rewrite dict_get_map, Hget. simpl.
  rewrite <- balance_day_round_robin. split; [reflexivity |].
  apply balance_day_of_dicts.
Qed.

Lemma balance_cognitive_load_spec_witness :
  dict_get "Monday"
    (SchedulerUtils.balance_cognitive_load [("Monday", sample_day)]
       sample_difficulty)
  = Some [PlannerAgent.study_session "14:00" "Calculus";
          PlannerAgent.study_session "09:00" "History";
          PlannerAgent.study_session "16:00" "Calculus";
          PlannerAgent.evening_review].
Proof.
  assert (Hwf : dict_wf [("Monday", sample_day)])
    by (repeat constructor; simpl; tauto).
  exact (proj1 (proj2 (balance_cognitive_load_spec [("Monday", sample_day)]
                         sample_difficulty Hwf)
                  "Monday" sample_day eq_refl)).
Defined.

(** C5 as stated fails: the allocator's day [("Calculus", 2)] is a session
    of the day, easy by the specification's sorting, and the balanced day
    is empty. *)
Lemma balance_cognitive_load_drops_tuples :
  SchedulerUtils.optimize_topic_distribution ["Calculus"] 1 2
  = Some (Returns [("Day 1", [("Calculus", 2)])])
  /\ SchedulerUtils.balance_cognitive_load
       [("Day 1", [STuple "Calculus" 2])] []
     = [("Day 1", [])]
  /\ balance_day_spec [] [STuple "Calculus" 2] = [STuple "Calculus" 2].
Proof. repeat split; vm_compute; reflexivity. Qed.

(** ** The topic allocator *)

Lemma dict_keys_append {V : Type} (k : string) (x : V) (d : dict (list V)) :
  dict_keys (dict_append k x d) = dict_keys d.
Proof.
  induction d as [| [k0 l0] r IH]; simpl; [reflexivity |].
  destruct (String.eqb k k0); simpl; [reflexivity | now rewrite IH].
Qed.

Lemma allotments_append (k : string) (x : string * Z)
    (d : dict (list (string * Z))) :
  dict_mem k d = true ->
  forall y, In y (allotments (dict_append k x d))
            <-> In y (allotments d) \/ y = x.
Proof.
  unfold dict_mem, allotments, dict_values.
  induction d as [| [k0 l0] r IH]; simpl; [discriminate |].
  destruct (String.eqb k k0) eqn:E; simpl; intros Hm y.
  - rewrite !in_app_iff. simpl. intuition congruence.
  - rewrite !in_app_iff, IH by assumption. tauto.
Qed.

Lemma allotments_set_empty (k : string) (d : dict (list (string * Z))) :
  dict_mem k d = false ->
  forall y, In y (allotments (dict_set k [] d)) <-> In y (allotments d).
Proof.
  unfold dict_mem, allotments, dict_values.
  induction d as [| [k0 l0] r IH]; simpl; [tauto |].
  destruct (String.eqb k k0) eqn:E; simpl; [discriminate |].
  intros Hm y. rewrite !in_app_iff, IH by assumption. tauto.
Qed.

Lemma dict_mem_set {V : Type} (k : string) (v : V) (d : dict V) :
  dict_mem k (dict_set k v d) = true.
Proof. unfold dict_mem. now rewrite dict_get_set, String.eqb_refl. Qed.

Section Allocator.

Variables (available_days daily_hours : Z).
Hypothesis hours_positive : 0 < daily_hours.

Lemma going_consumed (st : SchedulerUtils.alloc_state) :
  going available_days daily_hours st ->
  0 <= consumed daily_hours st < available_days * daily_hours.
Proof. unfold going, consumed. intros H. nia. Qed.

Lemma filled_consumed (st : SchedulerUtils.alloc_state) :
  filled available_days daily_hours st ->
  consumed daily_hours st = available_days * daily_hours.
Proof. unfold filled, consumed. intros [-> ->]. lia. Qed.

(** One topic: the loop ends, having handed out the hours of the topic or
    filled the last day; it keeps what was allotted, allots to the topic at
    least one hour, and writes on available days only. *)
Lemma alloc_topic_spec (t : string) :
  forall (fuel : nat) (th : Z) (st : SchedulerUtils.alloc_state),
    0 <= th -> (Z.to_nat th <= fuel)%nat ->
    going available_days daily_hours st ->
    exists st',
      SchedulerUtils.alloc_topic fuel available_days daily_hours t th st
      = Some st'
      /\ (going available_days daily_hours st'
          /\ consumed daily_hours st' = consumed daily_hours st + th
          \/ filled available_days daily_hours st'
             /\ available_days * daily_hours <= consumed daily_hours st + th)
      /\ (forall y, In y (allotments (SchedulerUtils.sched st)) ->
                    In y (allotments (SchedulerUtils.sched st')))
      /\ (0 < th ->
          exists h, 1 <= h /\ In (t, h) (allotments (SchedulerUtils.sched st')))
      /\ (forall y, In y (allotments (SchedulerUtils.sched st')) ->
                    In y (allotments (SchedulerUtils.sched st)) \/ fst y = t)
      /\ (forall k, In k (dict_keys (SchedulerUtils.sched st')) ->
                    In k (dict_keys (SchedulerUtils.sched st))
                    \/ exists d, 0 <= d < available_days
                                 /\ k = SchedulerUtils.day_key d).
Proof.
  induction fuel as [| fuel IH]; intros th st Hth Hfuel Hgo.
  - assert (th = 0) by lia. subst th. exists st. simpl.
    repeat split; auto; try lia. left. split; [assumption | lia].
  - cbn [SchedulerUtils.alloc_topic].
    destruct (th <=? 0) eqn:E0.
    { apply Z.leb_le in E0. assert (th = 0) by lia. subst th. exists st.
      repeat split; auto; try lia. left. split; [assumption | lia]. }
    apply Z.leb_gt in E0.
    destruct st as [sch cd hrt]. unfold going in Hgo. simpl in Hgo.
    cbn [SchedulerUtils.sched SchedulerUtils.current_day
         SchedulerUtils.hours_remaining_today].
    set (key := SchedulerUtils.day_key cd).
    set (sched1 := if dict_mem key sch then sch else dict_set key [] sch).
    assert (Hmem1 : dict_mem key sched1 = true).
    { subst sched1. destruct (dict_mem key sch) eqn:Em;
        [assumption | apply dict_mem_set]. }
    assert (Hall1 : forall y, In y (allotments sched1) <-> In y (allotments sch)).
    { subst sched1. destruct (dict_mem key sch) eqn:Em; [tauto |].
      now apply allotments_set_empty. }
    assert (Hkeys1 : forall k, In k (dict_keys sched1) ->
                               In k (dict_keys sch) \/ k = key).
    { subst sched1. intros k. destruct (dict_mem key sch) eqn:Em; [tauto |].
      rewrite dict_keys_set, Em, in_app_iff. simpl. intuition. }
    set (h := Z.min th hrt).
    assert (Hh : 1 <= h) by (subst h; lia).
    replace (0 <? h) with true by (symmetry; apply Z.ltb_lt; lia).
    set (sched2 := dict_append key (t, h) sched1).
    assert (Hall2 : forall y, In y (allotments sched2)
                              <-> In y (allotments sch) \/ y = (t, h)).
    { intros y. subst sched2. rewrite allotments_append by assumption.
      now rewrite Hall1. }
    assert (Hkeys2 : forall k, In k (dict_keys sched2) ->
                               In k (dict_keys sch) \/ k = key).
    { intros k. subst sched2. rewrite dict_keys_append. apply Hkeys1. }
    assert (Hfinish :
      forall st2,
        SchedulerUtils.sched st2 = sched2 ->
        going available_days daily_hours st2 ->
        consumed daily_hours st2 = cd * daily_hours + (daily_hours - hrt) + h ->
        exists st',
          SchedulerUtils.alloc_topic fuel available_days daily_hours t
            (th - h) st2 = Some st'
          /\ (going available_days daily_hours st'
              /\ consumed daily_hours st'
                 = consumed daily_hours (SchedulerUtils.mk_alloc sch cd hrt) + th
              \/ filled available_days daily_hours st'
                 /\ available_days * daily_hours
                    <= consumed daily_hours (SchedulerUtils.mk_alloc sch cd hrt)
                       + th)
          /\ (forall y, In y (allotments sch) ->
                        In y (allotments (SchedulerUtils.sched st')))
          /\ (0 < th ->
              exists h', 1 <= h'
                         /\ In (t, h') (allotments (SchedulerUtils.sched st')))
          /\ (forall y, In y (allotments (SchedulerUtils.sched st')) ->
                        In y (allotments sch) \/ fst y = t)
          /\ (forall k, In k (dict_keys (SchedulerUtils.sched st')) ->
                        In k (dict_keys sch)
                        \/ exists d, 0 <= d < available_days
                                     /\ k = SchedulerUtils.day_key d)).
    { intros st2 Hs2 Hgo2 Hc2.
      destruct (IH (th - h) st2) as (st' & Hrun & Hprog & Hkeep & _ & Hnew & Hk);
        [subst h; lia | subst h; lia | assumption |].
      exists st'. rewrite Hs2 in Hkeep, Hnew, Hk.
      split; [assumption |].
      split.
      { unfold consumed at 2 3. simpl. destruct Hprog as [[Hg Hc] | [Hf Hc]];
          [left | right]; (split; [assumption | lia]). }
      split; [intros y Hy; apply Hkeep, Hall2; now left |].
      split; [intros _; exists h; split;
              [assumption | apply Hkeep, Hall2; now right] |].
      split.
      - intros y Hy. destruct (Hnew y Hy) as [Hy2 | Hy2]; [| now right].
        apply Hall2 in Hy2. destruct Hy2 as [? | ->]; [now left | now right].
      - intros k Hk'. destruct (Hk k Hk') as [Hk2 | Hk2]; [| now right].
        destruct (Hkeys2 k Hk2) as [? | ->]; [now left |].
        right. exists cd. split; [lia | reflexivity]. }
    destruct (hrt - h <=? 0) eqn:Erem;
      [apply Z.leb_le in Erem | apply Z.leb_gt in Erem].
    + destruct (cd + 1 >=? available_days) eqn:Eday.
      * assert (cd + 1 = available_days) by lia.
        eexists. split; [reflexivity |]. simpl.
        split.
        { right. unfold filled, consumed. simpl. split; [lia |]. subst h. nia. }
        split; [intros y Hy; apply Hall2; now left |].
        split; [intros _; exists h; split; [assumption | apply Hall2; now right] |].
        split.
        { intros y Hy. apply Hall2 in Hy.
          destruct Hy as [? | ->]; [now left | now right]. }
        { intros k Hk. destruct (Hkeys2 k Hk) as [? | ->]; [now left |].
          right. exists cd. split; [lia | reflexivity]. }
      * apply Hfinish; [reflexivity | unfold going; simpl; lia |].
        unfold consumed. simpl. subst h. lia.
    + apply Hfinish; [reflexivity | unfold going; simpl; subst h; lia |].
      unfold consumed. simpl. lia.
Qed.

(** The topics in order: the topic of index [i] is allotted at least one
    hour when [i * hours_per_topic] hours are fewer than the hours of the
    available days, and only such topics are allotted anything. *)
Lemma alloc_topics_spec (hpt : Z) :
  1 <= hpt ->
  forall (topics : list string) (st : SchedulerUtils.alloc_state),
    going available_days daily_hours st ->
    exists st',
      SchedulerUtils.alloc_topics available_days daily_hours hpt topics st
      = Some st'
      /\ (forall y, In y (allotments (SchedulerUtils.sched st)) ->
                    In y (allotments (SchedulerUtils.sched st')))
      /\ (forall i t,
            nth_error topics i = Some t ->
            consumed daily_hours st + Z.of_nat i * hpt
            < available_days * daily_hours ->
            exists h, 1 <= h
                      /\ In (t, h) (allotments (SchedulerUtils.sched st')))
      /\ (forall y, In y (allotments (SchedulerUtils.sched st')) ->
            In y (allotments (SchedulerUtils.sched st))
            \/ exists i, nth_error topics i = Some (fst y)
                         /\ consumed daily_hours st + Z.of_nat i * hpt
                            < available_days * daily_hours)
      /\ (forall k, In k (dict_keys (SchedulerUtils.sched st')) ->
                    In k (dict_keys (SchedulerUtils.sched st))
                    \/ exists d, 0 <= d < available_days
                                 /\ k = SchedulerUtils.day_key d).
Proof.
  intros Hhpt.
  induction topics as [| t rest IH]; intros st Hgo.
  - exists st. simpl. repeat split; auto.
    intros i t Hi. destruct i; discriminate.
  - cbn [SchedulerUtils.alloc_topics].
    destruct (alloc_topic_spec t
                (SchedulerUtils.alloc_fuel available_days hpt
                   (SchedulerUtils.current_day st)) hpt st)
      as (st1 & -> & Hprog & Hkeep & Hhere & Hnew & Hkeys);
      [lia | unfold SchedulerUtils.alloc_fuel; lia | assumption |].
    pose proof (going_consumed st Hgo) as Hc.
    destruct Hprog as [[Hgo1 Hc1] | [Hfull Hc1]].
    + replace (SchedulerUtils.current_day st1 >=? available_days) with false
        by (symmetry; rewrite Z.geb_leb; apply Z.leb_gt; unfold going in Hgo1; lia).
      destruct (IH st1 Hgo1) as (st' & -> & Hkeep' & Hthere' & Hnew' & Hkeys').
      exists st'. split; [reflexivity |].
      split; [auto |].
      split.
      { intros i t' Hi Hlt. destruct i as [| i]; simpl in Hi.
        - injection Hi as <-. destruct Hhere as (h & Hh & Hin); [lia |].
          exists h. auto.
        - apply (Hthere' i t' Hi). rewrite Hc1.
          rewrite Nat2Z.inj_succ in Hlt. lia. }
      split.
      { intros y Hy. destruct (Hnew' y Hy) as [Hy1 | (i & Hi & Hlt)].
        - destruct (Hnew y Hy1) as [? | Heq]; [now left |].
          right. exists 0%nat. cbn [nth_error]. split; [now rewrite Heq | lia].
        - right. exists (S i). cbn [nth_error]. split; [assumption |].
          rewrite Hc1 in Hlt. rewrite Nat2Z.inj_succ. lia. }
      { intros k Hk. destruct (Hkeys' k Hk) as [Hk1 | ?]; [| now right].
        apply Hkeys. exact Hk1. }
    + replace (SchedulerUtils.current_day st1 >=? available_days) with true
        by (symmetry; rewrite Z.geb_leb; apply Z.leb_le; unfold filled in Hfull; lia).
      exists st1. split; [reflexivity |].
      split; [auto |].
      split.
      { intros i t' Hi Hlt. destruct i as [| i]; simpl in Hi.
        - injection Hi as <-. destruct Hhere as (h & Hh & Hin); [lia |].
          exists h. auto.
        - exfalso. rewrite Nat2Z.inj_succ in Hlt. nia. }
      split.
      { intros y Hy. destruct (Hnew y Hy) as [? | Heq]; [now left |].
        right. exists 0%nat. cbn [nth_error].
        split; [now rewrite Heq | lia]. }
      { exact Hkeys. }
Qed.

End Allocator.

(** C1 (as amended): for a non-empty topic list, [available_days >= 1] and
    [daily_hours > 0] the allocator returns a schedule and raises nothing;
    it writes on the available days only, so the schedule is never
    extended; the topic of index [i] is given a slot of at least one hour
    exactly when [i * hours_per_topic] is less than
    [available_days * daily_hours]; this is every topic when the topics are
    at most [available_days * daily_hours], and the first
    [available_days * daily_hours] topics otherwise. *)
Theorem optimize_topic_distribution_spec (topics : list string)
    (available_days daily_hours : Z) :
  topics <> [] -> 1 <= available_days -> 0 < daily_hours ->
  let total_hours := available_days * daily_hours in
  let hours_per_topic :=
    Z.max 1 (total_hours / Z.of_nat (List.length topics)) in
  exists sch,
    SchedulerUtils.optimize_topic_distribution topics available_days
      daily_hours = Some (Returns sch)
    /\ (forall k, In k (dict_keys sch) ->
          exists d, 0 <= d < available_days /\ k = SchedulerUtils.day_key d)
    /\ (forall i t,
          nth_error topics i = Some t ->
          Z.of_nat i * hours_per_topic < total_hours ->
          exists h, 1 <= h /\ In (t, h) (allotments sch))
    /\ (forall t h,
          In (t, h) (allotments sch) ->
          exists i, nth_error topics i = Some t
                    /\ Z.of_nat i * hours_per_topic < total_hours)
    /\ (Z.of_nat (List.length topics) <= total_hours ->
        forall t, In t topics -> exists h, 1 <= h /\ In (t, h) (allotments sch))
    /\ (total_hours < Z.of_nat (List.length topics) ->
        hours_per_topic = 1).
Proof.
  intros Hne Hd Hh total_hours hpt.
  assert (Hhpt : 1 <= hpt) by (subst hpt; lia).
  assert (Hrun : SchedulerUtils.optimize_topic_distribution topics
                   available_days daily_hours
                 = match SchedulerUtils.alloc_topics available_days daily_hours
                           hpt topics
                           (SchedulerUtils.mk_alloc [] 0 daily_hours) with
                   | None => None
                   | Some st => Some (Returns (SchedulerUtils.sched st))
                   end)
    by (destruct topics; [congruence | reflexivity]).
  assert (Hlen : 0 < Z.of_nat (List.length topics))
    by (destruct topics; [congruence | simpl; lia]).
  rewrite Hrun. clear Hrun.
  destruct (alloc_topics_spec available_days daily_hours Hh hpt Hhpt topics
              (SchedulerUtils.mk_alloc [] 0 daily_hours))
    as (st & -> & _ & Hthere & Hnew & Hkeys);
    [unfold going; simpl; lia |].
  unfold consumed in Hthere, Hnew. simpl in Hthere, Hnew, Hkeys.
  replace (0 * daily_hours + (daily_hours - daily_hours)) with 0
    in Hthere, Hnew by lia.
  exists (SchedulerUtils.sched st). split; [reflexivity |].
  split; [intros k Hk; destruct (Hkeys k Hk) as [[] | ?]; assumption |].
  split; [intros i t Hi Hlt; apply (Hthere i t Hi); fold total_hours; lia |].
  split.
  { intros t h Hin. destruct (Hnew _ Hin) as [[] | (i & Hi & Hlt)].
    exists i. simpl in Hi. split; [assumption | fold total_hours in Hlt; lia]. }
  split.
  - intros Hfit t Hin. apply In_nth_error in Hin. destruct Hin as [i Hi].
    apply (Hthere i t Hi). fold total_hours.
    assert (Hi' : (i < List.length topics)%nat)
      by (apply nth_error_Some; congruence).
    assert (Hq : hpt = total_hours / Z.of_nat (List.length topics)).
    { subst hpt. apply Z.max_r.
      apply Z.div_le_lower_bound; lia. }
    assert (Hmul : Z.of_nat (List.length topics) * hpt <= total_hours)
      by (rewrite Hq; apply Z.mul_div_le; lia).
    nia.
  - intros Hover. subst hpt. apply Z.max_l.
    assert (total_hours / Z.of_nat (List.length topics) = 0)
      by (apply Z.div_small; subst total_hours; nia).
    lia.
Qed.

Lemma optimize_topic_distribution_spec_witness :
  exists sch,
    SchedulerUtils.optimize_topic_distribution
      ["Calculus"; "Physics"; "History"] 2 3 = Some (Returns sch)
    /\ forall t, In t ["Calculus"; "Physics"; "History"] ->
                 exists h, 1 <= h /\ In (t, h) (allotments sch).
Proof.
  destruct (optimize_topic_distribution_spec
              ["Calculus"; "Physics"; "History"] 2 3)
    as (sch & Hrun & _ & _ & _ & Hall & _);
    [discriminate | lia | lia |].
  exists sch. split; [exact Hrun |].
  apply Hall. vm_compute. discriminate.
Defined.

(** C1 as stated fails: with three topics, one available day and one hour
    a day, the allocator fills the day with the first topic and stops; the
    other two topics get no slot and no second day is written. *)
Lemma optimize_topic_distribution_drops_topics :
  SchedulerUtils.optimize_topic_distribution
    ["Calculus"; "Physics"; "History"] 1 1
  = Some (Returns [("Day 1", [("Calculus", 1)])]).
Proof. reflexivity. Qed.

(** The fuel of the inner loop is enough for all integers. *)
Lemma alloc_topic_fuel (available_days daily_hours : Z) (t : string) :
  forall (fuel : nat) (th : Z) (st : SchedulerUtils.alloc_state),
    (Z.to_nat th
     + Z.to_nat (available_days - SchedulerUtils.current_day st) <= fuel)%nat ->
    exists st',
      SchedulerUtils.alloc_topic fuel available_days daily_hours t th st
      = Some st'.
Proof.
  induction fuel as [| fuel IH]; intros th st Hfuel;
    cbn [SchedulerUtils.alloc_topic];
    destruct (th <=? 0) eqn:E0; try (now eexists);
    apply Z.leb_gt in E0; [lia |].
  destruct st as [sch cd hrt].
  cbn [SchedulerUtils.sched SchedulerUtils.current_day
       SchedulerUtils.hours_remaining_today] in *.
  destruct (0 <? Z.min th hrt) eqn:Eh;
    [apply Z.ltb_lt in Eh | apply Z.ltb_ge in Eh].
  - destruct (hrt - Z.min th hrt <=? 0) eqn:Er.
    + destruct (cd + 1 >=? available_days) eqn:Ed; [now eexists |].
      apply IH. simpl. lia.
    + apply IH. simpl. lia.
  - replace (hrt <=? 0) with true by (symmetry; apply Z.leb_le; lia).
    destruct (cd + 1 >=? available_days) eqn:Ed; [now eexists |].
    apply IH. simpl. lia.
Qed.

(** The allocator answers on every input: it raises [ZeroDivisionError]
    on an empty topic list and returns a schedule otherwise. *)
Lemma optimize_topic_distribution_total (topics : list string)
    (available_days daily_hours : Z) :
  exists r,
    SchedulerUtils.optimize_topic_distribution topics available_days
      daily_hours = Some r.
Proof.
  unfold SchedulerUtils.optimize_topic_distribution.
  destruct topics as [| t0 rest]; [now eexists |].
  generalize (Z.max 1 (available_days * daily_hours
                       / Z.of_nat (List.length (t0 :: rest)))) as hpt.
  generalize (SchedulerUtils.mk_alloc [] 0 daily_hours) as st.
  generalize (t0 :: rest) as topics.
  intros topics st hpt.
  assert (H : exists st',
             SchedulerUtils.alloc_topics available_days daily_hours hpt
               topics st = Some st').
  { revert st. induction topics as [| t r IH]; intros st; simpl;
      [now eexists |].
    destruct (alloc_topic_fuel available_days daily_hours t
                (SchedulerUtils.alloc_fuel available_days hpt
                   (SchedulerUtils.current_day st)) hpt st) as [st1 ->];
      [unfold SchedulerUtils.alloc_fuel; lia |].
    destruct (SchedulerUtils.current_day st1 >=? available_days);
      [now eexists | apply IH]. }
  destruct H as [st' ->]. now eexists.
Qed.

(** ** Spaced repetition *)

Lemma insert_sorted_perm (k : string) (l : list string) :
  Permutation (SchedulerUtils.insert_sorted k l) (k :: l).
Proof.
  induction l as [| x r IH]; simpl; [reflexivity |].
  destruct (String.leb k x); [reflexivity |].
  etransitivity; [apply perm_skip, IH | apply perm_swap].
Qed.

Lemma sorted_perm (l : list string) : Permutation (SchedulerUtils.sorted l) l.
Proof.
  induction l as [| x r IH]; simpl; [reflexivity |].
  etransitivity; [apply insert_sorted_perm | now apply perm_skip].
Qed.

Lemma day_order_NoDup (sch : schedule) : dict_wf sch -> NoDup (day_order sch).
Proof.
  intros H. unfold day_order.
  eapply Permutation_NoDup; [symmetry; apply sorted_perm | exact H].
Qed.

Lemma day_order_In (sch : schedule) (d : string) :
  In d (day_order sch) <-> In d (dict_keys sch).
Proof.
  unfold day_order. split; apply Permutation_in;
    [apply sorted_perm | symmetry; apply sorted_perm].
Qed.

Lemma topic_key_eqb_eq (a b : SchedulerUtils.topic_key) :
  SchedulerUtils.topic_key_eqb a b = true <-> a = b.
Proof.
  destruct a as [x |], b as [y |]; simpl;
    try (split; [discriminate | discriminate]); try tauto.
  rewrite String.eqb_eq. split; congruence.
Qed.

Lemma tfa_mem_iff (t : SchedulerUtils.topic_key)
    (tfa : SchedulerUtils.first_appearance) :
  SchedulerUtils.tfa_mem t tfa = true <-> exists d, In (t, d) tfa.
Proof.
  induction tfa as [| [t' d'] r IH]; simpl.
  - split; [discriminate | intros [d H]; destruct H].
  - rewrite orb_true_iff, topic_key_eqb_eq, IH. split.
    + intros [-> | [d H]]; [exists d'; now left | exists d; now right].
    + intros [d [H | H]]; [left; congruence | right; now exists d].
Qed.

Lemma record_sessions_eq (day : string) :
  forall sessions tfa,
    SchedulerUtils.record_sessions day sessions tfa
    = record_topics day (topics_of_day sessions) tfa.
Proof.
  induction sessions as [| s r IH]; intros tfa; simpl; [reflexivity |].
  destruct (SchedulerUtils.session_topic s) as [t |]; simpl; [| apply IH].
  destruct (SchedulerUtils.tfa_mem t tfa); apply IH.
Qed.

Lemma record_topics_keeps (day : string) :
  forall ts tfa e, In e tfa -> In e (record_topics day ts tfa).
Proof.
  induction ts as [| t r IH]; intros tfa e He; simpl; [assumption |].
  destruct (SchedulerUtils.tfa_mem t tfa); apply IH; [assumption |].
  apply in_or_app. now left.
Qed.

Lemma record_topics_new (day : string) :
  forall ts tfa t d,
    In (t, d) (record_topics day ts tfa) ->
    In (t, d) tfa
    \/ d = day /\ In t ts /\ SchedulerUtils.tfa_mem t tfa = false.
Proof.
  induction ts as [| t0 r IH]; intros tfa t d H; simpl in H; [now left |].
  destruct (SchedulerUtils.tfa_mem t0 tfa) eqn:E.
  - destruct (IH _ _ _ H) as [? | (? & ? & ?)]; [now left |].
    right. simpl. auto.
  - destruct (IH _ _ _ H) as [Hin | (Hd & Hr & Hm)].
    + apply in_app_or in Hin. destruct Hin as [? | [[= <- <-] | []]];
        [now left |].
      right. simpl. auto.
    + right. simpl. repeat split; auto.
      destruct (SchedulerUtils.tfa_mem t tfa) eqn:E'; [| reflexivity].
      apply tfa_mem_iff in E'. destruct E' as [d' Hd'].
      assert (Ht : SchedulerUtils.tfa_mem t (tfa ++ [(t0, day)])%list = true)
        by (apply tfa_mem_iff; exists d'; apply in_or_app; now left).
      congruence.
Qed.

Lemma record_topics_records (day : string) :
  forall ts tfa t,
    In t ts -> SchedulerUtils.tfa_mem t (record_topics day ts tfa) = true.
Proof.
  induction ts as [| t0 r IH]; intros tfa t Ht; [destruct Ht |].
  destruct Ht as [-> | Hin]; simpl.
  - destruct (SchedulerUtils.tfa_mem t tfa) eqn:E.
    + apply tfa_mem_iff in E. destruct E as [d Hd].
      apply tfa_mem_iff. exists d. now apply record_topics_keeps.
    + apply tfa_mem_iff. exists day. apply record_topics_keeps.
      apply in_or_app. right. now left.
  - destruct (SchedulerUtils.tfa_mem t0 tfa); now apply IH.
Qed.

Section SpacedRepetition.

Variable sch : schedule.

Lemma record_days_spec :
  forall (rest walked : list string) (tfa : SchedulerUtils.first_appearance),
    (forall d, In d rest -> In d (dict_keys sch)) ->
    recorded sch walked tfa ->
    exists tfa',
      SchedulerUtils.record_days sch rest tfa = Returns tfa'
      /\ recorded sch (walked ++ rest) tfa'.
Proof.
  induction rest as [| d r IH]; intros walked tfa Hkeys Hrec; simpl.
  - exists tfa. now rewrite app_nil_r.
  - destruct (dict_get d sch) as [sessions |] eqn:Eg.
    2:{ apply dict_get_None_keys in Eg. exfalso. apply Eg, Hkeys. now left. }
    rewrite record_sessions_eq.
    replace (walked ++ d :: r)%list with ((walked ++ [d]) ++ r)%list
      by (rewrite <- app_assoc; reflexivity).
    apply IH; [intros d' Hd'; apply Hkeys; now right |].
    destruct Hrec as [Hfirst Hall]. split.
    + intros t d0 Hin.
      destruct (record_topics_new _ _ _ _ _ Hin) as [Hold | (-> & Hts & Hm)].
      * destruct (Hfirst _ _ Hold) as (i & Hi & Hhas & Hbefore).
        exists i. split; [| split; [assumption |]].
        -- rewrite nth_error_app1; [assumption |].
           apply nth_error_Some. congruence.
        -- intros j d' Hj Hjd. apply (Hbefore j d' Hj).
           rewrite nth_error_app1 in Hjd; [assumption |].
           assert (i < List.length walked)%nat
             by (apply nth_error_Some; congruence).
           lia.
      * exists (List.length walked). split; [| split].
        -- rewrite nth_error_app2 by lia. now rewrite Nat.sub_diag.
        -- now exists sessions.
        -- intros j d' Hj Hjd Hhas.
           rewrite nth_error_app1 in Hjd by assumption.
           apply nth_error_In in Hjd.
           rewrite (Hall t d' Hjd Hhas) in Hm. discriminate.
    + intros t d' Hd' Hhas. apply in_app_or in Hd'.
      destruct Hd' as [Hw | [<- | []]].
      * pose proof (Hall t d' Hw Hhas) as Hm. apply tfa_mem_iff in Hm.
        destruct Hm as [d0 Hd0]. apply tfa_mem_iff. exists d0.
        now apply record_topics_keeps.
      * destruct Hhas as (sessions' & Hg & Hin).
        rewrite Eg in Hg. injection Hg as <-.
        now apply record_topics_records.
Qed.

End SpacedRepetition.

Lemma list_index_position (x : string) (l : list string) :
  In x l -> SchedulerUtils.list_index x l = Returns (position x l).
Proof.
  induction l as [| y r IH]; simpl; [tauto |].
  destruct (String.eqb x y) eqn:E; [reflexivity |].
  apply String.eqb_neq in E.
  intros [H | H]; [congruence |]. now rewrite IH.
Qed.

Lemma position_nth_error (x : string) :
  forall (l : list string) (i : nat),
    NoDup l -> nth_error l i = Some x -> position x l = i.
Proof.
  induction l as [| y r IH]; intros i Hnd Hi; [destruct i; discriminate |].
  inversion Hnd as [| ? ? Hy Hr]; subst. simpl.
  destruct i as [| i]; simpl in Hi.
  - injection Hi as ->. now rewrite String.eqb_refl.
  - destruct (String.eqb x y) eqn:E.
    + apply String.eqb_eq in E. subst y. apply nth_error_In in Hi.
      contradiction.
    + f_equal. now apply IH.
Qed.

Lemma dict_get_append {V : Type} (k k' : string) (x : V) (d : dict (list V)) :
  dict_get k' (dict_append k x d)
  = if String.eqb k' k
    then option_map (fun l => (l ++ [x])%list) (dict_get k d)
    else dict_get k' d.
Proof.
  induction d as [| [k0 l0] r IH]; simpl.
  - now destruct (String.eqb k' k).
  - destruct (String.eqb k k0) eqn:E; simpl.
    + apply String.eqb_eq in E. subst k0.
      destruct (String.eqb k' k); reflexivity.
    + rewrite IH. destruct (String.eqb k' k0) eqn:E0; [| reflexivity].
      apply String.eqb_eq in E0. subst k0.
      destruct (String.eqb k' k) eqn:E1; [| reflexivity].
      apply String.eqb_eq in E1. subst k'. rewrite String.eqb_refl in E.
      discriminate.
Qed.

Lemma dict_mem_keys {V : Type} (k : string) (d : dict V) :
  dict_mem k d = true <-> In k (dict_keys d).
Proof.
  unfold dict_mem. pose proof (dict_get_None_keys k d) as H.
  destruct (dict_get k d); split; intros Hk; try reflexivity;
    try discriminate.
  - destruct (in_dec string_dec k (dict_keys d)) as [? | Hn]; [assumption |].
    apply H in Hn. discriminate.
  - exfalso. now apply H.
Qed.

(** The reviews of one topic: each day gets the reviews that fall on it,
    appended to what it had. *)
Lemma add_reviews_get (days : list string) (t : SchedulerUtils.topic_key)
    (i : nat) :
  forall (intervals : list nat) (enhanced : schedule),
    (forall d, In d days -> In d (dict_keys enhanced)) ->
    dict_keys (SchedulerUtils.add_reviews days t i intervals enhanced)
    = dict_keys enhanced
    /\ forall d,
         dict_get d (SchedulerUtils.add_reviews days t i intervals enhanced)
         = option_map (fun l => (l ++ placed days t i intervals d)%list)
             (dict_get d enhanced).
Proof.
  induction intervals as [| k r IH]; intros enhanced Hkeys; simpl.
  - split; [reflexivity |]. intros d.
    destruct (dict_get d enhanced); simpl; [now rewrite app_nil_r | reflexivity].
  - set (enhanced1 :=
           if (i + k <? List.length days)%nat
           then match nth_error days (i + k) with
                | Some review_day =>
                    if dict_mem review_day enhanced
                    then dict_append review_day
                           (SchedulerUtils.review_session t) enhanced
                    else enhanced
                | None => enhanced
                end
           else enhanced).
    assert (H1 : dict_keys enhanced1 = dict_keys enhanced
                 /\ forall d,
                      dict_get d enhanced1
                      = option_map
                          (fun l =>
                             (l ++ match nth_error days (i + k) with
                                   | Some d' =>
                                       if String.eqb d' d
                                       then [SchedulerUtils.review_session t]
                                       else []
                                   | None => []
                                   end)%list)
                          (dict_get d enhanced)).
    { subst enhanced1.
      destruct (i + k <? List.length days)%nat eqn:El.
      - apply Nat.ltb_lt in El.
        destruct (nth_error days (i + k)) as [rd |] eqn:En;
          [| apply nth_error_None in En; lia].
        assert (Hm : dict_mem rd enhanced = true)
          by (apply dict_mem_keys, Hkeys; eapply nth_error_In; eassumption).
        rewrite Hm. split; [apply dict_keys_append |].
        intros d. rewrite dict_get_append, (String.eqb_sym rd d).
        destruct (String.eqb d rd) eqn:E.
        + apply String.eqb_eq in E. now subst d.
        + destruct (dict_get d enhanced); simpl;
            [now rewrite app_nil_r | reflexivity].
      - apply Nat.ltb_ge in El.
        replace (nth_error days (i + k)) with (@None string)
          by (symmetry; now apply nth_error_None).
        split; [reflexivity |]. intros d.
        destruct (dict_get d enhanced); simpl;
          [now rewrite app_nil_r | reflexivity]. }
    destruct H1 as [Hk1 Hg1].
    destruct (IH enhanced1) as [Hk2 Hg2];
      [intros d Hd; rewrite Hk1; now apply Hkeys |].
    split; [now rewrite Hk2 |].
    intros d. rewrite Hg2, Hg1.
    destruct (dict_get d enhanced); simpl; [| reflexivity].
    unfold placed. now rewrite <- app_assoc.
Qed.

(** The reviews of all recorded topics *)
Lemma review_topics_get (days : list string) :
  forall (tfa : SchedulerUtils.first_appearance) (enhanced : schedule),
    (forall d, In d days -> In d (dict_keys enhanced)) ->
    (forall t d, In (t, d) tfa -> In d days) ->
    exists out,
      SchedulerUtils.review_topics days tfa enhanced = Returns out
      /\ dict_keys out = dict_keys enhanced
      /\ forall d,
           dict_get d out
           = option_map (fun l => (l ++ reviews_on days tfa d)%list)
               (dict_get d enhanced).
Proof.
  induction tfa as [| [t fd] r IH]; intros enhanced Hkeys Hdays; simpl.
  - exists enhanced. repeat split. intros d.
    destruct (dict_get d enhanced); simpl; [now rewrite app_nil_r | reflexivity].
  - rewrite list_index_position by (apply (Hdays t); now left). simpl.
    destruct (add_reviews_get days t (position fd days)
                SchedulerUtils.review_intervals enhanced Hkeys) as [Hk1 Hg1].
    destruct (IH (SchedulerUtils.add_reviews days t (position fd days)
                    SchedulerUtils.review_intervals enhanced))
      as (out & Hrun & Hk2 & Hg2).
    + intros d Hd. rewrite Hk1. now apply Hkeys.
    + intros t' d' H. apply (Hdays t'). now right.
    + exists out. split; [exact Hrun |]. split; [congruence |].
      intros d. rewrite Hg2, Hg1.
      destruct (dict_get d enhanced); simpl; [| reflexivity].
      now rewrite <- app_assoc.
Qed.

Lemma first_in_unique (sch : schedule) (days : list string)
    (t : SchedulerUtils.topic_key) (i i' : nat) (d d' : string) :
  first_in sch days t i d -> first_in sch days t i' d' -> i = i' /\ d = d'.
Proof.
  intros (Hi & Hhas & Hmin) (Hi' & Hhas' & Hmin').
  assert (i = i').
  { destruct (Nat.lt_trichotomy i i') as [Hlt | [Heq | Hgt]]; [| assumption |].
    - exfalso. exact (Hmin' i d Hlt Hi Hhas).
    - exfalso. exact (Hmin i' d' Hgt Hi' Hhas'). }
  subst i'. split; [reflexivity | congruence].
Qed.

(** On a schedule (a dictionary, each day once), [apply_spaced_repetition]
    returns the schedule with, on each day, the sessions it had followed by
    the reviews added.  The function walks the days in the sorted order of
    their labels.  A review added on the day of index [j] of that order is
    the review of a topic [t] whose first appearance in that order is at an
    index [i] with [j = i + k] for [k] among 1, 3, 7; so [j] is after [i]
    and within the days, and an offset past the last day adds nothing.
    Every such offset within the days does add the review. *)
Lemma apply_spaced_repetition_spec (sch : schedule) :
  dict_wf sch ->
  exists out,
    SchedulerUtils.apply_spaced_repetition sch = Returns out
    /\ dict_keys out = dict_keys sch
    /\ forall j d,
         nth_error (day_order sch) j = Some d ->
         exists orig added,
           dict_get d sch = Some orig
           /\ dict_get d out = Some (orig ++ added)%list
           /\ (forall s, In s added ->
                 exists t i k,
                   s = SchedulerUtils.review_session t
                   /\ first_index sch t i
                   /\ In k [1; 3; 7]%nat
                   /\ j = (i + k)%nat
                   /\ (i < j < List.length (day_order sch))%nat)
           /\ (forall t i k,
                 first_index sch t i -> In k [1; 3; 7]%nat -> j = (i + k)%nat ->
                 In (SchedulerUtils.review_session t) added).
Proof.
  intros Hwf. unfold SchedulerUtils.apply_spaced_repetition.
  fold (day_order sch). set (days := day_order sch).
  pose proof (day_order_NoDup sch Hwf) as Hnd. fold days in Hnd.
  assert (Hin : forall d, In d days -> In d (dict_keys sch))
    by (intros d; apply day_order_In).
  destruct (record_days_spec sch days [] [] Hin) as (tfa & -> & Hfirst & Hall).
  { split; [intros t d [] | intros t d []]. }
  simpl app in Hfirst, Hall. simpl.
  destruct (review_topics_get days tfa sch Hin) as (out & -> & Hkeys & Hget).
  { intros t d Htd. destruct (Hfirst t d Htd) as (i & Hi & _).
    eapply nth_error_In; eassumption. }
  exists out. split; [reflexivity |]. split; [assumption |].
  intros j d Hj.
  assert (Hd : In d (dict_keys sch))
    by (apply Hin; eapply nth_error_In; eassumption).
  destruct (dict_get d sch) as [orig |] eqn:Eg;
    [| apply dict_get_None_keys in Eg; contradiction].
  exists orig, (reviews_on days tfa d).
  split; [reflexivity |].
  split; [rewrite Hget, Eg; reflexivity |].
  split.
  - intros s Hs. apply in_flat_map in Hs.
    destruct Hs as ([t fd] & Htfa & Hs).
    apply in_flat_map in Hs. destruct Hs as (k & Hk & Hs).
    destruct (nth_error days (position fd days + k)) as [d' |] eqn:En;
      [| destruct Hs].
    destruct (String.eqb d' d) eqn:Ed; [| destruct Hs].
    apply String.eqb_eq in Ed. subst d'.
    destruct Hs as [<- | []].
    destruct (Hfirst t fd Htfa) as (i & Hfi).
    assert (Hpos : position fd days = i)
      by (apply position_nth_error; [assumption | apply Hfi]).
    rewrite Hpos in En.
    assert (Hjk : j = (i + k)%nat).
    { rewrite NoDup_nth_error in Hnd. apply Hnd; [| congruence].
      apply nth_error_Some. congruence. }
    exists t, i, k. split; [reflexivity |].
    split; [now exists fd |]. split; [exact Hk |]. split; [exact Hjk |].
    assert (j < List.length days)%nat by (apply nth_error_Some; congruence).
    assert (1 <= k)%nat
      by (destruct Hk as [<- | [<- | [<- | []]]]; lia).
    lia.
  - intros t i k (fd & Hfi) Hk ->.
    assert (Hm : SchedulerUtils.tfa_mem t tfa = true).
    { apply (Hall t fd); [| apply Hfi].
      eapply nth_error_In. apply Hfi. }
    apply tfa_mem_iff in Hm. destruct Hm as [d0 Hd0].
    destruct (Hfirst t d0 Hd0) as (i0 & Hfi0).
    destruct (first_in_unique _ _ _ _ _ _ _ Hfi Hfi0) as [<- <-].
    apply in_flat_map. exists (t, fd). split; [assumption |].
    apply in_flat_map. exists k. split; [exact Hk |].
    rewrite (position_nth_error fd days i Hnd) by apply Hfi.
    rewrite Hj, String.eqb_refl. now left.
Qed.


Example apply_spaced_repetition_ex :
  SchedulerUtils.apply_spaced_repetition sample_schedule
  = Returns
      [("Day 1", [STuple "Calculus" 2; STuple "Physics" 1]);
       ("Day 2", [STuple "Physics" 1;
                  SDict (mk_session None None None None None);
                  SchedulerUtils.review_session (Some "Calculus");
                  SchedulerUtils.review_session (Some "Physics")]);
       ("Day 3", [STuple "Calculus" 1;
                  SchedulerUtils.review_session None]);
       ("Day 4", [SchedulerUtils.review_session (Some "Calculus");
                  SchedulerUtils.review_session (Some "Physics")])].
Proof. reflexivity. Qed.

Example ten_day_schedule_is_the_allocation :
  SchedulerUtils.optimize_topic_distribution ten_topics 10 1
  = Some (Returns
            [("Day 1", [("T1", 1)]); ("Day 2", [("T2", 1)]);
             ("Day 3", [("T3", 1)]); ("Day 4", [("T4", 1)]);
             ("Day 5", [("T5", 1)]); ("Day 6", [("T6", 1)]);
             ("Day 7", [("T7", 1)]); ("Day 8", [("T8", 1)]);
             ("Day 9", [("T9", 1)]); ("Day 10", [("T10", 1)])])
  /\ dict_keys ten_day_schedule
     = ["Day 1"; "Day 2"; "Day 3"; "Day 4"; "Day 5"; "Day 6"; "Day 7";
        "Day 8"; "Day 9"; "Day 10"]
  /\ dict_get "Day 10" ten_day_schedule = Some [STuple "T10" 1].
Proof. repeat split; vm_compute; reflexivity. Qed.

(** C4 fails on a schedule of ten days: the function walks the days in the
    order of their labels as strings, in which Day 10 comes second.  Topic
    T10 appears on Day 10 only, the last day of the schedule, and its
    reviews are added on Day 2, Day 4 and Day 8, all before it; the review
    of T1 that is due one day after Day 1 is added on Day 10. *)
Theorem apply_spaced_repetition_ten_days :
  day_order ten_day_schedule
  = ["Day 1"; "Day 10"; "Day 2"; "Day 3"; "Day 4"; "Day 5"; "Day 6";
     "Day 7"; "Day 8"; "Day 9"]
  /\ exists out,
       SchedulerUtils.apply_spaced_repetition ten_day_schedule = Returns out
       /\ dict_get "Day 2" out
          = Some [STuple "T2" 1;
                  SchedulerUtils.review_session (Some "T10")]
       /\ dict_get "Day 4" out
          = Some [STuple "T4" 1;
                  SchedulerUtils.review_session (Some "T10");
                  SchedulerUtils.review_session (Some "T3")]
       /\ dict_get "Day 8" out
          = Some [STuple "T8" 1;
                  SchedulerUtils.review_session (Some "T10");
                  SchedulerUtils.review_session (Some "T5");
                  SchedulerUtils.review_session (Some "T7")]
       /\ dict_get "Day 10" out
          = Some [STuple "T10" 1;
                  SchedulerUtils.review_session (Some "T1")].
Proof.
  split; [vm_compute; reflexivity |].
  eexists. split; [vm_compute; reflexivity |].
  repeat split; vm_compute; reflexivity.
Qed.

(** When the labels of the days are in sorted order already, the order the
    function walks is the order of the schedule, and the reviews are at the
    offsets 1, 3, 7 of that order. *)
Lemma apply_spaced_repetition_sorted_schedule (sch : schedule) :
  dict_wf sch ->
  SchedulerUtils.sorted (dict_keys sch) = dict_keys sch ->
  exists out,
    SchedulerUtils.apply_spaced_repetition sch = Returns out
    /\ dict_keys out = dict_keys sch
    /\ forall j d,
         nth_error (dict_keys sch) j = Some d ->
         exists orig added,
           dict_get d sch = Some orig
           /\ dict_get d out = Some (orig ++ added)%list
           /\ forall s, In s added ->
                exists t i k,
                  s = SchedulerUtils.review_session t
                  /\ first_in sch (dict_keys sch) t i
                       (nth i (dict_keys sch) "")
                  /\ In k [1; 3; 7]%nat
                  /\ j = (i + k)%nat.
Proof.
  intros Hwf Hsorted.
  destruct (apply_spaced_repetition_spec sch Hwf) as (out & Hrun & Hkeys & Hdays).
  exists out. split; [assumption |]. split; [assumption |].
  unfold first_index, day_order in Hdays. rewrite Hsorted in Hdays.
  intros j d Hj.
  destruct (Hdays j d Hj) as (orig & added & Ho & Hg & Hs & _).
  exists orig, added. split; [assumption |]. split; [assumption |].
  intros s Hin. destruct (Hs s Hin) as (t & i & k & -> & [fd Hfd] & Hk & -> & _).
  exists t, i, k. repeat split; try assumption; try apply Hfd.
  - destruct Hfd as (Hi & _). now rewrite (nth_error_nth _ _ _ Hi).
  - destruct Hfd as (Hi & Hhas & _). now rewrite (nth_error_nth _ _ _ Hi).
Qed.

(** ** [generate_study_plan] *)






(** An empty topic list in the context changes nothing. *)
Example generate_study_plan_with_empty_context_topics :
  PlannerAgent.success
    (PlannerAgent.generate_study_plan (quiet_environment monday) "hello"
       (Some (PlannerAgent.mk_context (Some []) None))) = true.
Proof. vm_compute. reflexivity. Qed.

(** A deadline beyond the last date makes the clock arithmetic overflow;
    the exception is caught and reported in the result. *)
Example generate_study_plan_catches :
  PlannerAgent.generate_study_plan
    (PlannerAgent.mk_environment (fun _ => monday) (fun _ _ => [])
       (fun pattern _ =>
          if String.eqb pattern PlannerAgent.days_pattern
          then Some "9999999" else None)
       unique None None)
    "finish in 9999999 days" None
  = PlannerAgent.mk_result false (PlannerAgent.PlanningError OverflowError)
      None None.
Proof. vm_compute. reflexivity. Qed.





(** The request itself is read from the text with the clock and with the
    order a set is listed in: on the same text, a run that starts a day
    later, or one that lists the topics in another order, returns another
    plan. *)
Example generate_study_plan_reads_the_clock :
  let r1 := PlannerAgent.generate_study_plan (quiet_environment monday)
              "calculus and physics" None in
  let r2 := PlannerAgent.generate_study_plan
              (quiet_environment (mk_datetime 739195 0))
              "calculus and physics" None in
  let r3 := PlannerAgent.generate_study_plan
              (noisy_environment monday monday)
              "calculus and physics" None in
  option_map (fun p => dict_keys p) (PlannerAgent.plan r1)
  = Some ["Monday"; "Tuesday"; "Wednesday"; "Thursday"; "Friday";
          "Saturday"; "Sunday"]
  /\ option_map (fun p => dict_keys p) (PlannerAgent.plan r2)
     = Some ["Tuesday"; "Wednesday"; "Thursday"; "Friday"; "Saturday";
             "Sunday"; "Monday"]
  /\ option_map (fun p => option_map (map topic_of_session) (dict_get "Monday" p))
       (PlannerAgent.plan r1)
     = Some (Some [Some "Calculus"; Some "Rest"; Some "Mixed Review"])
  /\ option_map (fun p => option_map (map topic_of_session) (dict_get "Monday" p))
       (PlannerAgent.plan r3)
     = Some (Some [Some "Physics"; Some "Rest"; Some "Mixed Review"]).
Proof. repeat split; vm_compute; reflexivity. Qed.

(** ** Times of day *)

Lemma digit_of_ascii_range (c : ascii) (d : Z) :
  SchedulerUtils.digit_of_ascii c = Some d -> 0 <= d <= 9.
Proof.
  unfold SchedulerUtils.digit_of_ascii.
  destruct ((48 <=? Z.of_nat (nat_of_ascii c))
            && (Z.of_nat (nat_of_ascii c) <=? 57)) eqn:E; [| discriminate].
  apply andb_true_iff in E. destruct E as [E1 E2].
  apply Z.leb_le in E1, E2. intros [= <-]. lia.
Qed.

Ltac split_matches :=
  repeat match goal with
         | H : context [match ?x with _ => _ end] |- _ =>
             destruct x eqn:?; try discriminate H
         | H : context [if ?x then _ else _] |- _ =>
             destruct x eqn:?; try discriminate H
         end.

Ltac digit_ranges :=
  repeat match goal with
         | E : SchedulerUtils.digit_of_ascii _ = Some _ |- _ =>
             apply digit_of_ascii_range in E
         | E : (_ <=? _) = true |- _ => apply Z.leb_le in E
         end.

Lemma parse_hour_field_range (s rest : string) (h : Z) :
  SchedulerUtils.parse_hour_field s = Some (h, rest) -> 0 <= h <= 23.
Proof.
  unfold SchedulerUtils.parse_hour_field. intros H.
  split_matches;
    match goal with
    | E : Some (?v, _) = _ |- _ <= ?x <= _ => assert (x = v) by congruence
    end;
    digit_ranges; lia.
Qed.

Lemma parse_minute_field_range (s rest : string) (m : Z) :
  SchedulerUtils.parse_minute_field s = Some (m, rest) -> 0 <= m <= 59.
Proof.
  unfold SchedulerUtils.parse_minute_field. intros H.
  split_matches;
    match goal with
    | E : Some (?v, _) = _ |- _ <= ?x <= _ => assert (x = v) by congruence
    end;
    digit_ranges; lia.
Qed.

(** A time that parses is a minute of the day. *)
Lemma strptime_HM_range (s : string) (t : Z) :
  SchedulerUtils.strptime_HM s = Returns t -> 0 <= t < 1440.
Proof.
  unfold SchedulerUtils.strptime_HM.
  destruct (SchedulerUtils.parse_hour_field s) as [[h rest] |] eqn:Eh;
    [| discriminate].
  destruct (SchedulerUtils.parse_minute_field rest) as [[m tail] |] eqn:Em;
    [| discriminate].
  destruct tail; [| discriminate]. intros [= <-].
  apply parse_hour_field_range in Eh. apply parse_minute_field_range in Em.
  lia.
Qed.

(** Printing a minute of the day and parsing it gives the minute back. *)
Lemma strptime_strftime (x : Z) :
  0 <= x < 1440 ->
  SchedulerUtils.strptime_HM (SchedulerUtils.strftime_HM x) = Returns x.
Proof.
  intros Hx.
  assert (Hall : forallb
                   (fun n =>
                      match SchedulerUtils.strptime_HM
                              (SchedulerUtils.strftime_HM (Z.of_nat n)) with
                      | Returns y => y =? Z.of_nat n
                      | Raises _ => false
                      end)
                   (seq 0 1440) = true)
    by (vm_compute; reflexivity).
  rewrite forallb_forall in Hall.
  specialize (Hall (Z.to_nat x)). rewrite Z2Nat.id in Hall by lia.
  destruct (SchedulerUtils.strptime_HM (SchedulerUtils.strftime_HM x))
    as [y | e].
  - f_equal. apply Z.eqb_eq. apply Hall. apply in_seq. lia.
  - discriminate Hall. apply in_seq. lia.
Qed.

Lemma add_minutes_to_time_parsed (s : string) (t m : Z) :
  SchedulerUtils.strptime_HM s = Returns t ->
  SchedulerUtils._add_minutes_to_time s m
  = if SchedulerUtils.date_in_range (t + m)
    then SchedulerUtils.strftime_HM ((t + m) mod 1440)
    else s.
Proof.
  intros H. unfold SchedulerUtils._add_minutes_to_time. rewrite H.
  reflexivity.
Qed.

Lemma add_minutes_to_time_reparses (s : string) (t m : Z) :
  SchedulerUtils.strptime_HM s = Returns t ->
  SchedulerUtils.date_in_range (t + m) = true ->
  SchedulerUtils.strptime_HM (SchedulerUtils._add_minutes_to_time s m)
  = Returns ((t + m) mod 1440).
Proof.
  intros Hs Hr. rewrite (add_minutes_to_time_parsed s t m Hs), Hr.
  apply strptime_strftime. apply Z.mod_pos_bound. lia.
Qed.



(** Adding minutes twice is adding their sum, as long as the three
    additions stay within the dates. *)
Theorem add_minutes_to_time_twice (s : string) (t a b : Z) :
  SchedulerUtils.strptime_HM s = Returns t ->
  SchedulerUtils.date_in_range (t + a) = true ->
  SchedulerUtils.date_in_range ((t + a) mod 1440 + b) = true ->
  SchedulerUtils.date_in_range (t + (a + b)) = true ->
  SchedulerUtils._add_minutes_to_time
    (SchedulerUtils._add_minutes_to_time s a) b
  = SchedulerUtils._add_minutes_to_time s (a + b).
Proof.
  intros Hs Ha Hb Hab.
  pose proof (add_minutes_to_time_reparses s t a Hs Ha) as Hmid.
  rewrite (add_minutes_to_time_parsed _ _ b Hmid), Hb.
  rewrite (add_minutes_to_time_parsed s t (a + b) Hs), Hab.
  f_equal. rewrite Z.add_mod_idemp_l by lia. f_equal. lia.
Qed.

Lemma add_minutes_to_time_twice_witness :
  SchedulerUtils._add_minutes_to_time
    (SchedulerUtils._add_minutes_to_time "22:10" 120) 15
  = SchedulerUtils._add_minutes_to_time "22:10" (120 + 15).
Proof.
  apply (add_minutes_to_time_twice "22:10" 1330 120 15); reflexivity.
Defined.

(** ** Time slots *)

Lemma date_in_range_day (x : Z) :
  0 <= x < 1440 -> SchedulerUtils.date_in_range x = true.
Proof.
  intros Hx. unfold SchedulerUtils.date_in_range.
  rewrite Z.div_small by lia. reflexivity.
Qed.

Lemma slots_loop_positive (d e : Z) :
  0 < d -> e <= 1440 ->
  forall (fuel : nat) (current : Z) (slots : list string),
    0 <= current ->
    (Z.to_nat (e - current) <= fuel)%nat ->
    SchedulerUtils.slots_loop fuel d e current slots
    = Some (slots
            ++ map (fun k => SchedulerUtils.strftime_HM (current + Z.of_nat k * d))
                 (seq 0 (Z.to_nat ((e - current + d - 1) / d))))%list.
Proof.
  intros Hd He.
  induction fuel as [| fuel IH]; intros current slots Hc Hfuel;
    cbn [SchedulerUtils.slots_loop];
    destruct (current <? e) eqn:E;
    [apply Z.ltb_lt in E; lia
    | apply Z.ltb_ge in E
    | apply Z.ltb_lt in E
    | apply Z.ltb_ge in E].
  - assert (Hq : (e - current + d - 1) / d <= 0)
      by (apply Z.lt_succ_r, Z.div_lt_upper_bound; lia).
    replace (Z.to_nat ((e - current + d - 1) / d)) with 0%nat by lia.
    simpl. now rewrite app_nil_r.
  - assert (Hq : (e - current + d - 1) / d
                 = (e - (current + d) + d - 1) / d + 1).
    { rewrite <- Z.div_add by lia. f_equal. lia. }
    assert (Hq0 : 0 <= (e - current + d - 1) / d - 1).
    { assert (1 <= (e - current + d - 1) / d); [| lia].
      apply Z.div_le_lower_bound; lia. }
    rewrite Z.mod_small by lia.
    replace (Z.to_nat ((e - current + d - 1) / d))
      with (S (Z.to_nat ((e - (current + d) + d - 1) / d))) by lia.
    cbn [seq map]. rewrite <- seq_shift, map_map.
    replace (current + Z.of_nat 0 * d) with current by lia.
    assert (Hmap :
              map (fun k => SchedulerUtils.strftime_HM
                              (current + Z.of_nat (S k) * d))
                (seq 0 (Z.to_nat ((e - (current + d) + d - 1) / d)))
              = map (fun k => SchedulerUtils.strftime_HM
                                (current + d + Z.of_nat k * d))
                  (seq 0 (Z.to_nat ((e - (current + d) + d - 1) / d)))).
    { apply map_ext. intros k. f_equal. lia. }
    rewrite Hmap.
    destruct (SchedulerUtils.date_in_range (current + d)) eqn:Er.
    + rewrite IH by lia. now rewrite <- app_assoc.
    + assert (Hout : e <= current + d).
      { destruct (Z_lt_le_dec (current + d) e) as [Hlt |]; [| assumption].
        rewrite date_in_range_day in Er by lia. discriminate. }
      assert (Hz : (e - (current + d) + d - 1) / d <= 0)
        by (apply Z.lt_succ_r, Z.div_lt_upper_bound; lia).
      replace (Z.to_nat ((e - (current + d) + d - 1) / d)) with 0%nat by lia.
      reflexivity.
  - assert (Hq : (e - current + d - 1) / d <= 0)
      by (apply Z.lt_succ_r, Z.div_lt_upper_bound; lia).
    replace (Z.to_nat ((e - current + d - 1) / d)) with 0%nat by lia.
    simpl. now rewrite app_nil_r.
Qed.

(** For two times that parse and a positive slot duration, the loop ends
    and the slots are the times [start + k * slot_duration] before the end
    time, in order: there are [ceil((end - start) / slot_duration)] of
    them, none when the start is not before the end; each of them parses to
    its minute of the day. *)
Theorem generate_time_slots_positive (fuel : nat) (start_time end_time : string)
    (s e d : Z) :
  SchedulerUtils.strptime_HM start_time = Returns s ->
  SchedulerUtils.strptime_HM end_time = Returns e ->
  0 < d ->
  (Z.to_nat (e - s) <= fuel)%nat ->
  let count := Z.to_nat ((e - s + d - 1) / d) in
  SchedulerUtils.generate_time_slots fuel start_time end_time d
  = Some (map (fun k => SchedulerUtils.strftime_HM (s + Z.of_nat k * d))
            (seq 0 count))
  /\ forall k, (k < count)%nat ->
       s <= s + Z.of_nat k * d < e
       /\ SchedulerUtils.strptime_HM
            (SchedulerUtils.strftime_HM (s + Z.of_nat k * d))
          = Returns (s + Z.of_nat k * d).
Proof.
  intros Hs He Hd Hfuel count.
  pose proof (strptime_HM_range _ _ Hs) as Rs.
  pose proof (strptime_HM_range _ _ He) as Re.
  split.
  - unfold SchedulerUtils.generate_time_slots. rewrite Hs, He.
    rewrite (slots_loop_positive d e Hd) by lia. reflexivity.
  - intros k Hk. subst count.
    assert (Hpos : 0 < (e - s + d - 1) / d) by lia.
    assert (Hlt : Z.of_nat k < (e - s + d - 1) / d) by lia.
    assert (Hmul : d * ((e - s + d - 1) / d) <= e - s + d - 1)
      by (apply Z.mul_div_le; lia).
    assert (Hbound : s + Z.of_nat k * d < e) by nia.
    split; [nia |]. apply strptime_strftime. nia.
Qed.

Lemma generate_time_slots_positive_witness :
  SchedulerUtils.generate_time_slots 180 "09:00" "12:00" 50
  = Some ["09:00"; "09:50"; "10:40"; "11:30"].
Proof.
  exact (proj1 (generate_time_slots_positive 180 "09:00" "12:00" 540 720 50
                  eq_refl eq_refl eq_refl (Nat.le_refl 180))).
Defined.

(** With a slot duration of zero and a start before the end, the loop never
    ends: whatever the fuel, it is exhausted. *)
Theorem generate_time_slots_zero_duration (start_time end_time : string)
    (s e : Z) :
  SchedulerUtils.strptime_HM start_time = Returns s ->
  SchedulerUtils.strptime_HM end_time = Returns e ->
  s < e ->
  forall fuel,
    SchedulerUtils.generate_time_slots fuel start_time end_time 0 = None.
Proof.
  intros Hs He Hlt fuel.
  pose proof (strptime_HM_range _ _ Hs) as Rs.
  unfold SchedulerUtils.generate_time_slots. rewrite Hs, He.
  generalize (@nil string) as slots.
  induction fuel as [| fuel IH]; intros slots;
    cbn [SchedulerUtils.slots_loop];
    replace (s <? e) with true by (symmetry; apply Z.ltb_lt; lia);
    [reflexivity |].
  rewrite Z.add_0_r, date_in_range_day by lia. apply IH.
Qed.

Lemma generate_time_slots_zero_duration_witness :
  SchedulerUtils.generate_time_slots 1000 "09:00" "10:00" 0 = None.
Proof.
  apply (generate_time_slots_zero_duration "09:00" "10:00" 540 600);
    reflexivity.
Defined.

(** ** Priorities *)

Lemma urgency_le_total (a b : option Z) :
  SchedulerUtils.urgency_le a b = false -> SchedulerUtils.urgency_le b a = true.
Proof.
  destruct a as [x |], b as [y |]; simpl; try reflexivity; try discriminate.
  intros H. apply Z.leb_gt in H. apply Z.leb_le. lia.
Qed.

Lemma urgency_le_trans (a b c : option Z) :
  SchedulerUtils.urgency_le a b = true -> SchedulerUtils.urgency_le b c = true ->
  SchedulerUtils.urgency_le a c = true.
Proof.
  destruct a as [x |], b as [y |], c as [z |]; simpl;
    try reflexivity; try discriminate.
  intros H1 H2. apply Z.leb_le in H1, H2. apply Z.leb_le. lia.
Qed.

Lemma urgency_le_strict (a b : option Z) :
  SchedulerUtils.urgency_le a b = false -> urgency_eqb b a = false.
Proof.
  destruct a as [x |], b as [y |]; simpl; try reflexivity; try discriminate.
  intros H. apply Z.leb_gt in H. apply Z.eqb_neq. lia.
Qed.

Section SortedByKey.

Variable key : string -> option Z.

Lemma insert_by_key_perm (x : string) (l : list string) :
  Permutation (SchedulerUtils.insert_by_key key x l) (x :: l).
Proof.
  induction l as [| y r IH]; simpl; [reflexivity |].
  destruct (SchedulerUtils.urgency_le (key x) (key y)); [reflexivity |].
  etransitivity; [apply perm_skip, IH | apply perm_swap].
Qed.

Lemma sorted_by_key_perm (l : list string) :
  Permutation (SchedulerUtils.sorted_by_key key l) l.
Proof.
  induction l as [| x r IH]; simpl; [reflexivity |].
  etransitivity; [apply insert_by_key_perm | now apply perm_skip].
Qed.

Lemma insert_by_key_sorted (x : string) (l : list string) :
  StronglySorted
    (fun a b => SchedulerUtils.urgency_le (key a) (key b) = true) l ->
  StronglySorted
    (fun a b => SchedulerUtils.urgency_le (key a) (key b) = true)
    (SchedulerUtils.insert_by_key key x l).
Proof.
  induction 1 as [| y r Hr IH Hy]; simpl.
  - constructor; constructor.
  - destruct (SchedulerUtils.urgency_le (key x) (key y)) eqn:E.
    + constructor; [now constructor |].
      constructor; [assumption |].
      rewrite Forall_forall in *. intros z Hz.
      eapply urgency_le_trans; [exact E | now apply Hy].
    + constructor; [assumption |].
      rewrite Forall_forall in *. intros z Hz.
      apply (Permutation_in _ (insert_by_key_perm x r)) in Hz.
      destruct Hz as [<- | Hz]; [now apply urgency_le_total | now apply Hy].
Qed.

Lemma sorted_by_key_sorted (l : list string) :
  StronglySorted
    (fun a b => SchedulerUtils.urgency_le (key a) (key b) = true)
    (SchedulerUtils.sorted_by_key key l).
Proof.
  induction l as [| x r IH]; simpl; [constructor |].
  now apply insert_by_key_sorted.
Qed.

(** The insertion passes only topics of another key. *)
Lemma insert_by_key_stable (u : option Z) (x : string) (l : list string) :
  filter (fun t => urgency_eqb (key t) u) (SchedulerUtils.insert_by_key key x l)
  = filter (fun t => urgency_eqb (key t) u) (x :: l).
Proof.
  induction l as [| y r IH]; [reflexivity |].
  cbn [SchedulerUtils.insert_by_key].
  destruct (SchedulerUtils.urgency_le (key x) (key y)) eqn:E; [reflexivity |].
  cbn [filter] in *. rewrite IH.
  destruct (urgency_eqb (key x) u) eqn:Ex; [| reflexivity].
  destruct (urgency_eqb (key y) u) eqn:Ey; [| reflexivity].
  exfalso. apply urgency_le_strict in E.
  destruct (key x) as [a |], (key y) as [b |], u as [c |]; simpl in *;
    try discriminate.
  - apply Z.eqb_eq in Ex, Ey. apply Z.eqb_neq in E. lia.
Qed.

Lemma sorted_by_key_stable (u : option Z) (l : list string) :
  filter (fun t => urgency_eqb (key t) u) (SchedulerUtils.sorted_by_key key l)
  = filter (fun t => urgency_eqb (key t) u) l.
Proof.
  induction l as [| x r IH]; [reflexivity |].
  cbn [SchedulerUtils.sorted_by_key fold_right].
  fold (SchedulerUtils.sorted_by_key key r).
  rewrite insert_by_key_stable. cbn [filter]. now rewrite IH.
Qed.

End SortedByKey.

(** [prioritize_by_deadline] returns the topics rearranged, in increasing
    order of the days left until their deadline, the topics of equal
    urgency in the order they came in, and the topics without a deadline
    last, in the order they came in. *)
Theorem prioritize_by_deadline_spec (topics : list string)
    (deadlines : dict datetime) (now : datetime) :
  let key := SchedulerUtils.urgency_score deadlines now in
  let sorted := SchedulerUtils.prioritize_by_deadline topics deadlines now in
  Permutation sorted topics
  /\ StronglySorted
       (fun a b => SchedulerUtils.urgency_le (key a) (key b) = true) sorted
  /\ (forall u, filter (fun t => urgency_eqb (key t) u) sorted
                = filter (fun t => urgency_eqb (key t) u) topics)
  /\ exists dated,
       sorted
       = (dated ++ filter (fun t => negb (dict_mem t deadlines)) topics)%list
       /\ Forall (fun t => dict_mem t deadlines = true) dated.
Proof.
  intros key sorted.
  change sorted with (SchedulerUtils.sorted_by_key key topics). clear sorted.
  pose proof (sorted_by_key_sorted key topics) as Hsorted.
  split; [apply sorted_by_key_perm |].
  split; [exact Hsorted |].
  split; [intros u; apply sorted_by_key_stable |].
  assert (Hf : forall l,
             filter (fun t => negb (dict_mem t deadlines)) l
             = filter (fun t => urgency_eqb (key t) None) l).
  { intros l. apply filter_ext. intros t.
    unfold key, SchedulerUtils.urgency_score, dict_mem.
    now destruct (dict_get t deadlines). }
  rewrite (Hf topics), <- (sorted_by_key_stable key None topics), <- Hf.
  induction Hsorted as [| x r Hr IH Hx].
  - exists []. split; [reflexivity | constructor].
  - cbn [filter]. destruct (dict_mem x deadlines) eqn:Ex; simpl.
    + destruct IH as (dated & Hd & Hall).
      exists (x :: dated). split; [simpl; now rewrite <- Hd |].
      now constructor.
    + exists []. split; [| constructor]. simpl. f_equal.
      symmetry. apply forallb_filter_id. apply forallb_forall.
      intros y Hy. rewrite Forall_forall in Hx. specialize (Hx y Hy).
      unfold key, SchedulerUtils.urgency_score, dict_mem in *.
      destruct (dict_get x deadlines); [discriminate |].
      destruct (dict_get y deadlines); [discriminate | reflexivity].
Qed.

(** ** The capacity of the days *)

Lemma str_of_int_inj (a b : Z) : str_of_int a = str_of_int b -> a = b.
Proof.
  unfold str_of_int. intros H.
  assert (Hn : forall z, Z.to_int z <> Decimal.Pos Decimal.Nil
                         /\ Z.to_int z <> Decimal.Neg Decimal.Nil).
  { intros [| p | p]; simpl; split; try discriminate;
      intros [= Hp]; exact (DecimalPos.Unsigned.to_uint_nonnil p Hp). }
  apply DecimalZ.to_int_inj.
  assert (Hs : Some (Z.to_int a) = Some (Z.to_int b)).
  { rewrite <- (NilZero.isi (Z.to_int a)), <- (NilZero.isi (Z.to_int b));
      try apply Hn. now rewrite H. }
  now injection Hs.
Qed.

Lemma day_key_inj (a b : Z) :
  SchedulerUtils.day_key a = SchedulerUtils.day_key b -> a = b.
Proof.
  unfold SchedulerUtils.day_key. simpl. intros [= H].
  apply str_of_int_inj in H. lia.
Qed.

Lemma day_hours_app (l1 l2 : list (string * Z)) :
  day_hours (l1 ++ l2) = day_hours l1 + day_hours l2.
Proof.
  unfold day_hours. induction l1 as [| x r IH]; simpl; [reflexivity |].
  rewrite IH. lia.
Qed.

Lemma dict_wf_append {V : Type} (k : string) (x : V) (d : dict (list V)) :
  dict_wf d -> dict_wf (dict_append k x d).
Proof. unfold dict_wf. now rewrite dict_keys_append. Qed.

Section Capacity.

Variables (available_days daily_hours : Z).
Hypothesis hours_positive : 0 < daily_hours.

(** One iteration of the inner loop, from a state in which the allocator
    goes on, keeps the invariant, whether it moves to the next day or
    not. *)
Lemma alloc_step_capacity (t : string) (th : Z) (sch : dict (list (string * Z)))
    (cd hrt : Z) :
  0 < th ->
  going available_days daily_hours (SchedulerUtils.mk_alloc sch cd hrt) ->
  within_capacity daily_hours (SchedulerUtils.mk_alloc sch cd hrt) ->
  let key := SchedulerUtils.day_key cd in
  let sched1 := if dict_mem key sch then sch else dict_set key [] sch in
  let h := Z.min th hrt in
  let sched2 := dict_append key (t, h) sched1 in
  (hrt - h <= 0 ->
   within_capacity daily_hours
     (SchedulerUtils.mk_alloc sched2 (cd + 1) daily_hours))
  /\ (0 < hrt - h ->
      within_capacity daily_hours
        (SchedulerUtils.mk_alloc sched2 cd (hrt - h))).
Proof.
  intros Hth Hgo (Hwf & Hkeys & Hsum & Hfresh & Hpos) key sched1 h sched2.
  unfold going in Hgo. simpl in *.
  assert (Hh : 1 <= h <= hrt) by (subst h; lia).
  assert (Hwf1 : dict_wf sched1)
    by (subst sched1; destruct (dict_mem key sch);
        [assumption | now apply dict_wf_set]).
  assert (Hget1 : exists l1, dict_get key sched1 = Some l1
                             /\ day_hours l1 = daily_hours - hrt).
  { subst sched1. destruct (dict_mem key sch) eqn:Em.
    - unfold dict_mem in Em. destruct (dict_get key sch) as [l |] eqn:Eg;
        [| discriminate].
      exists l. split; [reflexivity |]. rewrite (Hsum cd l Eg).
      now rewrite Z.ltb_irrefl.
    - exists []. rewrite dict_get_set, String.eqb_refl.
      split; [reflexivity |]. rewrite (Hfresh Em). unfold day_hours. simpl.
      lia. }
  destruct Hget1 as (l1 & Hl1 & Hs1).
  assert (Hother1 : forall k, k <> key -> dict_get k sched1 = dict_get k sch).
  { intros k Hk. subst sched1. destruct (dict_mem key sch); [reflexivity |].
    rewrite dict_get_set. apply String.eqb_neq in Hk. now rewrite Hk. }
  assert (Hkeys1 : forall k, In k (dict_keys sched1) ->
                             In k (dict_keys sch) \/ k = key).
  { subst sched1. intros k. destruct (dict_mem key sch) eqn:Em; [tauto |].
    rewrite dict_keys_set, Em, in_app_iff. simpl. intuition. }
  assert (Hmem1 : dict_mem key sched1 = true)
    by (unfold dict_mem; now rewrite Hl1).
  assert (Hall1 : forall y, In y (allotments sched1) <-> In y (allotments sch)).
  { subst sched1. destruct (dict_mem key sch) eqn:Em; [tauto |].
    now apply allotments_set_empty. }
  assert (Hwf2 : dict_wf sched2) by (subst sched2; now apply dict_wf_append).
  assert (Hkeys2 : forall k, In k (dict_keys sched2) ->
                             exists d, 0 <= d <= cd
                                       /\ k = SchedulerUtils.day_key d).
  { intros k. subst sched2. rewrite dict_keys_append. intros Hk.
    destruct (Hkeys1 k Hk) as [Hold | ->]; [now apply Hkeys |].
    exists cd. split; [lia | reflexivity]. }
  assert (Hget2 : dict_get key sched2 = Some (l1 ++ [(t, h)])%list)
    by (subst sched2; now rewrite dict_get_append, String.eqb_refl, Hl1).
  assert (Hother2 : forall k, k <> key -> dict_get k sched2 = dict_get k sch).
  { intros k Hk. subst sched2. rewrite dict_get_append.
    pose proof Hk as Hk'. apply String.eqb_neq in Hk'. rewrite Hk'.
    now apply Hother1. }
  assert (Hpos2 : forall y, In y (allotments sched2) -> 1 <= snd y).
  { intros y Hy. subst sched2. apply allotments_append in Hy; [| assumption].
    destruct Hy as [Hy | ->]; [apply Hpos; now apply Hall1 | simpl; lia]. }
  assert (Hsum2 : forall d l,
            dict_get (SchedulerUtils.day_key d) sched2 = Some l ->
            d <= cd
            /\ day_hours l = if d <? cd then daily_hours
                             else daily_hours - (hrt - h)).
  { intros d l Hg.
    destruct (Z.eq_dec d cd) as [-> | Hd].
    - fold key in Hg. rewrite Hget2 in Hg. injection Hg as <-.
      split; [lia |]. rewrite Z.ltb_irrefl, day_hours_app, Hs1.
      unfold day_hours. simpl. lia.
    - assert (Hk : SchedulerUtils.day_key d <> key)
        by (intros Heq; apply day_key_inj in Heq; contradiction).
      rewrite (Hother2 _ Hk) in Hg.
      assert (Hin : In (SchedulerUtils.day_key d) (dict_keys sch)).
      { destruct (in_dec string_dec (SchedulerUtils.day_key d) (dict_keys sch))
          as [? | Hn]; [assumption |].
        apply dict_get_None_keys in Hn. congruence. }
      destruct (Hkeys _ Hin) as (d' & Hd' & Heq).
      apply day_key_inj in Heq. subst d'.
      split; [lia |]. rewrite (Hsum d l Hg).
      replace (d <? cd) with true by (symmetry; apply Z.ltb_lt; lia).
      reflexivity. }
  split; intros Hrem.
  - repeat split; simpl; try assumption.
    + intros k Hk. destruct (Hkeys2 k Hk) as (d & Hd & ->).
      exists d. split; [lia | reflexivity].
    + intros d l Hg. destruct (Hsum2 d l Hg) as [Hle Hs].
      replace (d <? cd + 1) with true by (symmetry; apply Z.ltb_lt; lia).
      rewrite Hs. destruct (d <? cd); lia.
  - repeat split; simpl; try assumption.
    + intros d l Hg. now destruct (Hsum2 d l Hg).
    + unfold dict_mem. fold key. rewrite Hget2. discriminate.
Qed.

Lemma alloc_topic_capacity (t : string) :
  forall (fuel : nat) (th : Z) (st st' : SchedulerUtils.alloc_state),
    going available_days daily_hours st ->
    within_capacity daily_hours st ->
    SchedulerUtils.alloc_topic fuel available_days daily_hours t th st
    = Some st' ->
    within_capacity daily_hours st'.
Proof.
  induction fuel as [| fuel IH]; intros th st st' Hgo Hinv;
    cbn [SchedulerUtils.alloc_topic];
    destruct (th <=? 0) eqn:E0;
    try (intros [= <-]; assumption); try discriminate.
  apply Z.leb_gt in E0.
  destruct st as [sch cd hrt].
  cbn [SchedulerUtils.sched SchedulerUtils.current_day
       SchedulerUtils.hours_remaining_today].
  destruct (alloc_step_capacity t th sch cd hrt E0 Hgo Hinv) as [Hnext Hsame].
  cbv zeta in Hnext, Hsame.
  unfold going in Hgo. simpl in Hgo.
  replace (0 <? Z.min th hrt) with true by (symmetry; apply Z.ltb_lt; lia).
  destruct (hrt - Z.min th hrt <=? 0) eqn:Er;
    [apply Z.leb_le in Er | apply Z.leb_gt in Er].
  - destruct (cd + 1 >=? available_days) eqn:Ed.
    + intros [= <-]. now apply Hnext.
    + rewrite Z.geb_leb in Ed. apply Z.leb_gt in Ed.
      apply IH; [unfold going; simpl; lia | now apply Hnext].
  - apply IH; [unfold going; simpl; lia | now apply Hsame].
Qed.

Lemma alloc_topics_capacity (hpt : Z) :
  1 <= hpt ->
  forall (topics : list string) (st st' : SchedulerUtils.alloc_state),
    going available_days daily_hours st ->
    within_capacity daily_hours st ->
    SchedulerUtils.alloc_topics available_days daily_hours hpt topics st
    = Some st' ->
    within_capacity daily_hours st'
    /\ 0 < SchedulerUtils.hours_remaining_today st' <= daily_hours.
Proof.
  intros Hhpt.
  induction topics as [| t rest IH]; intros st st' Hgo Hinv;
    cbn [SchedulerUtils.alloc_topics].
  - intros [= <-]. split; [assumption | apply Hgo].
  - destruct (alloc_topic_spec available_days daily_hours hours_positive t
                (SchedulerUtils.alloc_fuel available_days hpt
                   (SchedulerUtils.current_day st)) hpt st)
      as (st1 & Hrun & Hprog & _);
      [lia | unfold SchedulerUtils.alloc_fuel; lia | assumption |].
    rewrite Hrun.
    pose proof (alloc_topic_capacity t _ _ _ _ Hgo Hinv Hrun) as Hinv1.
    destruct Hprog as [[Hgo1 _] | [Hfull _]].
    + replace (SchedulerUtils.current_day st1 >=? available_days) with false
        by (symmetry; rewrite Z.geb_leb; apply Z.leb_gt;
            unfold going in Hgo1; lia).
      now apply IH.
    + replace (SchedulerUtils.current_day st1 >=? available_days) with true
        by (symmetry; rewrite Z.geb_leb; apply Z.leb_le;
            unfold filled in Hfull; lia).
      intros [= <-]. split; [assumption |].
      unfold filled in Hfull. lia.
Qed.

End Capacity.

(** For [available_days >= 1] and [daily_hours > 0], the allocator never
    gives a day more than [daily_hours] hours: every day of the schedule it
    returns holds slots of at least one hour each that sum to at most
    [daily_hours], and a day that is followed by another day in the
    schedule is full. *)
Theorem optimize_topic_distribution_capacity (topics : list string)
    (available_days daily_hours : Z) (sch : dict (list (string * Z))) :
  1 <= available_days -> 0 < daily_hours ->
  SchedulerUtils.optimize_topic_distribution topics available_days
    daily_hours = Some (Returns sch) ->
  dict_wf sch
  /\ (forall day l,
        In (day, l) sch ->
        0 <= day_hours l <= daily_hours
        /\ Forall (fun slot => 1 <= snd slot) l)
  /\ (forall d l l',
        dict_get (SchedulerUtils.day_key d) sch = Some l ->
        dict_get (SchedulerUtils.day_key (d + 1)) sch = Some l' ->
        day_hours l = daily_hours).
Proof.
  intros Hd Hh. unfold SchedulerUtils.optimize_topic_distribution.
  destruct topics as [| t0 rest]; [discriminate |].
  set (hpt := Z.max 1 _).
  destruct (SchedulerUtils.alloc_topics available_days daily_hours hpt
              (t0 :: rest) (SchedulerUtils.mk_alloc [] 0 daily_hours))
    as [st |] eqn:Erun; [| discriminate].
  intros [= <-].
  destruct (alloc_topics_capacity available_days daily_hours Hh hpt
              ltac:(subst hpt; lia) (t0 :: rest)
              (SchedulerUtils.mk_alloc [] 0 daily_hours) st) as [Hinv Hrem];
    [unfold going; simpl; lia | | exact Erun |].
  { repeat split; simpl; try (intros; contradiction); try constructor.
    intros d l Hg. discriminate. }
  destruct Hinv as (Hwf & Hkeys & Hsum & _ & Hpos).
  assert (Hkey : forall k l, dict_get k (SchedulerUtils.sched st) = Some l ->
                             exists d, k = SchedulerUtils.day_key d
                                       /\ d <= SchedulerUtils.current_day st).
  { intros k l Hg.
    assert (Hin : In k (dict_keys (SchedulerUtils.sched st))).
    { destruct (in_dec string_dec k (dict_keys (SchedulerUtils.sched st)))
        as [? | Hn]; [assumption |].
      apply dict_get_None_keys in Hn. congruence. }
    destruct (Hkeys k Hin) as (d & Hd' & ->). exists d. split; [reflexivity | lia]. }
  split; [assumption |]. split.
  - intros day l Hin. pose proof (dict_In_get _ _ _ Hwf Hin) as Hg.
    destruct (Hkey _ _ Hg) as (d & -> & _).
    rewrite (Hsum d l Hg). split; [destruct (d <? _); lia |].
    apply Forall_forall. intros slot Hslot. apply Hpos.
    unfold allotments, dict_values. apply in_concat. exists l.
    split; [| assumption]. change l with (snd (SchedulerUtils.day_key d, l)).
    now apply in_map.
  - intros d l l' Hg Hg'. rewrite (Hsum d l Hg).
    destruct (Hkey _ _ Hg') as (d' & Heq & Hle).
    apply day_key_inj in Heq. subst d'.
    replace (d <? SchedulerUtils.current_day st) with true
      by (symmetry; apply Z.ltb_lt; lia).
    reflexivity.
Qed.

Lemma optimize_topic_distribution_capacity_witness :
  day_hours [("Calculus", 2); ("Physics", 1)] = 3.
Proof.
  exact (proj2 (proj2 (optimize_topic_distribution_capacity
                         ["Calculus"; "Physics"; "History"] 2 3
                         [("Day 1", [("Calculus", 2); ("Physics", 1)]);
                          ("Day 2", [("Physics", 1); ("History", 2)])]
                         ltac:(lia) ltac:(lia) eq_refl))
           0 _ _ eq_refl eq_refl).
Defined.

(** The allocator ends on every input, also for a number of days or of
    hours that is zero or negative: it raises [ZeroDivisionError] exactly
    when the topic list is empty and returns a schedule otherwise. *)
Theorem optimize_topic_distribution_terminates (topics : list string)
    (available_days daily_hours : Z) :
  exists r,
    SchedulerUtils.optimize_topic_distribution topics available_days
      daily_hours = Some r
    /\ (topics = [] <-> r = Raises ZeroDivisionError)
    /\ (topics <> [] <-> exists sch, r = Returns sch).
Proof.
  destruct (optimize_topic_distribution_total topics available_days
              daily_hours) as [r Hr].
  exists r. split; [exact Hr |].
  unfold SchedulerUtils.optimize_topic_distribution in Hr.
  destruct topics as [| t0 rest].
  - injection Hr as <-. split; split; try congruence.
    intros [sch Hs]. discriminate Hs.
  - destruct (SchedulerUtils.alloc_topics _ _ _ _ _) as [st |];
      [| discriminate].
    injection Hr as <-. split; split; try discriminate; try congruence.
    intros _. now eexists.
Qed.

Lemma alloc_topic_no_hours (available_days daily_hours : Z) (t : string) :
  daily_hours <= 0 ->
  forall (fuel : nat) (th : Z) (st st' : SchedulerUtils.alloc_state),
    SchedulerUtils.hours_remaining_today st <= 0 ->
    allotments (SchedulerUtils.sched st) = [] ->
    SchedulerUtils.alloc_topic fuel available_days daily_hours t th st
    = Some st' ->
    SchedulerUtils.hours_remaining_today st' <= 0
    /\ allotments (SchedulerUtils.sched st') = [].
Proof.
  intros Hh.
  induction fuel as [| fuel IH]; intros th st st' Hrem Hnone;
    cbn [SchedulerUtils.alloc_topic];
    destruct (th <=? 0) eqn:E0;
    try (intros [= <-]; now split); try discriminate.
  apply Z.leb_gt in E0. destruct st as [sch cd hrt]. simpl in *.
  replace (0 <? Z.min th hrt) with false by (symmetry; apply Z.ltb_ge; lia).
  replace (hrt <=? 0) with true by (symmetry; apply Z.leb_le; lia).
  assert (Hnone1 : allotments
                     (if dict_mem (SchedulerUtils.day_key cd) sch then sch
                      else dict_set (SchedulerUtils.day_key cd) [] sch) = []).
  { destruct (dict_mem (SchedulerUtils.day_key cd) sch) eqn:Em; [assumption |].
    destruct (allotments (dict_set (SchedulerUtils.day_key cd) [] sch))
      as [| y r] eqn:Ea; [reflexivity |].
    exfalso.
    assert (Hy : In y (allotments sch)).
    { apply (allotments_set_empty _ _ Em). rewrite Ea. now left. }
    rewrite Hnone in Hy. exact Hy. }
  destruct (cd + 1 >=? available_days).
  - intros [= <-]. simpl. now split.
  - apply IH; simpl; assumption.
Qed.

(** With [daily_hours <= 0] the allocator writes days and no slot: every
    day of the schedule it returns is empty. *)
Theorem optimize_topic_distribution_no_hours (topics : list string)
    (available_days daily_hours : Z) (sch : dict (list (string * Z))) :
  daily_hours <= 0 ->
  SchedulerUtils.optimize_topic_distribution topics available_days
    daily_hours = Some (Returns sch) ->
  forall day l, In (day, l) sch -> l = [].
Proof.
  intros Hh. unfold SchedulerUtils.optimize_topic_distribution.
  destruct topics as [| t0 rest]; [discriminate |].
  set (hpt := Z.max 1 _).
  assert (Hgen : forall topics st st',
             SchedulerUtils.hours_remaining_today st <= 0 ->
             allotments (SchedulerUtils.sched st) = [] ->
             SchedulerUtils.alloc_topics available_days daily_hours hpt
               topics st = Some st' ->
             allotments (SchedulerUtils.sched st') = []).
  { induction topics as [| t r IH]; intros st st' Hrem Hnone; simpl.
    - now intros [= <-].
    - destruct (SchedulerUtils.alloc_topic _ _ _ _ _ st) as [st1 |] eqn:E1;
        [| discriminate].
      destruct (alloc_topic_no_hours _ _ _ Hh _ _ _ _ Hrem Hnone E1)
        as [Hrem1 Hnone1].
      destruct (SchedulerUtils.current_day st1 >=? available_days).
      + now intros [= <-].
      + now apply IH. }
  destruct (SchedulerUtils.alloc_topics _ _ _ _ _) as [st |] eqn:Erun;
    [| discriminate].
  intros [= <-] day l Hin.
  pose proof (Hgen _ (SchedulerUtils.mk_alloc [] 0 daily_hours) st Hh eq_refl
                Erun) as Hnone.
  destruct l as [| y r]; [reflexivity |]. exfalso.
  assert (Hy : In y (allotments (SchedulerUtils.sched st))).
  { unfold allotments, dict_values. apply in_concat. exists (y :: r).
    split; [| now left]. change (y :: r) with (snd (day, y :: r)).
    now apply in_map. }
  rewrite Hnone in Hy. exact Hy.
Qed.

Lemma optimize_topic_distribution_no_hours_witness :
  SchedulerUtils.optimize_topic_distribution ["Calculus"; "Physics"] 3 0
  = Some (Returns [("Day 1", []); ("Day 2", []); ("Day 3", [])])
  /\ forall (day : string) (l : list (string * Z)),
       In (day, l) [("Day 1", []); ("Day 2", []); ("Day 3", [])] -> l = [].
Proof.
  split; [reflexivity |].
  apply (optimize_topic_distribution_no_hours ["Calculus"; "Physics"] 3 0);
    [lia | reflexivity].
Defined.

(** ** What the stages keep of a schedule *)

Lemma study_part_breaks_between (bi : Z) (sessions : list session) :
  break_free sessions -> study_part (breaks_between bi sessions) = sessions.
Proof.
  induction 1 as [| s r Hs Hr IH]; [reflexivity |].
  cbn [breaks_between]. unfold study_part in *. cbn [filter].
  rewrite Hs. cbn [negb]. f_equal. rewrite filter_app, IH.
  destruct s as [d | t hours |]; try reflexivity.
  destruct r as [| s' r']; [reflexivity |].
  destruct (SchedulerUtils.is_study_type (session_type d)); reflexivity.
Qed.

Lemma breaks_between_length (bi : Z) (sessions : list session) :
  (List.length sessions <= List.length (breaks_between bi sessions)
   <= 2 * List.length sessions - 1)%nat
  \/ sessions = [].
Proof.
  induction sessions as [| s r IH]; [now right |]. left.
  cbn [breaks_between]. cbn [List.length]. rewrite length_app.
  destruct IH as [IH | ->].
  - destruct s as [d | t hours |]; simpl; try lia.
    destruct r as [| s' r']; [simpl; lia |].
    destruct (SchedulerUtils.is_study_type (session_type d)); simpl in *; lia.
  - destruct s as [d | t hours |]; simpl; lia.
Qed.

(** [add_breaks] only inserts breaks: on a schedule (a dictionary) whose
    days hold no break, it keeps the days and their order, and each day of
    the result, once its breaks are dropped, is the day it was made from;
    it holds at most one break per session but the last; it does not end
    with a break, and no break of it follows a break. *)
Theorem add_breaks_only_inserts (sch : schedule) (bi : Z) :
  dict_wf sch ->
  Forall break_free (dict_values sch) ->
  dict_keys (SchedulerUtils.add_breaks sch bi) = dict_keys sch
  /\ forall day sessions,
       dict_get day sch = Some sessions ->
       exists out,
         dict_get day (SchedulerUtils.add_breaks sch bi) = Some out
         /\ study_part out = sessions
         /\ (sessions <> [] ->
             (List.length out <= 2 * List.length sessions - 1)%nat)
         /\ ends_with_break out = false
         /\ has_adjacent_breaks out = false.
Proof.
  intros Hwf Hfree. unfold SchedulerUtils.add_breaks.
  rewrite (fold_dict_set_map
             (fun sessions =>
                SchedulerUtils.add_breaks_day bi
                  (Z.of_nat (List.length sessions)) 0 sessions [])
             sch [] Hwf) by (intros k _ []).
  simpl. split; [apply dict_keys_map |].
  intros day sessions Hget. rewrite dict_get_map, Hget. simpl.
  rewrite add_breaks_day_eq by lia. simpl.
  assert (Hday : break_free sessions).
  { rewrite Forall_forall in Hfree. apply Hfree.
    apply dict_get_In in Hget. eapply dict_In_values; eassumption. }
  eexists. split; [reflexivity |].
  destruct (breaks_between_sound bi sessions Hday) as (Hend & Hadj & _).
  split; [now apply study_part_breaks_between |].
  split; [| split; assumption].
  intros Hne. destruct (breaks_between_length bi sessions) as [H | H];
    [lia | contradiction].
Qed.

Lemma add_breaks_only_inserts_witness :
  option_map study_part
    (dict_get "Monday"
       (SchedulerUtils.add_breaks [("Monday", sample_break_free_day)] 90))
  = Some sample_break_free_day.
Proof.
  assert (Hwf : dict_wf [("Monday", sample_break_free_day)])
    by (repeat constructor; simpl; tauto).
  assert (Hfree : Forall break_free
                    (dict_values [("Monday", sample_break_free_day)]))
    by (repeat constructor).
  destruct (proj2 (add_breaks_only_inserts _ 90 Hwf Hfree)
              "Monday" sample_break_free_day eq_refl)
    as (out & Hout & Hpart & _).
  rewrite Hout. simpl. now rewrite Hpart.
Defined.

Example add_breaks_ex :
  SchedulerUtils.add_breaks [("Monday", sample_break_free_day)] 90
  = [("Monday",
      [PlannerAgent.study_session "09:00" "Calculus";
       SchedulerUtils.break_session "10:30";
       SDict (mk_session (Some "10:30") (Some "Lunch") (Some "30 minutes")
                None (Some "meal"));
       PlannerAgent.evening_review;
       SchedulerUtils.break_session "20:30";
       STuple "Physics" 1])].
Proof. reflexivity. Qed.

(** [apply_spaced_repetition] only appends reviews.  On a schedule with each
    day once it returns, keeps the days, and each day holds the sessions it
    had followed by the reviews added.  With the days in the sorted order of
    their labels, the day of index [j] receives the review of topic [t]
    exactly when [t] first appears on the day of index [i] and [j] is
    [i + 1], [i + 3] or [i + 7]: a review is never on or before the day of
    the first appearance, and an offset past the last day adds nothing. *)
Theorem apply_spaced_repetition_reviews (sch : schedule) :
  dict_wf sch ->
  exists out,
    SchedulerUtils.apply_spaced_repetition sch = Returns out
    /\ dict_keys out = dict_keys sch
    /\ forall j d,
         nth_error (day_order sch) j = Some d ->
         exists orig added,
           dict_get d sch = Some orig
           /\ dict_get d out = Some (orig ++ added)%list
           /\ (forall s, In s added ->
                 exists t i k,
                   s = SchedulerUtils.review_session t
                   /\ first_index sch t i
                   /\ In k [1; 3; 7]%nat
                   /\ j = (i + k)%nat
                   /\ (i < j < List.length (day_order sch))%nat)
           /\ (forall t i k,
                 first_index sch t i -> In k [1; 3; 7]%nat -> j = (i + k)%nat ->
                 In (SchedulerUtils.review_session t) added).
Proof. exact (apply_spaced_repetition_spec sch). Qed.

Lemma apply_spaced_repetition_reviews_witness :
  exists out,
    SchedulerUtils.apply_spaced_repetition sample_schedule = Returns out
    /\ dict_keys out = dict_keys sample_schedule.
Proof.
  assert (Hwf : dict_wf sample_schedule).
  { unfold dict_wf. simpl. repeat constructor; simpl; intuition discriminate. }
  destruct (apply_spaced_repetition_reviews sample_schedule Hwf)
    as (out & Hrun & Hkeys & _).
  exists out. split; assumption.
Defined.

Lemma round_robin_filter (p q : session -> bool) :
  forall hard easy,
    Forall (fun s => p s = true /\ q s = false) hard ->
    Forall (fun s => p s = false /\ q s = true) easy ->
    filter p (round_robin hard easy) = hard
    /\ filter q (round_robin hard easy) = easy.
Proof.
  induction hard as [| h hs IH]; intros easy Hh He; simpl.
  - split.
    + induction He as [| e es [He1 _] _ IHe]; simpl; [reflexivity |].
      now rewrite He1.
    + induction He as [| e es [_ He2] _ IHe]; simpl; [reflexivity |].
      rewrite He2. now f_equal.
  - inversion Hh as [| ? ? [Hp Hq] Hhs]; subst.
    destruct easy as [| e es].
    + simpl. rewrite Hp, Hq. split.
      * f_equal. clear IH Hh. induction Hhs as [| x xs [Hx _] _ IHx];
          simpl; [reflexivity |]. rewrite Hx. now f_equal.
      * clear IH Hh. induction Hhs as [| x xs [_ Hx] _ IHx];
          simpl; [reflexivity |]. now rewrite Hx.
    + inversion He as [| ? ? [Hp' Hq'] Hes]; subst.
      destruct (IH es Hhs Hes) as [IH1 IH2].
      simpl. rewrite Hp, Hq, Hp', Hq'. split; f_equal; assumption.
Qed.

(** Balancing loses no dictionary session and keeps the order within each
    class: on a schedule (a dictionary), a day of the result has as many
    sessions as the day had dictionary sessions, its hard sessions are the
    hard sessions of the day in their order, and so are its easy sessions;
    when all the sessions of the day are dictionaries, the result is a
    rearrangement of the day. *)
Theorem balance_cognitive_load_rearranges (sch : schedule)
    (diff : dict float) (day : string) (sessions : list session) :
  dict_wf sch ->
  dict_get day sch = Some sessions ->
  exists out,
    dict_get day (SchedulerUtils.balance_cognitive_load sch diff) = Some out
    /\ List.length out = List.length (filter is_dict sessions)
    /\ filter (classified_hard diff) out
       = filter (classified_hard diff) sessions
    /\ filter (classified_easy diff) out
       = filter (classified_easy diff) sessions
    /\ (forallb is_dict sessions = true -> Permutation out sessions).
Proof.
  intros Hwf Hget. unfold SchedulerUtils.balance_cognitive_load.
  rewrite (fold_dict_set_map (SchedulerUtils.balance_day diff) sch [] Hwf)
    by (intros k _ []).
  simpl. rewrite dict_get_map, Hget. simpl.
  eexists. split; [reflexivity |].
  rewrite balance_day_round_robin.
  destruct (round_robin_filter (classified_hard diff) (classified_easy diff)
              (filter (classified_hard diff) sessions)
              (filter (classified_easy diff) sessions)) as [Hh He].
  { apply Forall_forall. intros s Hs. apply filter_In in Hs.
    destruct Hs as [_ Hs]. split; [assumption |].
    destruct s; try discriminate. simpl in *. now rewrite Hs. }
  { apply Forall_forall. intros s Hs. apply filter_In in Hs.
    destruct Hs as [_ Hs]. split; [| assumption].
    destruct s; try discriminate. simpl in *.
    now destruct (SchedulerUtils.is_hard diff d). }
  split; [| split; [assumption | split; [assumption |]]].
  - rewrite (Permutation_length (round_robin_perm _ _)), length_app.
    clear. induction sessions as [| s r IH]; [reflexivity |].
    destruct s as [d | t hours |]; simpl; try exact IH.
    destruct (SchedulerUtils.is_hard diff d); simpl; lia.
  - rewrite <- balance_day_round_robin. apply balance_day_perm.
Qed.

Lemma balance_cognitive_load_rearranges_witness :
  exists out,
    dict_get "Monday"
      (SchedulerUtils.balance_cognitive_load
         [("Monday", sample_break_free_day)] sample_difficulty) = Some out
    /\ List.length out = 3%nat.
Proof.
  assert (Hwf : dict_wf [("Monday", sample_break_free_day)])
    by (repeat constructor; simpl; tauto).
  destruct (balance_cognitive_load_rearranges
              [("Monday", sample_break_free_day)] sample_difficulty
              "Monday" sample_break_free_day Hwf eq_refl)
    as (out & Hout & Hlen & _).
  exists out. split; assumption.
Defined.

(** The advisor recommends between 40 and 99 minutes, whatever the
    difficulty (also infinite or not a number) and whatever the text of
    the time. *)
Theorem calculate_optimal_session_length_bounds (d : float) (t : string) :
  40 <= SchedulerUtils.calculate_optimal_session_length d t <= 99.
Proof.
  unfold SchedulerUtils.calculate_optimal_session_length,
    SchedulerUtils.adjust_for_time.
  pose proof (difficulty_base_cases d) as Hb.
  destruct (SchedulerUtils.int_of_str (SchedulerUtils.before_colon t))
    as [h | e]; simpl; [| lia].
  destruct ((6 <=? h) && (h <? 12)).
  - rewrite (scale_11 _ Hb).
    destruct Hb as [-> | [-> | ->]]; vm_compute; split; discriminate.
  - destruct ((12 <=? h) && (h <? 18)); [lia |].
    destruct ((18 <=? h) && (h <? 22)); [| lia].
    rewrite (scale_09 _ Hb).
    destruct Hb as [-> | [-> | ->]]; vm_compute; split; discriminate.
Qed.

(** ** The topics a plan covers *)

Lemma plan_after_In (topics : list string) (h : Z) (start : datetime)
    (n : nat) (day : string) (sessions : list session) :
  In (day, sessions) (plan_after topics h start n) ->
  exists i, 0 <= i < Z.of_nat n /\ sessions = sessions_of_day topics h i.
Proof.
  intros Hin.
  pose proof (dict_In_get _ _ _ (plan_after_wf topics h start n) Hin) as Hg.
  assert (Hk : In day (dict_keys (plan_after topics h start n)))
    by (unfold dict_keys; change day with (fst (day, sessions));
        now apply in_map).
  apply plan_after_keys in Hk. destruct Hk as (i & Hi & ->).
  rewrite plan_after_get in Hg by assumption. injection Hg as <-.
  exists (last_same_weekday (Z.of_nat n) i). split; [| reflexivity].
  unfold last_same_weekday. Z.div_mod_to_equations. lia.
Qed.

(** With fewer than 4 hours a day the topic index never advances: every
    focused-study session of the created plan is for the first topic, so
    the other topics of the request are never studied.  The default of 3
    hours a day is such a case. *)
Theorem create_study_schedule_first_topic_only
    (info : PlannerAgent.study_info) (sch : schedule) (day : string)
    (sessions : list session) (s : session) :
  PlannerAgent._create_study_schedule info = Returns sch ->
  PlannerAgent.daily_hours info < 4 ->
  In (day, sessions) sch -> In s sessions -> is_focused s = true ->
  s = PlannerAgent.study_session "09:00" (nth 0 (PlannerAgent.topics info) "").
Proof.
  intros Hrun Hh Hday Hs Hf.
  apply create_study_schedule_inv in Hrun. subst sch.
  apply plan_after_In in Hday. destruct Hday as (i & _ & ->).
  unfold sessions_of_day, topic_index_before in Hs.
  replace (4 <=? PlannerAgent.daily_hours info) with false in Hs
    by (symmetry; apply Z.leb_gt; lia).
  unfold PlannerAgent.daily_sessions in Hs.
  assert (Ht : PlannerAgent.topic_at (PlannerAgent.topics info) 0
               = nth 0 (PlannerAgent.topics info) "").
  { unfold PlannerAgent.topic_at. now rewrite Zmod_0_l. }
  destruct (2 <=? PlannerAgent.daily_hours info) eqn:E2.
  - replace (2 <=? PlannerAgent.daily_hours info - 2) with false in Hs
      by (symmetry; apply Z.leb_gt; lia).
    destruct (1 <=? PlannerAgent.daily_hours info - 2); simpl in Hs.
    + destruct Hs as [<- | [<- | []]]; [now rewrite Ht | discriminate Hf].
    + destruct Hs as [<- | []]. now rewrite Ht.
  - rewrite E2 in Hs.
    destruct (1 <=? PlannerAgent.daily_hours info); simpl in Hs.
    + destruct Hs as [<- | []]. discriminate Hf.
    + destruct Hs.
Qed.

Lemma create_study_schedule_first_topic_only_witness :
  PlannerAgent.study_session "09:00" "Calculus"
  = PlannerAgent.study_session "09:00"
      (nth 0 (PlannerAgent.topics three_topic_request) "").
Proof.
  apply (create_study_schedule_first_topic_only three_topic_request
           (plan_after ["Calculus"; "Physics"; "History"] 3 monday 7)
           "Monday"
           [PlannerAgent.study_session "09:00" "Calculus";
            PlannerAgent.evening_review]);
    [vm_compute; reflexivity | reflexivity | vm_compute; tauto
    | now left | reflexivity].
Defined.

Lemma sessions_of_day_full (topics : list string) (h d : Z) :
  4 <= h ->
  In (PlannerAgent.study_session "09:00" (PlannerAgent.topic_at topics d))
    (sessions_of_day topics h d)
  /\ In (PlannerAgent.study_session "14:00"
           (PlannerAgent.topic_at topics (d + 1)))
       (sessions_of_day topics h d).
Proof.
  intros Hh. unfold sessions_of_day, topic_index_before,
    PlannerAgent.daily_sessions.
  replace (4 <=? h) with true by (symmetry; apply Z.leb_le; lia).
  replace (2 <=? h) with true by (symmetry; apply Z.leb_le; lia).
  replace (2 <=? h - 2) with true by (symmetry; apply Z.leb_le; lia).
  destruct (1 <=? h - 2 - 2); simpl; tauto.
Qed.

(** With at least 4 hours a day, day [d] studies the topics of index [d]
    and [d + 1], cyclically; the plan keeps the last 7 days at most.  So
    when the topics are at most one more than the days kept, every topic of
    the request has a focused-study session in the created plan. *)
Theorem create_study_schedule_covers_topics
    (info : PlannerAgent.study_info) (sch : schedule) (t : string) :
  PlannerAgent._create_study_schedule info = Returns sch ->
  4 <= PlannerAgent.daily_hours info ->
  Z.of_nat (List.length (PlannerAgent.topics info))
  <= Z.min (PlannerAgent.days_available_of info) 7 + 1 ->
  In t (PlannerAgent.topics info) ->
  exists day sessions time_of_day,
    In (day, sessions) sch
    /\ In (PlannerAgent.study_session time_of_day t) sessions.
Proof.
  intros Hrun Hh Hlen Hin.
  apply create_study_schedule_inv in Hrun. subst sch.
  pose proof (days_available_bounds info) as Hn.
  set (n := PlannerAgent.days_available_of info) in *.
  set (topics := PlannerAgent.topics info) in *.
  set (len := Z.of_nat (List.length topics)) in *.
  apply In_nth with (d := "") in Hin. destruct Hin as (j & Hj & <-).
  assert (Hlen0 : 0 < len) by (subst len; lia).
  set (m := Z.min n 7) in *.
  set (e := n - m + (Z.of_nat j - (n - m)) mod len).
  assert (Hr : 0 <= (Z.of_nat j - (n - m)) mod len < len)
    by (apply Z.mod_pos_bound; lia).
  assert (He : n - m <= e <= n) by (subst e; lia).
  assert (Hej : e mod len = Z.of_nat j).
  { subst e. rewrite Z.add_mod_idemp_r by lia.
    replace (n - m + (Z.of_nat j - (n - m))) with (Z.of_nat j) by lia.
    apply Z.mod_small. subst len. lia. }
  assert (Hget : forall d, n - m <= d < n ->
            In (weekday_name (day_after (PlannerAgent.start_date info) (d mod 7)),
                sessions_of_day topics (PlannerAgent.daily_hours info) d)
              (plan_after topics (PlannerAgent.daily_hours info)
                 (PlannerAgent.start_date info) (Z.to_nat n))).
  { intros d Hd. apply dict_get_In.
    rewrite plan_after_get by (rewrite Z2Nat.id by lia;
                               subst m; Z.div_mod_to_equations; lia).
    f_equal. f_equal. rewrite Z2Nat.id by lia.
    unfold last_same_weekday. subst m. Z.div_mod_to_equations. lia. }
  destruct (Z.eq_dec e n) as [Hen | Hen].
  - exists (weekday_name
              (day_after (PlannerAgent.start_date info) ((n - 1) mod 7))),
      (sessions_of_day topics (PlannerAgent.daily_hours info) (n - 1)),
      "14:00".
    split; [apply Hget; subst m; lia |].
    destruct (sessions_of_day_full topics (PlannerAgent.daily_hours info)
                (n - 1) Hh) as [_ H14].
    replace (n - 1 + 1) with e in H14 by lia.
    unfold PlannerAgent.topic_at in H14. fold len in H14.
    now rewrite Hej, Nat2Z.id in H14.
  - exists (weekday_name
              (day_after (PlannerAgent.start_date info) (e mod 7))),
      (sessions_of_day topics (PlannerAgent.daily_hours info) e),
      "09:00".
    split; [apply Hget; lia |].
    destruct (sessions_of_day_full topics (PlannerAgent.daily_hours info)
                e Hh) as [H9 _].
    unfold PlannerAgent.topic_at in H9. fold len in H9.
    now rewrite Hej, Nat2Z.id in H9.
Qed.

Lemma create_study_schedule_covers_topics_witness :
  exists day sessions time_of_day,
    In (day, sessions)
      (plan_after ["Calculus"; "Physics"] 4 monday 2)
    /\ In (PlannerAgent.study_session time_of_day "Physics") sessions.
Proof.
  apply (create_study_schedule_covers_topics (two_topic_request 2));
    [vm_compute; reflexivity | vm_compute; discriminate
    | vm_compute; discriminate | simpl; tauto].
Defined.

(** ** The break stage of the planner on any plan *)

Lemma optimize_sessions_spec :
  forall (sessions acc : list session),
    match PlannerAgent.optimize_sessions sessions acc with
    | Returns out =>
        forallb readable sessions = true
        /\ out = (acc ++ flat_map with_break sessions)%list
    | Raises e => forallb readable sessions = false /\ unreadable_error e
    end.
Proof.
  unfold unreadable_error.
  induction sessions as [| s r IH]; intros acc; simpl.
  - now rewrite app_nil_r.
  - destruct s as [d | t hours |]; simpl; [| now auto | now auto].
    destruct (session_type d) as [ty |] eqn:Ety; simpl; [| now auto].
    destruct (String.eqb ty "focused_study") eqn:Ef.
    + destruct (time d) as [t |] eqn:Et; simpl; [| now auto].
      specialize (IH ((acc ++ [SDict d])
                      ++ [SchedulerUtils.break_session
                            (PlannerAgent._add_minutes_to_time t 120)])%list).
      destruct (PlannerAgent.optimize_sessions r _) as [out | e];
        [| exact IH].
      destruct IH as [Hr ->]. split; [exact Hr |].
      now rewrite <- !app_assoc.
    + specialize (IH (acc ++ [SDict d])%list).
      destruct (PlannerAgent.optimize_sessions r _) as [out | e];
        [| exact IH].
      destruct IH as [Hr ->]. split; [exact Hr |].
      destruct (time d); now rewrite <- !app_assoc.
Qed.

Lemma optimize_days_spec :
  forall (items : list (string * list session)) (acc : schedule),
    match PlannerAgent.optimize_days items acc with
    | Returns out =>
        forallb (fun kv => forallb readable (snd kv)) items = true
        /\ (NoDup (dict_keys items) ->
            (forall k, In k (dict_keys items) -> ~ In k (dict_keys acc)) ->
            out = (acc ++ map (fun '(k, v) => (k, flat_map with_break v))
                           items)%list)
    | Raises e =>
        forallb (fun kv => forallb readable (snd kv)) items = false
        /\ unreadable_error e
    end.
Proof.
  induction items as [| [day sessions] r IH]; intros acc; simpl.
  - split; [reflexivity |]. intros _ _. now rewrite app_nil_r.
  - pose proof (optimize_sessions_spec sessions []) as Hs.
    destruct (PlannerAgent.optimize_sessions sessions []) as [o | e]; simpl.
    + destruct Hs as [Hr ->]. rewrite Hr. simpl.
      specialize (IH (dict_set day (flat_map with_break sessions) acc)).
      destruct (PlannerAgent.optimize_days r _) as [out | e]; [| exact IH].
      destruct IH as [Hall Heq]. split; [exact Hall |].
      intros Hnd Hfresh. inversion Hnd as [| ? ? Hday Hnd']; subst.
      rewrite dict_set_fresh in Heq by (apply Hfresh; now left).
      rewrite Heq; [now rewrite <- app_assoc | assumption |].
      intros k Hk. unfold dict_keys. rewrite map_app, in_app_iff. simpl.
      intros [H | [H | []]].
      * apply (Hfresh k); [now right | assumption].
      * subst k. contradiction.
    + destruct Hs as [Hr He]. rewrite Hr. now split.
Qed.

Lemma forallb_readable_iff (plan : schedule) :
  forallb (fun kv => forallb readable (snd kv)) plan = true
  <-> (forall day sessions s,
         In (day, sessions) plan -> In s sessions -> readable s = true).
Proof.
  rewrite forallb_forall. split.
  - intros H day sessions s Hin Hs. specialize (H _ Hin). simpl in H.
    rewrite forallb_forall in H. now apply H.
  - intros H [day sessions] Hin. simpl. rewrite forallb_forall.
    intros s Hs. exact (H day sessions s Hin Hs).
Qed.

(** [_optimize_schedule] returns exactly when it can read every session of
    the plan: each is a dictionary with a session type, and a
    focused-study session has a time.  Otherwise it raises, a [KeyError]
    for the missing key or a [TypeError] for a session that is not a
    dictionary, and no plan is returned.  The request is not read. *)
Theorem optimize_schedule_reads_sessions (plan : schedule)
    (info : PlannerAgent.study_info) :
  ((exists out, PlannerAgent._optimize_schedule plan info = Returns out)
   <-> (forall day sessions s,
          In (day, sessions) plan -> In s sessions -> readable s = true))
  /\ (forall e, PlannerAgent._optimize_schedule plan info = Raises e ->
        unreadable_error e)
  /\ (forall info',
        PlannerAgent._optimize_schedule plan info'
        = PlannerAgent._optimize_schedule plan info).
Proof.
  unfold PlannerAgent._optimize_schedule.
  pose proof (optimize_days_spec plan []) as H.
  rewrite <- forallb_readable_iff.
  destruct (PlannerAgent.optimize_days plan []) as [out | e].
  - destruct H as [Hall _]. repeat split.
    + intros _. exact Hall.
    + intros _. now exists out.
    + discriminate.
  - destruct H as [Hall He]. repeat split.
    + intros [out Hout]. discriminate.
    + intros Ht. congruence.
    + intros e' [= <-]. exact He.
Qed.








(** ** The summary of a plan *)

Lemma count_study_spec (sessions : list session) :
  match PlannerAgent.count_study sessions with
  | Returns n =>
      forallb typed sessions = true
      /\ n = Z.of_nat (List.length (filter is_study sessions))
  | Raises e =>
      forallb typed sessions = false
      /\ (e = KeyError "session_type" \/ e = TypeError)
  end.
Proof.
  induction sessions as [| s r IH]; simpl; [now split |].
  destruct s as [d | t hours |]; simpl; [| now auto | now auto].
  destruct (session_type d) as [ty |]; simpl; [| now auto].
  destruct (PlannerAgent.count_study r) as [n | e]; [| exact IH].
  destruct IH as [Hr ->]. cbn [bind]. split; [exact Hr |].
  destruct (String.eqb ty "focused_study" || String.eqb ty "review");
    [| reflexivity].
  change (1 + Z.of_nat (List.length (filter is_study r))
          = Z.of_nat (S (List.length (filter is_study r)))).
  lia.
Qed.

Lemma covered_topics_spec (sessions : list session) :
  forallb typed sessions = true ->
  exists covered,
    PlannerAgent.covered_topics sessions = Returns covered
    /\ forall t, In t covered
                 <-> t <> "" /\ t <> "Rest"
                     /\ exists s, In s sessions /\ names_topic t s.
Proof.
  unfold names_topic.
  induction sessions as [| s r IH]; simpl; intros H.
  - exists []. split; [reflexivity |]. intros t. split; [intros [] |].
    intros (_ & _ & s & [] & _).
  - apply andb_true_iff in H. destruct H as [Hs Hr].
    destruct (IH Hr) as (later & -> & Hlater). clear IH.
    destruct s as [d | t0 hours |]; simpl in Hs; try discriminate.
    assert (Hskip : (forall t, topic d <> Some (Some t)
                               \/ topic d = Some (Some "")
                               \/ topic d = Some (Some "Rest")) ->
              forall t, In t later
                        <-> t <> "" /\ t <> "Rest"
                            /\ exists s, (SDict d = s \/ In s r)
                                         /\ exists d0, s = SDict d0
                                              /\ topic d0 = Some (Some t)).
    { intros Hno t. rewrite Hlater. split.
      - intros (H1 & H2 & s & Hin & Hs'). repeat split; try assumption.
        exists s. split; [now right | assumption].
      - intros (H1 & H2 & s & [<- | Hin] & d0 & Hd0 & Htop).
        + injection Hd0 as <-. destruct (Hno t) as [Hn | [Hn | Hn]];
            congruence.
        + repeat split; try assumption. exists s. split; [assumption |].
          now exists d0. }
    simpl. destruct (topic d) as [[t0 |] |] eqn:Et; simpl.
    + destruct (String.eqb t0 "") eqn:E1; simpl.
      { apply String.eqb_eq in E1. subst t0. exists later.
        split; [reflexivity |]. apply Hskip. intros t. now right; left. }
      destruct (String.eqb t0 "Rest") eqn:E2; simpl.
      { apply String.eqb_eq in E2. subst t0. exists later.
        split; [reflexivity |]. apply Hskip. intros t. now right; right. }
      apply String.eqb_neq in E1, E2.
      exists (t0 :: later). split; [reflexivity |].
      intros t. simpl. rewrite Hlater. split.
      * intros [<- | (H1 & H2 & s & Hin & Hs')].
        -- repeat split; try assumption. exists (SDict d).
           split; [now left | now exists d].
        -- repeat split; try assumption. exists s.
           split; [now right | assumption].
      * intros (H1 & H2 & s & [<- | Hin] & d0 & Hd0 & Htop).
        -- injection Hd0 as <-. left. congruence.
        -- right. repeat split; try assumption. exists s.
           split; [assumption | now exists d0].
    + exists later. split; [reflexivity |]. apply Hskip.
      intros t. left. discriminate.
    + exists later. split; [reflexivity |]. apply Hskip.
      intros t. left. discriminate.
Qed.

Lemma in_all_sessions (plan : schedule) (s : session) :
  In s (all_sessions plan)
  <-> exists day sessions, In (day, sessions) plan /\ In s sessions.
Proof.
  unfold all_sessions, dict_values. rewrite in_concat. split.
  - intros (sessions & Hin & Hs). apply in_map_iff in Hin.
    destruct Hin as ([day sessions'] & <- & Hin). now exists day, sessions'.
  - intros (day & sessions & Hin & Hs). exists sessions.
    split; [| assumption]. apply in_map_iff. now exists (day, sessions).
Qed.

(** [_generate_plan_summary] returns exactly when every session of the plan
    is a dictionary with a session type; otherwise it raises a [KeyError]
    or a [TypeError].  The summary it returns counts the days of the plan,
    all the sessions, and the study sessions, which are those of type
    focused study or review, so at most all; the estimate is 2 hours for
    each study session whatever its duration.  When the set of topics is
    listed as a set is, the topics covered are, each once, the non-empty
    topic texts of the sessions other than [Rest]: a session of any type
    counts, a break too when its topic is not [Rest]. *)
Theorem generate_plan_summary_counts (env : PlannerAgent.environment)
    (plan : schedule) :
  ((exists s, PlannerAgent._generate_plan_summary env plan = Returns s)
   <-> forall s, In s (all_sessions plan) -> typed s = true)
  /\ (forall e, PlannerAgent._generate_plan_summary env plan = Raises e ->
        e = KeyError "session_type" \/ e = TypeError)
  /\ forall s,
       PlannerAgent._generate_plan_summary env plan = Returns s ->
       PlannerAgent.total_days s = Z.of_nat (List.length plan)
       /\ PlannerAgent.total_sessions s
          = Z.of_nat (List.length (all_sessions plan))
       /\ PlannerAgent.study_sessions s
          = Z.of_nat (List.length (filter is_study (all_sessions plan)))
       /\ 0 <= PlannerAgent.study_sessions s <= PlannerAgent.total_sessions s
       /\ PlannerAgent.estimated_hours s = 2 * PlannerAgent.study_sessions s
       /\ (lists_the_set (PlannerAgent.list_of_set env) ->
           NoDup (PlannerAgent.topics_covered s)
           /\ forall t,
                In t (PlannerAgent.topics_covered s)
                <-> t <> "" /\ t <> "Rest"
                    /\ exists x, In x (all_sessions plan) /\ names_topic t x).
Proof.
  unfold PlannerAgent._generate_plan_summary. fold (all_sessions plan).
  pose proof (count_study_spec (all_sessions plan)) as Hc.
  rewrite <- forallb_forall.
  destruct (PlannerAgent.count_study (all_sessions plan)) as [n | e];
    cbn [bind].
  - destruct Hc as [Hall ->].
    destruct (covered_topics_spec _ Hall) as (covered & -> & Hcov).
    cbn [bind].
    split; [split; [intros _; exact Hall | intros _; eexists; reflexivity] |].
    split; [discriminate |].
    intros s [= <-].
    cbn [PlannerAgent.total_days PlannerAgent.total_sessions
         PlannerAgent.study_sessions PlannerAgent.estimated_hours
         PlannerAgent.topics_covered].
    pose proof (filter_length_le is_study (all_sessions plan)) as Hle.
    do 3 (split; [reflexivity |]). split; [lia |]. split; [lia |].
    intros Hset. destruct (Hset covered) as [Hnd Hin].
    split; [exact Hnd |]. intros t. now rewrite Hin.
  - destruct Hc as [Hall He]. split; [| split].
    + split; [intros [s Hs]; discriminate | intros Ht; congruence].
    + intros e' [= <-]. exact He.
    + discriminate.
Qed.

(** ** A request that is planned *)






(** ** The request read from a text *)






(** ** The topics of a text *)








(** ** The intent of a request *)

Lemma max_key_spec :
  forall (rest done : list (string * Z)) (bk : string) (bv : Z),
    first_highest done bk bv ->
    exists v,
      first_highest (done ++ rest)
        (CoordinatorAgent.max_key (bk, bv) rest) v.
Proof.
  induction rest as [| [k v] r IH]; intros done bk bv Hbest.
  - rewrite app_nil_r. now exists bv.
  - cbn [CoordinatorAgent.max_key snd].
    replace (done ++ (k, v) :: r)%list with ((done ++ [(k, v)]) ++ r)%list
      by (rewrite <- app_assoc; reflexivity).
    destruct Hbest as (i & Hi & Hmax).
    assert (Hlt : (i < List.length done)%nat)
      by (apply nth_error_Some; congruence).
    destruct (bv <? v) eqn:E; [apply Z.ltb_lt in E | apply Z.ltb_ge in E];
      apply IH.
    + exists (List.length done). split.
      * rewrite nth_error_app2, Nat.sub_diag by lia. reflexivity.
      * intros j k' v' Hj.
        destruct (Nat.lt_ge_cases j (List.length done)) as [Hjl | Hjl].
        -- rewrite nth_error_app1 in Hj by assumption.
           destruct (Hmax j k' v' Hj) as [Hle _]. lia.
        -- rewrite nth_error_app2 in Hj by assumption.
           destruct (j - List.length done)%nat as [| n] eqn:En; simpl in Hj.
           ++ injection Hj as <- <-. lia.
           ++ destruct n; discriminate.
    + exists i. split.
      * rewrite nth_error_app1 by assumption. exact Hi.
      * intros j k' v' Hj.
        destruct (Nat.lt_ge_cases j (List.length done)) as [Hjl | Hjl].
        -- rewrite nth_error_app1 in Hj by assumption.
           exact (Hmax j k' v' Hj).
        -- rewrite nth_error_app2 in Hj by assumption.
           destruct (j - List.length done)%nat as [| n] eqn:En; simpl in Hj.
           ++ injection Hj as <- <-. lia.
           ++ destruct n; discriminate.
Qed.

Lemma max_by_value_spec (d : dict Z) :
  d <> [] ->
  exists k v,
    CoordinatorAgent.max_by_value d = Returns k /\ first_highest d k v.
Proof.
  destruct d as [| [k0 v0] r]; [congruence |]. intros _.
  destruct (max_key_spec r [(k0, v0)] k0 v0) as [v Hv].
  - exists 0%nat. split; [reflexivity |].
    intros j k' v' Hj. destruct j as [| j]; simpl in Hj.
    + injection Hj as <- <-. lia.
    + destruct j; discriminate.
  - eexists. exists v. split; [reflexivity | exact Hv].
Qed.

Lemma fold_max_spec :
  forall (r : list Z) (x : Z),
    (forall y, In y (x :: r) -> y <= fold_left Z.max r x)
    /\ In (fold_left Z.max r x) (x :: r).
Proof.
  induction r as [| y r IH]; intros x; cbn [fold_left].
  - split; [intros y [<- | []]; lia | now left].
  - destruct (IH (Z.max x y)) as [Hle Hin]. split.
    + intros z [<- | [<- | Hz]].
      * specialize (Hle (Z.max x y) (or_introl eq_refl)). lia.
      * specialize (Hle (Z.max x y) (or_introl eq_refl)). lia.
      * apply Hle. now right.
    + destruct Hin as [Hin | Hin]; [| now right; right].
      rewrite <- Hin. destruct (Z.max_spec x y) as [[_ ->] | [_ ->]];
        [right; now left | now left].
Qed.

Lemma intent_scores_eq (patterns : dict (list CoordinatorAgent.pattern))
    (text : string) :
  dict_wf patterns ->
  CoordinatorAgent.intent_scores patterns text
  = map (fun '(k, ps) => (k, CoordinatorAgent.score ps text)) patterns.
Proof.
  intros Hwf. unfold CoordinatorAgent.intent_scores.
  rewrite (fold_dict_set_map (fun ps => CoordinatorAgent.score ps text))
    by (assumption || (intros k _ F; exact F)).
  reflexivity.
Qed.

Lemma detect_intent_with_spec (patterns : dict (list CoordinatorAgent.pattern))
    (user_input : string) :
  dict_wf patterns ->
  patterns <> [] ->
  let scored := map (fun '(k, ps) =>
                       (k, CoordinatorAgent.score ps (lower user_input)))
                  patterns in
  exists intent,
    CoordinatorAgent.detect_intent_with patterns user_input = Returns intent
    /\ ((forall k v, In (k, v) scored -> v = 0) /\ intent = "general"
        \/ exists v, 0 < v /\ first_highest scored intent v).
Proof.
  intros Hwf Hne scored. unfold CoordinatorAgent.detect_intent_with.
  rewrite intent_scores_eq by assumption. fold scored.
  assert (Hsne : scored <> [])
    by (subst scored; destruct patterns; [congruence | discriminate]).
  assert (Hpos : forall k v, In (k, v) scored -> 0 <= v).
  { intros k v Hin. subst scored. apply in_map_iff in Hin.
    destruct Hin as ([k' ps] & [= <- <-] & _).
    unfold CoordinatorAgent.score. lia. }
  destruct (max_by_value_spec scored Hsne) as (k & v & Hk & Hfirst).
  destruct scored as [| [k0 v0] r] eqn:Es; [congruence |].
  cbn [dict_values map snd CoordinatorAgent.max_of bind].
  destruct (fold_max_spec (map snd r) v0) as [Hle Hin].
  set (m := fold_left Z.max (map snd r) v0) in *.
  assert (Hvals : forall y, In y (v0 :: map snd r)
                            <-> exists k', In (k', y) ((k0, v0) :: r)).
  { intros y. change (v0 :: map snd r) with (map snd ((k0, v0) :: r)).
    rewrite in_map_iff. split.
    - intros ([k' y'] & <- & H). now exists k'.
    - intros [k' H]. now exists (k', y). }
  destruct (0 <? m) eqn:E; [apply Z.ltb_lt in E | apply Z.ltb_ge in E].
  - exists k. split; [exact Hk |]. right. exists v. split; [| exact Hfirst].
    apply Hvals in Hin. destruct Hin as [k' Hin].
    apply In_nth_error in Hin. destruct Hin as [j Hj].
    destruct Hfirst as (i & _ & Hmax).
    destruct (Hmax j k' m Hj) as [Hm _]. lia.
  - exists "general". split; [reflexivity |]. left. split; [| reflexivity].
    intros k' v' Hin'. specialize (Hpos k' v' Hin').
    assert (v' <= m) by (apply Hle, Hvals; now exists k'). lia.
Qed.


Lemma intent_patterns_wf : dict_wf CoordinatorAgent.intent_patterns.
Proof.
  unfold dict_wf. simpl.
  repeat constructor; simpl; intuition discriminate.
Qed.


(** A text in which [schedule] and [study] follow each other is found by a
    pattern of the calendar too, and the calendar comes first: a request
    that mentions [schedule] goes to the planner only if at least two of
    the planner's patterns are found in it. *)
Theorem detect_intent_schedule_needs_two (user_input : string) :
  contains "schedule" (lower user_input) = true ->
  CoordinatorAgent.detect_intent user_input = Returns "plan" ->
  2 <= CoordinatorAgent.score CoordinatorAgent.plan_patterns
         (lower user_input).
Proof.
  intros Hsched Hplan. unfold CoordinatorAgent.detect_intent in Hplan.
  destruct (detect_intent_with_spec CoordinatorAgent.intent_patterns
              user_input intent_patterns_wf) as (intent & Hrun & Hcases);
    [discriminate |].
  rewrite Hplan in Hrun. injection Hrun as <-.
  destruct Hcases as [[_ H] | (v & _ & i & Hi & Hmax)]; [discriminate |].
  assert (Hcal : 1 <= CoordinatorAgent.score CoordinatorAgent.calendar_patterns
                        (lower user_input)).
  { unfold CoordinatorAgent.score, CoordinatorAgent.calendar_patterns.
    cbn [filter CoordinatorAgent.re_search]. rewrite Hsched.
    cbn [List.length]. lia. }
  cbn [map CoordinatorAgent.intent_patterns] in Hi, Hmax.
  destruct i as [| [| [| [| i]]]]; cbn [nth_error] in Hi;
    try discriminate; [| destruct i; discriminate].
  injection Hi as <-.
  destruct (Hmax 0%nat _ _ eq_refl) as [_ Hlt].
  specialize (Hlt ltac:(lia)). lia.
Qed.

Lemma detect_intent_schedule_needs_two_witness :
  2 <= CoordinatorAgent.score CoordinatorAgent.plan_patterns
         (lower "Organize my study schedule and study plan").
Proof.
  apply (detect_intent_schedule_needs_two
           "Organize my study schedule and study plan");
    vm_compute; reflexivity.
Defined.

Example detect_intent_ex :
  CoordinatorAgent.detect_intent "Schedule study time for the exam"
  = Returns "calendar"
  /\ CoordinatorAgent.detect_intent "Make a study plan for the exam"
     = Returns "plan"
  /\ CoordinatorAgent.detect_intent "Hello there" = Returns "general".
Proof. repeat split; vm_compute; reflexivity. Qed.

(** ** The times of a plan *)

Lemma created_day_in_sequence (topics : list string) (h ti : Z) :
  exists out,
    PlannerAgent.optimize_sessions
      (fst (PlannerAgent.daily_sessions topics h ti)) [] = Returns out
    /\ in_sequence out = true.
Proof.
  unfold PlannerAgent.daily_sessions.
  destruct (2 <=? h) eqn:E1.
  - destruct (2 <=? h - 2).
    + destruct (1 <=? h - 2 - 2);
        (eexists; split; [reflexivity | vm_compute; reflexivity]).
    + destruct (1 <=? h - 2);
        (eexists; split; [reflexivity | vm_compute; reflexivity]).
  - rewrite E1.
    destruct (1 <=? h);
      (eexists; split; [reflexivity | vm_compute; reflexivity]).
Qed.

(** In every day of a plan the two stages return, the sessions follow each
    other in time without overlap: each starts when the one before has
    ended or later, a break starts at the minute the 2 hours of its study
    session end, and the last session ends within the day. *)
Theorem build_plan_in_sequence (info : PlannerAgent.study_info)
    (plan : schedule) (day : string) (sessions : list session) :
  build_plan info = Returns plan ->
  In (day, sessions) plan ->
  in_sequence sessions = true.
Proof.
  intros Hplan Hin. unfold build_plan in Hplan.
  destruct (PlannerAgent._create_study_schedule info) as [plan0 | e] eqn:E;
    cbn [bind] in Hplan; [| discriminate].
  apply create_study_schedule_inv in E.
  unfold PlannerAgent._optimize_schedule in Hplan.
  destruct (optimize_days_values
              (fun v => exists i,
                 v = sessions_of_day (PlannerAgent.topics info)
                       (PlannerAgent.daily_hours info) i)
              (fun out => in_sequence out = true))
    with (items := plan0) (acc := @nil (string * list session))
    as (out & Hout & Hall).
  - intros v [i ->]. apply created_day_in_sequence.
  - subst plan0. apply plan_after_values.
  - constructor.
  - rewrite Hplan in Hout. injection Hout as <-.
    rewrite Forall_forall in Hall. apply Hall.
    eapply dict_In_values. exact Hin.
Qed.

Lemma build_plan_in_sequence_witness :
  in_sequence
    [PlannerAgent.study_session "09:00" "Calculus";
     SchedulerUtils.break_session "11:00";
     PlannerAgent.study_session "14:00" "Physics";
     SchedulerUtils.break_session "16:00"] = true.
Proof.
  destruct (build_plan (two_topic_request 2)) as [plan | e] eqn:E;
    [| vm_compute in E; discriminate E].
  apply (build_plan_in_sequence (two_topic_request 2) plan "Monday" _ E).
  revert E. vm_compute. intros [= <-]. now left.
Defined.
